(** * Image ingestion pipeline of the illustration-sharing web application

    A shallow embedding of [image_service.py] (upload validation, storage and
    thumbnail generation) and of the [delete] view of [app.py], together with
    the properties of the pipeline that the design document states.

    Python values are modelled as follows.
    - [str] is a Rocq [string] holding the UTF-8 encoding of the text; the
      operations the code uses ([in], [rsplit], [startswith], concatenation)
      act on it exactly as they act on the text.
    - [int] is [Z]; [None] is the [None] of an [option].
    - Exceptions are values of [exn]; a computation is a function from the
      state of the world to an outcome and a new state (monad [M]).
    - Pillow, the operating system, the random generator and SQLite are the
      environment: record [Platform] holds what the code observes of them. *)

From Stdlib Require Import ZArith Ascii.
From stdpp Require Import gmap strings list fin_maps pretty.

Local Open Scope string_scope.
Local Open Scope Z_scope.

(** ** Python string operations used by the code *)

Module PyStr.

Definition code (c : ascii) : N := Ascii.N_of_ascii c.

Definition is_ascii (c : ascii) : bool := (code c <? 128)%N.

Definition is_upper (c : ascii) : bool := ((65 <=? code c) && (code c <=? 90))%N.

Definition is_lower (c : ascii) : bool := ((97 <=? code c) && (code c <=? 122))%N.

Definition is_digit (c : ascii) : bool := ((48 <=? code c) && (code c <=? 57))%N.

(** [str.lower] on one character. A byte of a non-ASCII character is left as
    it is: no non-ASCII character lowercases to a string of ASCII letters
    other than [k], so membership in [ALLOWED_EXTENSIONS] is the same. *)
Definition lower_char (c : ascii) : ascii :=
  if is_upper c then Ascii.ascii_of_N (code c + 32) else c.

Fixpoint lower (s : string) : string :=
  match s with
  | EmptyString => EmptyString
  | String c r => String (lower_char c) (lower r)
  end.

(** [c in s] for a one-character [c]. *)
Fixpoint contains (c : ascii) (s : string) : bool :=
  match s with
  | EmptyString => false
  | String a r => if decide (a = c) then true else contains c r
  end.

(** [s.rsplit(c, 1)[1]]: what follows the last [c]; [None] when [s] has no
    [c] (the list then has one element and the index raises). *)
Fixpoint after_last (c : ascii) (s : string) : option string :=
  match s with
  | EmptyString => None
  | String a r =>
      match after_last c r with
      | Some t => Some t
      | None => if decide (a = c) then Some r else None
      end
  end.

Definition startswith (s p : string) : bool := String.prefix p s.

Fixpoint endswith_char (s : string) (c : ascii) : bool :=
  match s with
  | EmptyString => false
  | String a EmptyString => if decide (a = c) then true else false
  | String _ r => endswith_char r c
  end.

(** ASCII white space of [str.isspace]: TAB, LF, VT, FF, CR, FS, GS, RS, US
    and the space. *)
Definition is_space (c : ascii) : bool :=
  ((9 <=? code c) && (code c <=? 13) || (28 <=? code c) && (code c <=? 32))%N.

(** [s.strip() == ""]: the text is made of white space only. Besides the
    ASCII white space, the UTF-8 encodings of the other characters for which
    [str.isspace] holds are recognised: U+0085, U+00A0, U+1680,
    U+2000..U+200A, U+2028, U+2029, U+202F, U+205F and U+3000. *)
Fixpoint is_blank (s : string) : bool :=
  match s with
  | EmptyString => true
  | String a r =>
      if is_space a then is_blank r
      else
        match r with
        | EmptyString => false
        | String b r' =>
            if (code a =? 194)%N && ((code b =? 133) || (code b =? 160))%N
            then is_blank r'
            else
              match r' with
              | EmptyString => false
              | String c r'' =>
                  let a := code a in
                  let b := code b in
                  let c := code c in
                  if ((a =? 225) && (b =? 154) && (c =? 128)
                      || (a =? 226) && (b =? 128)
                           && ((128 <=? c) && (c <=? 138) || (c =? 168)
                               || (c =? 169) || (c =? 175))
                      || (a =? 226) && (b =? 129) && (c =? 159)
                      || (a =? 227) && (b =? 128) && (c =? 128))%N
                  then is_blank r''
                  else false
              end
        end
  end.

(** [s.rfind(c)], as an index from the left. *)
Fixpoint rfind (c : ascii) (s : string) : option nat :=
  match s with
  | EmptyString => None
  | String a r =>
      match rfind c r with
      | Some i => Some (S i)
      | None => if decide (a = c) then Some O else None
      end
  end.

Fixpoint take (n : nat) (s : string) : string :=
  match n, s with
  | S n', String a r => String a (take n' r)
  | _, _ => EmptyString
  end.

Fixpoint drop (n : nat) (s : string) : string :=
  match n, s with
  | S n', String _ r => drop n' r
  | _, _ => s
  end.

(** [s.lstrip(chars)] and [s.strip(chars)] for a set of characters. *)
Fixpoint lstrip (p : ascii -> bool) (s : string) : string :=
  match s with
  | String a r => if p a then lstrip p r else s
  | EmptyString => EmptyString
  end.

Fixpoint rstrip (p : ascii -> bool) (s : string) : string :=
  match s with
  | EmptyString => EmptyString
  | String a r =>
      match rstrip p r with
      | EmptyString => if p a then EmptyString else String a EmptyString
      | t => String a t
      end
  end.

Definition strip (p : ascii -> bool) (s : string) : string :=
  rstrip p (lstrip p s).

Fixpoint filter (p : ascii -> bool) (s : string) : string :=
  match s with
  | EmptyString => EmptyString
  | String a r => if p a then String a (filter p r) else filter p r
  end.

Fixpoint map (f : ascii -> ascii) (s : string) : string :=
  match s with
  | EmptyString => EmptyString
  | String a r => String (f a) (map f r)
  end.

(** ["_".join(s.split())]: leading and trailing white space goes, every
    inner run of white space becomes one underscore. [pending] tells that a
    word has been emitted and white space was seen after it. *)
Fixpoint join_words (started pending : bool) (s : string) : string :=
  match s with
  | EmptyString => EmptyString
  | String a r =>
      if is_space a then join_words started started r
      else
        let rest := String a (join_words true false r) in
        if pending then String "_" rest else rest
  end.

(** Every character of [s] satisfies [p]. *)
Fixpoint forallb (p : ascii -> bool) (s : string) : bool :=
  match s with
  | EmptyString => true
  | String a r => p a && forallb p r
  end.

Definition is_letter (c : ascii) : bool := is_upper c || is_lower c.

End PyStr.

(** ** Values of the environment *)

(** Exceptions. Every value is an instance of Python's [Exception], so an
    [except Exception] clause catches all of them; [HTTPException] is what
    Flask's [abort] raises. *)
Inductive exn : Type :=
  | PyException (cls : string)
  | HTTPException (status : Z).

(** Files hold encoded images; directories are recorded by path. *)
Record FileSystem (Img : Type) : Type := mkFS {
  files : gmap string Img;
  dirs : gset string
}.
Arguments mkFS {Img} _ _.
Arguments files {Img} _.
Arguments dirs {Img} _.

(** A row of table [posts]; both columns may hold NULL. *)
Record PostRow : Type := mkPost {
  user_id : option Z;
  post_filename : option string
}.

Inductive SqlOp : Type :=
  | SqlConnect
  | SqlSelectPost (id : Z)
  | SqlDeletePost (id : Z)
  | SqlCommit.

(** What the code observes of Pillow, werkzeug, the operating system, the
    random generator and SQLite. An operation of a library that may raise
    returns the exception on the left. *)
Class Platform : Type := {
  Image : Type;
  Image_width : Image -> Z;
  Image_height : Image -> Z;
  Image_mode : Image -> string;
  (** [Image.open(stream)] on a stream rewound to offset 0 *)
  Image_open : list Byte.byte -> exn + Image;
  (** [image.verify()]: [Some e] when it raises *)
  Image_verify : Image -> option exn;
  Image_convert : Image -> string -> exn + Image;
  Image_copy : Image -> exn + Image;
  (** [image.thumbnail(size)] mutates the image; the new value is returned *)
  Image_thumbnail : Image -> Z * Z -> exn + Image;
  (** Pillow's registry [Image.EXTENSION]: format of a lowercased extension *)
  EXTENSION : string -> option string;
  (** failure of the encoder or of the write, for a format and a path *)
  save_error : Image -> string -> string -> FileSystem Image -> option exn;
  makedirs_error : string -> FileSystem Image -> option exn;
  remove_error : string -> FileSystem Image -> option exn;
  (** the n-th value of [os.urandom(16)], as a big-endian integer *)
  urandom16 : nat -> N;
  (** the ASCII characters that NFKD normalisation leaves of a run of
      non-ASCII characters (for instance [e] for an accented e) *)
  nfkd_residue : string -> string;
  sql_error : SqlOp -> gmap Z PostRow -> option exn
}.

(** ** [os.path], [uuid] and [werkzeug.utils.secure_filename] *)

Module Lib.

(** [posixpath.join(a, b)] *)
Definition os_path_join (a b : string) : string :=
  if PyStr.startswith b "/" then b
  else if decide (a = "") then b
  else if PyStr.endswith_char a "/" then a +:+ b
  else a +:+ "/" +:+ b.

(** What [os_path_join] puts before a relative second component. *)
Definition slashed (a : string) : string :=
  if decide (a = "") then ""
  else if PyStr.endswith_char a "/" then a
  else a +:+ "/".

(** The loop of [genericpath._splitext]: from [filenameIndex], look for a
    character other than the dot before [dotIndex]. [n] is the distance
    [dotIndex - filenameIndex]; [s] starts at [filenameIndex]. *)
Fixpoint has_stem (n : nat) (s : string) : bool :=
  match n, s with
  | S n', String a r => if decide (a = "."%char) then has_stem n' r else true
  | _, _ => false
  end.

(** [posixpath.splitext(p)] *)
Definition os_path_splitext (p : string) : string * string :=
  match PyStr.rfind "." p with
  | None => (p, "")
  | Some dotIndex =>
      let filenameIndex :=
        match PyStr.rfind "/" p with Some sepIndex => S sepIndex | None => O end in
      if decide (filenameIndex <= dotIndex)%nat then
        if has_stem (dotIndex - filenameIndex) (PyStr.drop filenameIndex p)
        then (PyStr.take dotIndex p, PyStr.drop dotIndex p)
        else (p, "")
      else (p, "")
  end.

Definition hex_digit (d : Z) : ascii :=
  if d <? 10 then Ascii.ascii_of_N (Z.to_N (48 + d))
  else Ascii.ascii_of_N (Z.to_N (87 + d)).

Definition is_hex_char (c : ascii) : bool := PyStr.contains c "0123456789abcdef".

(** ['%0nx' % z] for [0 <= z < 16^n] *)
Fixpoint hex (n : nat) (z : Z) (acc : string) : string :=
  match n with
  | O => acc
  | S n' => hex n' (z / 16) (String (hex_digit (z mod 16)) acc)
  end.

(** [uuid.UUID(bytes=b, version=4).int] for the 16 bytes [b] of integer [r]:
    the variant bits are set to RFC 4122 and the version to 4. *)
Definition uuid4_int (r : N) : Z :=
  let i := Z.of_N r mod 2 ^ 128 in
  let i := Z.land i (Z.lnot (Z.shiftl 49152 48)) in
  let i := Z.lor i (Z.shiftl 32768 48) in
  let i := Z.land i (Z.lnot (Z.shiftl 61440 64)) in
  Z.lor i (Z.shiftl 4 76).

(** [uuid.UUID.hex] *)
Definition uuid_hex (i : Z) : string := hex 32 i "".

(** Characters kept by [_filename_ascii_strip_re], [[^A-Za-z0-9_.-]]. *)
Definition filename_char (c : ascii) : bool :=
  PyStr.is_upper c || PyStr.is_lower c || PyStr.is_digit c
  || PyStr.contains c "_.-".

Section SecureFilename.
Context {P : Platform}.

Definition flush (run : string) : string :=
  if decide (run = "") then "" else nfkd_residue run.

(** [unicodedata.normalize("NFKD", s).encode("ascii", "ignore")]: ASCII
    characters stay, each run of non-ASCII characters leaves the ASCII part
    of its decomposition. [run] is the pending non-ASCII run. *)
Fixpoint nfkd_ascii (run s : string) : string :=
  match s with
  | EmptyString => flush run
  | String c r =>
      if PyStr.is_ascii c then flush run +:+ String c (nfkd_ascii "" r)
      else nfkd_ascii (run +:+ String c "") r
  end.

(** [werkzeug.utils.secure_filename] on a POSIX system ([os.sep] is the
    slash, [os.path.altsep] is [None], no device-name check). *)
Definition secure_filename (filename : string) : string :=
  let filename := nfkd_ascii "" filename in
  let filename :=
    PyStr.map (fun c => if decide (c = "/"%char) then " "%char else c) filename in
  let filename := PyStr.join_words false false filename in
  PyStr.strip (fun c => PyStr.contains c "._") (PyStr.filter filename_char filename).

End SecureFilename.

End Lib.

(** ** State of the world and the monad of effects *)

Section Model.
Context {P : Platform}.

Record World : Type := mkWorld {
  fs : FileSystem Image;
  (** number of values already drawn from [os.urandom] *)
  draws : nat;
  (** committed content of table [posts] *)
  posts : gmap Z PostRow;
  (** [g.db]: the open connection of the request, with its view of [posts] *)
  conn : option (gmap Z PostRow);
  (** records of [app.logger] *)
  log : list string
}.

Definition set_fs (f : FileSystem Image) (w : World) : World :=
  mkWorld f (draws w) (posts w) (conn w) (log w).

Definition M (A : Type) : Type := World -> (exn + A) * World.

Definition ret {A} (a : A) : M A := fun w => (inr a, w).

Definition raise {A} (e : exn) : M A := fun w => (inl e, w).

Definition bind {A B} (m : M A) (k : A -> M B) : M B :=
  fun w =>
    match m w with
    | (inr a, w') => k a w'
    | (inl e, w') => (inl e, w')
    end.

(** [try: m  except Exception: h] *)
Definition try_except {A} (m : M A) (h : exn -> M A) : M A :=
  fun w =>
    match m w with
    | (inr a, w') => (inr a, w')
    | (inl e, w') => h e w'
    end.

(** A library call that does not touch the state. *)
Definition call {A} (r : exn + A) : M A := fun w => (r, w).

Notation "'let*' x ':=' m 'in' k" := (bind m (fun x => k))
  (at level 10, x name, m at level 100, k at level 200).
Notation "m ';;;' k" := (bind m (fun _ => k))
  (at level 100, k at level 200, right associativity).

(** *** Operating system, Pillow and [uuid] *)

(** [os.makedirs(path, exist_ok=True)]: [FileExistsError] when the path is a
    regular file, another [OSError] when the platform says so. *)
Definition os_makedirs (path : string) : M unit :=
  fun w =>
    match files (fs w) !! path with
    | Some _ => (inl (PyException "FileExistsError"), w)
    | None =>
        match makedirs_error path (fs w) with
        | Some e => (inl e, w)
        | None => (inr tt, set_fs (mkFS (files (fs w)) ({[path]} ∪ dirs (fs w))) w)
        end
    end.

(** [os.path.exists(path)] *)
Definition os_path_exists (path : string) : M bool :=
  fun w =>
    (inr (bool_decide (is_Some (files (fs w) !! path)) || bool_decide (path ∈ dirs (fs w))), w).

(** [os.remove(path)] *)
Definition os_remove (path : string) : M unit :=
  fun w =>
    match files (fs w) !! path with
    | None =>
        (inl (PyException (if bool_decide (path ∈ dirs (fs w))
                           then "IsADirectoryError" else "FileNotFoundError")), w)
    | Some _ =>
        match remove_error path (fs w) with
        | Some e => (inl e, w)
        | None => (inr tt, set_fs (mkFS (delete path (files (fs w))) (dirs (fs w))) w)
        end
    end.

(** [image.save(path)]: the format comes from the lowercased extension of the
    path, an extension that is not registered raises [ValueError]; then the
    encoder writes the file. *)
Definition Image_save (image : Image) (path : string) : M unit :=
  fun w =>
    match EXTENSION (PyStr.lower (snd (Lib.os_path_splitext path))) with
    | None => (inl (PyException "ValueError"), w)
    | Some format =>
        match save_error image format path (fs w) with
        | Some e => (inl e, w)
        | None => (inr tt, set_fs (mkFS (<[path := image]> (files (fs w))) (dirs (fs w))) w)
        end
    end.

(** [uuid.uuid4().hex] *)
Definition uuid4_hex : M string :=
  fun w =>
    (inr (Lib.uuid_hex (Lib.uuid4_int (urandom16 (draws w)))),
     mkWorld (fs w) (S (draws w)) (posts w) (conn w) (log w)).

(** [app.logger.exception(msg)] *)
Definition logger_exception (msg : string) : M unit :=
  fun w => (inr tt, mkWorld (fs w) (draws w) (posts w) (conn w) (log w ++ [msg])).

(** ** [image_service.py] *)

Definition ALLOWED_EXTENSIONS : list string := ["png"; "jpg"; "jpeg"; "gif"; "webp"].

Definition DEFAULT_MAX_DIMENSIONS : Z * Z := (4000, 4000).

Definition DEFAULT_THUMBNAIL_SIZE : Z * Z := (300, 300).

Definition allowed_file (filename : string) : bool :=
  if bool_decide (filename = "") || negb (PyStr.contains "." filename) then false
  else
    match PyStr.after_last "." filename with
    | Some file_extension =>
        bool_decide (PyStr.lower file_extension ∈ ALLOWED_EXTENSIONS)
    | None => false
    end.

(** The stream is a sequence of bytes; [stream.seek(0)] rewinds it, so both
    calls of [Image.open] read it from the start. *)
Definition _verify_image (stream : list Byte.byte) : M Image :=
  let* image := call (Image_open stream) in
  (match Image_verify image with Some e => raise e | None => ret tt end);;;
  call (Image_open stream).

Definition _ensure_saveable_mode (image : Image) : M Image :=
  if bool_decide (Image_mode image ∈ ["RGBA"; "P"])
  then call (Image_convert image "RGB")
  else ret image.

Definition _save_image (image : Image) (filepath : string) : M unit :=
  let* image_to_save := _ensure_saveable_mode image in
  Image_save image_to_save filepath.

Definition create_thumbnail (image : Image) (thumbnail_dir filename : string)
    (size : Z * Z) : M unit :=
  os_makedirs thumbnail_dir;;;
  let thumbnail_path := Lib.os_path_join thumbnail_dir filename in
  let* thumb := call (Image_copy image) in
  let* thumb := call (Image_thumbnail thumb size) in
  let* thumb :=
    (if bool_decide (Image_mode thumb ∈ ["RGBA"; "P"])
     then call (Image_convert thumb "RGB")
     else ret thumb) in
  Image_save thumb thumbnail_path.

(** The uploaded file as werkzeug hands it over. *)
Record FileStorage : Type := mkFileStorage {
  filename : option string;
  content_type : option string;
  mimetype : option string;
  stream : list Byte.byte
}.

(** [a or b] on values that are [None] or a string *)
Definition py_or (a b : option string) : option string :=
  match a with
  | Some s => if decide (s = "") then b else a
  | None => b
  end.

Definition size_message (max_w max_h : Z) : string :=
  "画像のサイズが大きすぎます（最大 " +:+ pretty max_w +:+ "x" +:+ pretty max_h +:+ "）。".

Definition process_uploaded_image (file_storage : option FileStorage)
    (upload_base_dir : string) (max_dimensions thumbnail_size : Z * Z)
    : M (option string * option string) :=
  match file_storage with
  | None => ret (None, Some "画像ファイルが選択されていません")
  | Some file_storage =>
      let filename_original := default "" (filename file_storage) in
      if PyStr.is_blank filename_original then
        ret (None, Some "画像ファイルが選択されていません")
      else if negb (allowed_file filename_original) then
        ret (None, Some "画像ファイル（png,jpg,jpeg,gif,webp）をアップロードしてください")
      else
        let mimetype := py_or (content_type file_storage) (mimetype file_storage) in
        if negb (match mimetype with
                 | Some m => negb (bool_decide (m = "")) && PyStr.startswith m "image/"
                 | None => false
                 end) then
          ret (None, Some "画像ファイルをアップロードしてください")
        else
          let safe_name := Lib.secure_filename filename_original in
          let ext := snd (Lib.os_path_splitext safe_name) in
          let* token := uuid4_hex in
          let filename := token +:+ ext in
          let filepath := Lib.os_path_join upload_base_dir filename in
          let* verified :=
            try_except
              (let* image := _verify_image (stream file_storage) in ret (Some image))
              (fun _ => ret None) in
          match verified with
          | None => ret (None, Some "有効な画像ファイルをアップロードしてください")
          | Some image =>
              let '(max_w, max_h) := max_dimensions in
              if (Image_width image >? max_w) || (Image_height image >? max_h) then
                ret (None, Some (size_message max_w max_h))
              else
                os_makedirs upload_base_dir;;;
                let* saved :=
                  try_except
                    (_save_image image filepath;;; ret true)
                    (fun _ => ret false) in
                if negb saved then
                  ret (None, Some "有効な画像ファイルをアップロードしてください")
                else
                  let thumbnail_dir := Lib.os_path_join upload_base_dir "thumbs" in
                  try_except
                    (create_thumbnail image thumbnail_dir filename thumbnail_size)
                    (fun _ => ret tt);;;
                  ret (Some filename, None)
          end
  end.

(** ** The [delete] view of [app.py] *)

Record CurrentUser : Type := mkUser {
  is_authenticated : bool;
  (** [int(current_user.id)] *)
  user_ident : Z;
  username : string
}.

Inductive Response : Type :=
  | Redirect (endpoint : string).

(** [abort(status)] *)
Definition abort {A} (status : Z) : M A := raise (HTTPException status).

(** [get_db()]: one connection per request, kept in [g]. *)
Definition get_db : M unit :=
  fun w =>
    match conn w with
    | Some _ => (inr tt, w)
    | None =>
        match sql_error SqlConnect (posts w) with
        | Some e => (inl e, w)
        | None => (inr tt, mkWorld (fs w) (draws w) (posts w) (Some (posts w)) (log w))
        end
    end.

(** A statement on the connection: [view] computes the result and the new
    view of the table. *)
Definition db_execute {A} (op : SqlOp)
    (view : gmap Z PostRow -> A * gmap Z PostRow) : M A :=
  fun w =>
    match conn w with
    | None => (inl (PyException "ProgrammingError"), w)
    | Some t =>
        match sql_error op t with
        | Some e => (inl e, w)
        | None =>
            let '(a, t') := view t in
            (inr a, mkWorld (fs w) (draws w) (posts w) (Some t') (log w))
        end
    end.

(** [database.commit()] *)
Definition db_commit : M unit :=
  fun w =>
    match conn w with
    | None => (inl (PyException "ProgrammingError"), w)
    | Some t =>
        match sql_error SqlCommit t with
        | Some e => (inl e, w)
        | None => (inr tt, mkWorld (fs w) (draws w) t (Some t) (log w))
        end
    end.

(** [int(x)] on a column value: [TypeError] on NULL. *)
Definition py_int (x : option Z) : M Z :=
  match x with
  | Some z => ret z
  | None => raise (PyException "TypeError")
  end.

(** The loop over the two paths of the view. *)
Fixpoint remove_files (paths : list string) : M unit :=
  match paths with
  | [] => ret tt
  | path :: rest =>
      (if negb (bool_decide (path = "")) then
         let* present := os_path_exists path in
         if present then
           try_except (os_remove path)
             (fun _ => logger_exception ("failed to remove file: " +:+ path))
         else ret tt
       else ret tt);;;
      remove_files rest
  end.

Definition delete (current_user : CurrentUser) (id : Z) : M Response :=
  (if negb (is_authenticated current_user) then abort 401 else ret tt);;;
  try_except
    (get_db;;;
     let* row := db_execute (SqlSelectPost id) (fun t => (t !! id, t)) in
     match row with
     | None => ret (Redirect "home")
     | Some row =>
         let owner_id := user_id row in
         let filename := post_filename row in
         let* owner := py_int owner_id in
         (if negb (bool_decide (user_ident current_user = owner))
             && negb (bool_decide (username current_user = "admin"))
          then abort 403 else ret tt);;;
         let* paths :=
           match filename with
           | Some filename =>
               ret [Lib.os_path_join (Lib.os_path_join "static" "uploads") filename;
                    Lib.os_path_join
                      (Lib.os_path_join (Lib.os_path_join "static" "uploads") "thumbs")
                      filename]
           | None => raise (PyException "TypeError")
           end in
         remove_files paths;;;
         db_execute (SqlDeletePost id) (fun t => (tt, base.delete id t));;;
         db_commit;;;
         ret (Redirect "home")
     end)
    (fun _ => logger_exception "failed to delete post";;; abort 500).

End Model.

(** ** A small platform to run the code on

    Images are their header; a stream decodes when it is the byte [I] followed
    by the width and the height on two bytes each and by a mode number. The
    encoder refuses to write a mode with transparency or a palette as JPEG, as
    Pillow does. Nothing else fails on this platform. *)

Module Toy.

Record ToyImage : Type := mkImage { width : Z; height : Z; mode : string }.

Definition mode_of_byte (b : Byte.byte) : string :=
  match Byte.to_N b with
  | 0%N => "RGB"
  | 1%N => "RGBA"
  | 2%N => "P"
  | 3%N => "LA"
  | _ => "L"
  end.

Definition decode (stream : list Byte.byte) : exn + ToyImage :=
  match stream with
  | [Byte.x49; wh; wl; hh; hl; m] =>
      inr (mkImage (Z.of_N (256 * Byte.to_N wh + Byte.to_N wl))
                   (Z.of_N (256 * Byte.to_N hh + Byte.to_N hl))
                   (mode_of_byte m))
  | _ => inl (PyException "UnidentifiedImageError")
  end.

Definition registry (ext : string) : option string :=
  if bool_decide (ext = ".png") then Some "PNG"
  else if bool_decide (ext ∈ [".jpg"; ".jpeg"]) then Some "JPEG"
  else if bool_decide (ext = ".gif") then Some "GIF"
  else if bool_decide (ext = ".webp") then Some "WEBP"
  else None.

Definition encoder_error (image : ToyImage) (format path : string)
    (f : FileSystem ToyImage) : option exn :=
  if bool_decide (format = "JPEG") && bool_decide (mode image ∈ ["RGBA"; "P"; "LA"])
  then Some (PyException "OSError")
  else None.

Definition platform : Platform := {|
  Image := ToyImage;
  Image_width := width;
  Image_height := height;
  Image_mode := mode;
  Image_open := decode;
  Image_verify := fun _ => None;
  Image_convert := fun i m => inr (mkImage (width i) (height i) m);
  Image_copy := fun i => inr i;
  Image_thumbnail := fun i size =>
    inr (mkImage (Z.min (width i) (fst size)) (Z.min (height i) (snd size)) (mode i));
  EXTENSION := registry;
  save_error := encoder_error;
  makedirs_error := fun _ _ => None;
  remove_error := fun _ _ => None;
  urandom16 := fun n => (N.of_nat n + 1311768467463790320)%N;
  nfkd_residue := fun _ => "";
  sql_error := fun _ _ => None
|}.

Definition empty_fs : FileSystem ToyImage := mkFS ∅ ∅.

Definition world (f : FileSystem ToyImage) : World (P := platform) :=
  mkWorld (P := platform) f 0 ∅ None [].

(** a 50x50 RGB image, a 6000x6000 one, a 50x50 grey image with alpha *)
Definition small_rgb : list Byte.byte :=
  [Byte.x49; Byte.x00; Byte.x32; Byte.x00; Byte.x32; Byte.x00].
Definition huge_rgb : list Byte.byte :=
  [Byte.x49; Byte.x17; Byte.x70; Byte.x17; Byte.x70; Byte.x00].
Definition small_la : list Byte.byte :=
  [Byte.x49; Byte.x00; Byte.x32; Byte.x00; Byte.x32; Byte.x03].
Definition text_file : list Byte.byte := [Byte.x68; Byte.x65; Byte.x6c; Byte.x6c; Byte.x6f].

(** a regular file sits where the upload root should be *)
Definition root_is_file : FileSystem ToyImage :=
  mkFS {[ "static/uploads" := mkImage 1 1 "RGB" ]} ∅.

(** a regular file sits where the thumbnail directory should be *)
Definition thumbs_is_file : FileSystem ToyImage :=
  mkFS {[ "static/uploads/thumbs" := mkImage 1 1 "RGB" ]} ∅.

(** post 7 of user 1: its thumbnail is a file, its full-size path a directory *)
Definition site : World (P := platform) :=
  mkWorld (P := platform)
    (mkFS {[ "static/uploads/thumbs/abc.png" := mkImage 50 50 "RGB" ]}
          {[ "static/uploads/abc.png" ]})
    0 {[ 7 := mkPost (Some 1) (Some "abc.png") ]} None [].

Definition alice : CurrentUser := mkUser true 1 "alice".

Definition upload (name ctype : string) (bytes : list Byte.byte) : option FileStorage :=
  Some (mkFileStorage (Some name) (Some ctype) None bytes).

Definition run (file : option FileStorage) (f : FileSystem ToyImage) :=
  process_uploaded_image (P := platform) file "static/uploads"
    DEFAULT_MAX_DIMENSIONS DEFAULT_THUMBNAIL_SIZE (world f).

End Toy.

(** ** The stages of the pipeline, as the design document names them *)

Section Stages.
Context {P : Platform}.

(** Terminal failure states. The gate rejects for three reasons, each with a
    message of its own. *)
Inductive Failure : Type :=
  | GateNoFile
  | GateExtension
  | GateContentType
  | DecodeRejected
  | DimensionRejected
  | StoreFailed.

(** The checks made before anything is stored, in the order of the stages. *)
Definition stage_order : list Failure :=
  [GateNoFile; GateExtension; GateContentType; DecodeRejected; DimensionRejected].

Definition original_name (file : option FileStorage) : string :=
  match file with
  | Some f => default "" (filename f)
  | None => ""
  end.

(** The declared content type: [content_type], or [mimetype] when the former
    is missing or empty. *)
Definition declared_type (file : option FileStorage) : option string :=
  match file with
  | Some f => py_or (content_type f) (mimetype f)
  | None => None
  end.

Definition is_image_type (m : option string) : bool :=
  match m with
  | Some m => negb (bool_decide (m = "")) && PyStr.startswith m "image/"
  | None => false
  end.

(** Outcome of open, verify and re-open, which does not depend on the state. *)
Definition verified (stream : list Byte.byte) : exn + Image :=
  match Image_open stream with
  | inl e => inl e
  | inr image =>
      match Image_verify image with
      | Some e => inl e
      | None => Image_open stream
      end
  end.

Definition decoded (file : option FileStorage) : option Image :=
  match file with
  | Some f => match verified (stream f) with inr image => Some image | inl _ => None end
  | None => None
  end.

Definition exceeds (max_dimensions : Z * Z) (image : Image) : bool :=
  (Image_width image >? fst max_dimensions) || (Image_height image >? snd max_dimensions).

(** The input fails the check of a stage. The dimension guard is defined on
    decoded images only; the store is not a check on the input. *)
Definition fails (max_dimensions : Z * Z) (file : option FileStorage)
    (stage : Failure) : bool :=
  match stage with
  | GateNoFile =>
      match file with
      | None => true
      | Some _ => PyStr.is_blank (original_name file)
      end
  | GateExtension => negb (allowed_file (original_name file))
  | GateContentType => negb (is_image_type (declared_type file))
  | DecodeRejected => negb (bool_decide (is_Some (decoded file)))
  | DimensionRejected =>
      match decoded file with
      | Some image => exceeds max_dimensions image
      | None => false
      end
  | StoreFailed => false
  end.

Definition earliest_failure (max_dimensions : Z * Z) (file : option FileStorage)
    : option Failure :=
  List.find (fails max_dimensions file) stage_order.

(** The user-facing message of each failure. *)
Definition failure_message (max_dimensions : Z * Z) (k : Failure) : string :=
  match k with
  | GateNoFile => "画像ファイルが選択されていません"
  | GateExtension => "画像ファイル（png,jpg,jpeg,gif,webp）をアップロードしてください"
  | GateContentType => "画像ファイルをアップロードしてください"
  | DecodeRejected => "有効な画像ファイルをアップロードしてください"
  | DimensionRejected => size_message (fst max_dimensions) (snd max_dimensions)
  | StoreFailed => "有効な画像ファイルをアップロードしてください"
  end.

(** The world after one draw of [uuid4], and the token drawn. *)
Definition drawn (w : World) : World :=
  mkWorld (fs w) (S (draws w)) (posts w) (conn w) (log w).

Definition token_of (w : World) : string :=
  Lib.uuid_hex (Lib.uuid4_int (urandom16 (draws w))).

(** The world in which a rejected run ends: the gate rejects before the token
    is drawn, the later stages after. *)
Definition after_rejection (k : Failure) (w : World) : World :=
  match k with
  | GateNoFile | GateExtension | GateContentType => w
  | _ => drawn w
  end.

(** The name under which an accepted upload is stored. *)
Definition storage_name (file : option FileStorage) (w : World) : string :=
  token_of w +:+ snd (Lib.os_path_splitext (Lib.secure_filename (original_name file))).

(** The failure in which a run ends, if it ends in one: the earliest failing
    check, or the store when the directory of the upload root is there and
    the write of the full-size image raises. *)
Definition failure_of (file : option FileStorage) (upload_base_dir : string)
    (max_dimensions : Z * Z) (w : World) : option Failure :=
  match earliest_failure max_dimensions file, decoded file with
  | Some k, _ => Some k
  | None, Some image =>
      match os_makedirs upload_base_dir (drawn w) with
      | (inr _, w1) =>
          match _save_image image
                  (Lib.os_path_join upload_base_dir (storage_name file w)) w1 with
          | (inl _, _) => Some StoreFailed
          | (inr _, _) => None
          end
      | (inl _, _) => None
      end
  | None, None => None
  end.

(** One pass of the cleanup loop on the file system: a file that is there and
    whose removal does not raise is removed, anything else stays. *)
Definition attempt_removal (path : string) (f : FileSystem Image) : FileSystem Image :=
  match files f !! path with
  | Some _ =>
      match remove_error path f with
      | None => mkFS (base.delete path (files f)) (dirs f)
      | Some _ => f
      end
  | None => f
  end.

(** The same upload with other bytes in the stream. *)
Definition replace_stream (bytes : list Byte.byte) (file : option FileStorage)
    : option FileStorage :=
  match file with
  | Some f => Some (mkFileStorage (filename f) (content_type f) (mimetype f) bytes)
  | None => None
  end.

(** Modes that Pillow documents with a palette ([P], [PA]) or with an alpha
    channel ([LA], [PA], [RGBA], [La], [RGBa]): the modes that the design
    document calls indexed-palette or alpha-channel modes. *)
Definition palette_or_alpha_mode (mode : string) : bool :=
  bool_decide (mode ∈ ["P"; "PA"; "LA"; "RGBA"; "La"; "RGBa"]).

End Stages.

Section Frames.
Context {P : Platform}.

(** From [w] to [w'] the database, its connection and the log are the same. *)
Definition keeps_db (w w' : World) : Prop :=
  posts w' = posts w /\ conn w' = conn w /\ log w' = log w.

(** The two paths that an upload may write. *)
Definition full_path (file : option FileStorage) (base : string) (w : World) : string :=
  Lib.os_path_join base (storage_name file w).

Definition thumb_path (file : option FileStorage) (base : string) (w : World) : string :=
  Lib.os_path_join (Lib.os_path_join base "thumbs") (storage_name file w).

End Frames.

(** The paths that the [delete] view tries for a stored name. *)
Definition cleanup_paths (name : string) : list string :=
  [Lib.os_path_join (Lib.os_path_join "static" "uploads") name;
   Lib.os_path_join (Lib.os_path_join (Lib.os_path_join "static" "uploads") "thumbs") name].

(** ** [generate_thumbs.py] *)

(** What the script observes beyond the platform of the application. *)
Class ScriptEnv {P : Platform} : Type := {
  (** [str(e)] *)
  exn_text : exn -> string;
  (** [Image.open(path)] on a file that holds an encoded image *)
  Image_open_file : string -> Image -> exn + Image;
  (** [os.listdir(path)]: the names of the entries, in the order of the
      operating system *)
  listdir : string -> FileSystem Image -> exn + list string;
  (** [os.path.dirname(os.path.abspath(__file__))] *)
  BASE_DIR : string
}.

(** The counters of [main] and the lines it has printed. *)
Record Tally : Type := mkTally {
  total : Z;
  created : Z;
  skipped : Z;
  failed : Z;
  printed : list string
}.

Section GenerateThumbs.
Context {P : Platform} {E : ScriptEnv}.

Local Notation "'let*' x ':=' m 'in' k" := (bind m (fun x => k))
  (at level 10, x name, m at level 100, k at level 200).
Local Notation "m ';;;' k" := (bind m (fun _ => k))
  (at level 100, k at level 200, right associativity).

Definition UPLOAD_DIR : string :=
  Lib.os_path_join (Lib.os_path_join BASE_DIR "static") "uploads".

Definition THUMB_DIR : string := Lib.os_path_join UPLOAD_DIR "thumbs".

Definition SUPPORTED_EXT : list string := [".png"; ".jpg"; ".jpeg"; ".gif"; ".webp"].

Definition THUMB_SIZE : Z * Z := (300, 300).

(** [Image.open(path)] *)
Definition Image_open_path (path : string) : M Image :=
  fun w =>
    match files (fs w) !! path with
    | Some stored => (Image_open_file path stored, w)
    | None => (inl (PyException "FileNotFoundError"), w)
    end.

(** [os.path.isdir(path)] *)
Definition os_path_isdir (path : string) : M bool :=
  fun w => (inr (bool_decide (path ∈ dirs (fs w))), w).

(** [os.path.isfile(path)] *)
Definition os_path_isfile (path : string) : M bool :=
  fun w => (inr (bool_decide (is_Some (files (fs w) !! path))), w).

(** [os.listdir(path)] *)
Definition os_listdir (path : string) : M (list string) :=
  fun w => (listdir path (fs w), w).

Definition make_thumbnail (src_path dst_path : string) : M (bool * option string) :=
  try_except
    (let* im := Image_open_path src_path in
     (match Image_verify im with Some e => raise e | None => ret tt end);;;
     let* im := Image_open_path src_path in
     let* im :=
       (if bool_decide (Image_mode im ∈ ["RGBA"; "P"])
        then call (Image_convert im "RGB")
        else ret im) in
     let* im := call (Image_thumbnail im THUMB_SIZE) in
     Image_save im dst_path;;;
     ret (true, None))
    (fun e => ret (false, Some (exn_text e))).

(** [[f for f in names if os.path.isfile(os.path.join(UPLOAD_DIR, f))]] *)
Fixpoint regular_files (names : list string) : M (list string) :=
  match names with
  | [] => ret []
  | f :: rest =>
      let* is_file := os_path_isfile (Lib.os_path_join UPLOAD_DIR f) in
      let* others := regular_files rest in
      ret (if is_file then f :: others else others)
  end.

Definition print (line : string) (t : Tally) : Tally :=
  mkTally (total t) (created t) (skipped t) (failed t) (printed t ++ [line]).

(** The loop of [main] over the files, from the counters [t]. *)
Fixpoint thumbs_loop (force : bool) (files : list string) (t : Tally) : M Tally :=
  match files with
  | [] => ret t
  | fn :: rest =>
      let ext := snd (Lib.os_path_splitext fn) in
      if negb (bool_decide (PyStr.lower ext ∈ SUPPORTED_EXT)) then
        thumbs_loop force rest
          (mkTally (total t) (created t) (skipped t + 1) (failed t) (printed t))
      else
        let src := Lib.os_path_join UPLOAD_DIR fn in
        let dst := Lib.os_path_join THUMB_DIR fn in
        let t := mkTally (total t + 1) (created t) (skipped t) (failed t) (printed t) in
        let* present := os_path_exists dst in
        if present && negb force then
          thumbs_loop force rest
            (mkTally (total t) (created t) (skipped t + 1) (failed t) (printed t))
        else
          let* result := make_thumbnail src dst in
          if fst result then
            thumbs_loop force rest
              (print ("作成: " +:+ dst)
                 (mkTally (total t) (created t + 1) (skipped t) (failed t) (printed t)))
          else
            thumbs_loop force rest
              (print ("失敗: " +:+ src +:+ " -> " +:+ default "None" (snd result))
                 (mkTally (total t) (created t) (skipped t) (failed t + 1) (printed t)))
  end.

(** The lines of the summary. *)
Definition summary (t : Tally) : list string :=
  ["--- 処理結果 ---";
   "対象画像: " +:+ pretty (total t);
   "作成: " +:+ pretty (created t);
   "スキップ: " +:+ pretty (skipped t);
   "失敗: " +:+ pretty (failed t)].

(** [main(force)]: the exit status and the lines printed. *)
Definition main (force : bool) : M (Z * list string) :=
  let* is_dir := os_path_isdir UPLOAD_DIR in
  if negb is_dir then
    ret (1, ["アップロードディレクトリが見つかりません: " +:+ UPLOAD_DIR])
  else
    os_makedirs THUMB_DIR;;;
    let* names := os_listdir UPLOAD_DIR in
    let* files := regular_files names in
    let* t := thumbs_loop force files (mkTally 0 0 0 0 []) in
    ret (0, (printed t ++ summary t)%list).

End GenerateThumbs.

Section GenerateThumbs_steps.
Context {P : Platform} {E : ScriptEnv}.

(** One round of the loop of [main] on the file [fn], from counters [t] and
    world [w] to [t1] and [w1]: the file is skipped, or its thumbnail fails,
    or its thumbnail is written. *)
Definition loop_step (force : bool) (fn : string) (t : Tally) (w : World)
    (t1 : Tally) (w1 : World) : Prop :=
  let src := Lib.os_path_join UPLOAD_DIR fn in
  let dst := Lib.os_path_join THUMB_DIR fn in
  let supported :=
    bool_decide (PyStr.lower (snd (Lib.os_path_splitext fn)) ∈ SUPPORTED_EXT) in
  (w1 = w /\ supported = false
   /\ t1 = mkTally (total t) (created t) (skipped t + 1) (failed t) (printed t))
  \/ (w1 = w /\ supported = true /\ force = false
      /\ (is_Some (files (fs w) !! dst) \/ dst ∈ dirs (fs w))
      /\ t1 = mkTally (total t + 1) (created t) (skipped t + 1) (failed t) (printed t))
  \/ (w1 = w /\ supported = true
      /\ exists e,
           t1 = mkTally (total t + 1) (created t) (skipped t) (failed t + 1)
                  (printed t ++ ["失敗: " +:+ src +:+ " -> " +:+ exn_text e]))
  \/ (supported = true
      /\ (force = false -> files (fs w) !! dst = None)
      /\ is_Some (files (fs w) !! src)
      /\ (exists thumb, files (fs w1) = <[dst := thumb]> (files (fs w)))
      /\ dirs (fs w1) = dirs (fs w)
      /\ keeps_db w w1
      /\ t1 = mkTally (total t + 1) (created t + 1) (skipped t) (failed t)
                (printed t ++ ["作成: " +:+ dst])).

End GenerateThumbs_steps.

(** ** The [upload] view of [app.py] and the end of a request *)

(** What the view observes of its [INSERT] into [posts]. *)
Class PostsInsert {P : Platform} : Type := {
  (** failure of the statement for a row, on the connection's view *)
  insert_error : PostRow -> gmap Z PostRow -> option exn;
  (** the key that [AUTOINCREMENT] gives the new row *)
  lastrowid : gmap Z PostRow -> Z
}.

(** What the view reads of the request: [request.method],
    [request.form["title"]], [request.form.get("body", "")] and
    [request.files.get("image")]. *)
Record UploadRequest : Type := mkRequest {
  method : string;
  form_title : option string;
  form_body : option string;
  files_image : option FileStorage
}.

(** What a view answers with: a rendered template, a redirection or a text. *)
Inductive Page : Type :=
  | Template (name : string)
  | Location (url : string)
  | Body (text : string).

Section UploadView.
Context {P : Platform} {I : PostsInsert}.

Local Notation "'let*' x ':=' m 'in' k" := (bind m (fun x => k))
  (at level 10, x name, m at level 100, k at level 200).
Local Notation "m ';;;' k" := (bind m (fun _ => k))
  (at level 100, k at level 200, right associativity).

(** [database.execute("INSERT INTO posts ...", row)]; of the row, the model
    of the table keeps the columns [user_id] and [filename]. *)
Definition db_insert_post (row : PostRow) : M unit :=
  fun w =>
    match conn w with
    | None => (inl (PyException "ProgrammingError"), w)
    | Some t =>
        match insert_error row t with
        | Some e => (inl e, w)
        | None =>
            (inr tt,
             mkWorld (fs w) (draws w) (posts w) (Some (<[lastrowid t := row]> t)) (log w))
        end
    end.

(** [close_db], run when the request ends: the connection is closed, and
    what it has not committed is lost. *)
Definition close_db : M unit :=
  fun w => (inr tt, mkWorld (fs w) (draws w) (posts w) None (log w)).

(** Truth value of a value that is [None] or a string. *)
Definition truthy (x : option string) : bool :=
  match x with
  | Some s => negb (bool_decide (s = ""))
  | None => false
  end.

(** The view returns the messages it has flashed, in order, with its
    answer. A missing [title] field makes [request.form["title"]] raise
    werkzeug's [BadRequestKeyError], an HTTP exception of status 400. *)
Definition upload (current_user : CurrentUser) (request : UploadRequest)
    : M (list string * Page) :=
  if bool_decide (method request = "POST") then
    (if negb (is_authenticated current_user) then abort 401 else ret tt);;;
    let* title :=
      match form_title request with
      | Some title => ret title
      | None => abort 400
      end in
    let image := files_image request in
    if bool_decide (title = "") || PyStr.is_blank title then
      ret (["タイトルが入力されていません"], Template "upload.html")
    else
      let* result :=
        process_uploaded_image image "static/uploads"
          DEFAULT_MAX_DIMENSIONS DEFAULT_THUMBNAIL_SIZE in
      let '(filename, error) := result in
      if truthy error then
        ret ([default "" error], Template "upload.html")
      else
        let* inserted :=
          try_except
            (get_db;;;
             db_insert_post (mkPost (Some (user_ident current_user)) filename);;;
             db_commit;;;
             ret true)
            (fun _ => logger_exception "failed to insert post";;; ret false) in
        if negb inserted then
          ret (["投稿の保存に失敗しました"], Template "upload.html")
        else ret ([], Location "/")
  else ret ([], Template "upload.html").

End UploadView.

(** ** The [post] view of [app.py] *)

(** What the view observes of [SELECT COUNT( * ) FROM likes WHERE post_id=?]:
    the count, or the exception of the statement. *)
Class LikesCount {P : Platform} : Type := {
  count_likes : Z -> gmap Z PostRow -> exn + Z
}.

Section PostView.
Context {P : Platform} {L : LikesCount}.

Local Notation "'let*' x ':=' m 'in' k" := (bind m (fun x => k))
  (at level 10, x name, m at level 100, k at level 200).
Local Notation "m ';;;' k" := (bind m (fun _ => k))
  (at level 100, k at level 200, right associativity).

(** The second statement of the view, on the connection. *)
Definition db_count_likes (id : Z) : M Z :=
  fun w =>
    match conn w with
    | None => (inl (PyException "ProgrammingError"), w)
    | Some t => (count_likes id t, w)
    end.

(** The view returns the template it renders with the number of likes it
    hands to it. *)
Definition post (id : Z) : M (Page * Z) :=
  try_except
    (get_db;;;
     let* row := db_execute (SqlSelectPost id) (fun t => (t !! id, t)) in
     (match row with
      | None => abort 404
      | Some _ => ret tt
      end);;;
     let* like_count := db_count_likes id in
     ret (Template "post.html", like_count))
    (fun _ => logger_exception "failed to fetch post";;; abort 500).

End PostView.

(** ** Accounts and likes: the views [register], [login] and [like] of [app.py] *)

(** The tables [users] and [likes] as these views see them. Column
    [username] is [UNIQUE] ([init_db]) and so are the pairs of [likes]
    ([ensure_likes_index]): the users are kept by name, with their key and
    their [password] column, and the likes as a set of pairs of a user and a
    post. A row with NULL in [username], [user_id] or [post_id] matches no
    statement of the views and is left out. *)
Record Tables : Type := mkTables {
  users : gmap string (Z * option string);
  likes : gset (Z * Z)
}.

Inductive Statement : Type :=
  | StConnect
  | StSelectUser (username : string)
  | StInsertUser (username password : string)
  | StSelectLike (user post : Z)
  | StDeleteLike (user post : Z)
  | StInsertLike (user post : Z)
  | StCommit.

(** What the views observe of werkzeug's password functions and of SQLite. *)
Class Accounts : Type := {
  (** [generate_password_hash(raw)] with the n-th salt *)
  generate_password_hash : string -> nat -> string;
  check_password_hash : string -> string -> bool;
  (** a failure of a statement other than a violated constraint *)
  statement_error : Statement -> Tables -> option exn;
  (** the key that [AUTOINCREMENT] gives a new user *)
  new_user_id : Tables -> Z
}.

Record Site : Type := mkSite {
  (** committed content of the tables *)
  committed : Tables;
  (** [g.db]: the connection of the request, with its view of the tables *)
  g_db : option Tables;
  (** the user of the session, as [login_user] sets it *)
  session_user : option Z;
  app_log : list string;
  (** number of salts already drawn *)
  salts : nat
}.

(** What [register] and [login] read of the request. *)
Record Credentials : Type := mkCredentials {
  request_method : string;
  form_username : option string;
  form_password : option string
}.

(** The state and exception monad on a state [S]. *)
Section Effects.
Context {S : Type}.

Definition Eff (A : Type) : Type := S -> (exn + A) * S.

Definition eret {A} (a : A) : Eff A := fun s => (inr a, s).

Definition eraise {A} (e : exn) : Eff A := fun s => (inl e, s).

Definition ebind {A B} (m : Eff A) (k : A -> Eff B) : Eff B :=
  fun s =>
    match m s with
    | (inr a, s') => k a s'
    | (inl e, s') => (inl e, s')
    end.

(** [try: m  except Exception as e: h e] *)
Definition etry {A} (m : Eff A) (h : exn -> Eff A) : Eff A :=
  fun s =>
    match m s with
    | (inr a, s') => (inr a, s')
    | (inl e, s') => h e s'
    end.

End Effects.

(** [len(s)]: the number of code points, which are the bytes of the UTF-8
    text that do not continue a character *)
Fixpoint py_len (s : string) : Z :=
  match s with
  | EmptyString => 0
  | String c r =>
      (if (128 <=? PyStr.code c)%N && (PyStr.code c <=? 191)%N then 0 else 1) + py_len r
  end.

(** The class [[\x21-\x7E]] *)
Definition is_printable (c : ascii) : bool :=
  ((33 <=? PyStr.code c) && (PyStr.code c <=? 126))%N.

(** What is left after [[\x21-\x7E]+] has taken its first character: more
    characters of the class, then [$], which matches at the end of the text
    and before a newline that ends it. *)
Fixpoint printable_rest (s : string) : bool :=
  match s with
  | EmptyString => true
  | String c r =>
      if is_printable c then printable_rest r
      else bool_decide (c = "010"%char) && bool_decide (r = "")
  end.

(** [re.match(r"^[\x21-\x7E]+$", s)] *)
Definition re_match_printable (s : string) : bool :=
  match s with
  | EmptyString => false
  | String c r => is_printable c && printable_rest r
  end.

Section AccountViews.
Context {E : Accounts}.

Local Notation "'let*' x ':=' m 'in' k" := (ebind m (fun x => k))
  (at level 10, x name, m at level 100, k at level 200).
Local Notation "m ';;;' k" := (ebind m (fun _ => k))
  (at level 100, k at level 200, right associativity).

(** [get_db()] *)
Definition connect : Eff (S := Site) unit :=
  fun s =>
    match g_db s with
    | Some _ => (inr tt, s)
    | None =>
        match statement_error StConnect (committed s) with
        | Some e => (inl e, s)
        | None =>
            (inr tt,
             mkSite (committed s) (Some (committed s)) (session_user s) (app_log s) (salts s))
        end
    end.

(** A statement on the connection: [view] computes its result, which may be
    a violated constraint, and the new view of the tables. *)
Definition execute {A} (statement : Statement) (view : Tables -> (exn + A) * Tables)
    : Eff (S := Site) A :=
  fun s =>
    match g_db s with
    | None => (inl (PyException "ProgrammingError"), s)
    | Some t =>
        match statement_error statement t with
        | Some e => (inl e, s)
        | None =>
            let '(r, t') := view t in
            (r, mkSite (committed s) (Some t') (session_user s) (app_log s) (salts s))
        end
    end.

(** [database.commit()] *)
Definition commit : Eff (S := Site) unit :=
  fun s =>
    match g_db s with
    | None => (inl (PyException "ProgrammingError"), s)
    | Some t =>
        match statement_error StCommit t with
        | Some e => (inl e, s)
        | None => (inr tt, mkSite t (Some t) (session_user s) (app_log s) (salts s))
        end
    end.

(** [app.logger.exception(msg)] *)
Definition app_logger_exception (msg : string) : Eff (S := Site) unit :=
  fun s =>
    (inr tt,
     mkSite (committed s) (g_db s) (session_user s) (app_log s ++ [msg])%list (salts s)).

(** [request.form[key]]: werkzeug's [BadRequestKeyError], of status 400,
    when the field is missing *)
Definition form_field (value : option string) : Eff (S := Site) string :=
  match value with
  | Some v => eret v
  | None => eraise (HTTPException 400)
  end.

(** [generate_password_hash(raw)] *)
Definition new_password_hash (raw : string) : Eff (S := Site) string :=
  fun s =>
    (inr (generate_password_hash raw (salts s)),
     mkSite (committed s) (g_db s) (session_user s) (app_log s) (S (salts s))).

(** [INSERT INTO users (username, password)]: [IntegrityError] when the name
    is taken *)
Definition insert_user (username password_hash : string) : Eff (S := Site) unit :=
  execute (StInsertUser username password_hash)
    (fun t =>
       match users t !! username with
       | Some _ => (inl (PyException "IntegrityError"), t)
       | None =>
           (inr tt,
            mkTables (<[username := (new_user_id t, Some password_hash)]> (users t))
              (likes t))
       end).

Definition is_integrity_error (e : exn) : bool :=
  match e with
  | PyException cls => bool_decide (cls = "IntegrityError")
  | HTTPException _ => false
  end.

(** The view returns the messages it has flashed with its answer. *)
Definition register (request : Credentials) : Eff (S := Site) (list string * Page) :=
  if bool_decide (request_method request = "POST") then
    let* username := form_field (form_username request) in
    let* raw_password := form_field (form_password request) in
    if bool_decide (raw_password = "") then
      eret (["パスワードを入力してください。"], Template "register.html")
    else if py_len raw_password <? 8 then
      eret (["パスワードは8文字以上にしてください。"], Template "register.html")
    else if py_len raw_password >? 128 then
      eret (["パスワードは128文字以下にしてください。"], Template "register.html")
    else if negb (re_match_printable raw_password) then
      eret (["パスワードは英数字および記号（半角）で入力してください。日本語や全角文字は使えません。"],
            Template "register.html")
    else
      let* password_hash := new_password_hash raw_password in
      let* problem :=
        etry
          (connect;;;
           insert_user username password_hash;;;
           commit;;;
           eret None)
          (fun e =>
             if is_integrity_error e then
               eret (Some "ユーザー名は既に使われています。")
             else
               app_logger_exception "failed to register";;;
               eret (Some "登録に失敗しました。")) in
      match problem with
      | Some message => eret ([message], Template "register.html")
      | None => eret ([], Location "/login")
      end
  else eret ([], Template "register.html").

(** [login_user(user)] *)
Definition login_user (id : Z) : Eff (S := Site) unit :=
  fun s => (inr tt, mkSite (committed s) (g_db s) (Some id) (app_log s) (salts s)).

(** [check_password_hash(row["password"], password)]: werkzeug calls a method
    of the stored value, which raises on NULL *)
Definition check_password (stored : option string) (password : string)
    : Eff (S := Site) bool :=
  match stored with
  | Some hash => eret (check_password_hash hash password)
  | None => eraise (PyException "AttributeError")
  end.

Definition login (request : Credentials) : Eff (S := Site) Page :=
  if bool_decide (request_method request = "POST") then
    let* username := form_field (form_username request) in
    let* password := form_field (form_password request) in
    let* answer :=
      etry
        (connect;;;
         let* row :=
           execute (StSelectUser username) (fun t => (inr (users t !! username), t)) in
         match row with
         | Some (id, stored) =>
             let* matches := check_password stored password in
             if matches then login_user id;;; eret (Some (Location "/"))
             else eret None
         | None => eret None
         end)
        (fun _ => app_logger_exception "login error";;; eret None) in
    match answer with
    | Some page => eret page
    | None => eret (Body "ログイン失敗")
    end
  else eret (Template "login.html").

(** [logout_user()] and the redirection of [logout] *)
Definition logout : Eff (S := Site) Page :=
  fun s =>
    (inr (Location "/"), mkSite (committed s) (g_db s) None (app_log s) (salts s)).

(** [url_for("post", id=id)] *)
Definition url_for_post (id : Z) : string := "/post/" +:+ pretty id.

Definition like (current_user : CurrentUser) (id : Z) : Eff (S := Site) Page :=
  (if negb (is_authenticated current_user) then eraise (HTTPException 401)
   else eret tt);;;
  etry
    (connect;;;
     let user := user_ident current_user in
     let* existing :=
       execute (StSelectLike user id)
         (fun t => (inr (bool_decide ((user, id) ∈ likes t)), t)) in
     (if existing : bool then
        execute (StDeleteLike user id)
          (fun t => (inr tt, mkTables (users t) (likes t ∖ {[(user, id)]})))
      else
        execute (StInsertLike user id)
          (fun t => (inr tt, mkTables (users t) ({[(user, id)]} ∪ likes t))));;;
     commit;;;
     eret (Location (url_for_post id)))
    (fun _ => app_logger_exception "like/unlike failed";;; eraise (HTTPException 500)).

(** The end of a request: [close_db] closes the connection. *)
Definition close_connection : Eff (S := Site) unit :=
  fun s => (inr tt, mkSite (committed s) None (session_user s) (app_log s) (salts s)).

End AccountViews.

(** ** A small site to run the views and the script on *)

Module ToySite.

(** [str(e)] is the name of the class here. *)
Definition exn_class (e : exn) : string :=
  match e with
  | PyException cls => cls
  | HTTPException _ => "HTTPException"
  end.

(** The name of [path] in the directory [dir], when it is right under it. *)
Definition entry (dir path : string) : option string :=
  if PyStr.startswith path (dir +:+ "/") then
    let name := PyStr.drop (S (String.length dir)) path in
    if PyStr.contains "/" name then None else Some name
  else None.

Definition entries (dir : string) (f : FileSystem (Image (Platform := Toy.platform)))
    : exn + list string :=
  inr (omap (entry dir) (elements (dom (files f)) ++ elements (dirs f))%list).

Definition script : ScriptEnv (P := Toy.platform) := {|
  exn_text := exn_class;
  Image_open_file := fun _ stored => inr stored;
  listdir := entries;
  BASE_DIR := "/srv/app"
|}.

(** Four files in the upload directory: an RGBA image without thumbnail, a
    grey image with alpha named as a JPEG, which the encoder refuses, a text
    file, and an image that has its thumbnail. *)
Definition gallery : World (P := Toy.platform) :=
  mkWorld (P := Toy.platform)
    (mkFS {[ "/srv/app/static/uploads/a.png" := Toy.mkImage 800 600 "RGBA";
             "/srv/app/static/uploads/b.jpg" := Toy.mkImage 50 50 "LA";
             "/srv/app/static/uploads/notes.txt" := Toy.mkImage 1 1 "L";
             "/srv/app/static/uploads/c.gif" := Toy.mkImage 640 480 "RGB";
             "/srv/app/static/uploads/thumbs/c.gif" := Toy.mkImage 1 1 "RGB" ]}
          {[ "/srv/app/static/uploads"; "/srv/app/static/uploads/thumbs" ]})
    0 ∅ None [].

(** The key after the largest one. *)
Definition next_key (t : gmap Z PostRow) : Z :=
  1 + map_fold (fun k _ acc => Z.max k acc) 0 t.

Definition inserts : PostsInsert (P := Toy.platform) := {|
  insert_error := fun _ _ => None;
  lastrowid := next_key
|}.

Definition failing_inserts : PostsInsert (P := Toy.platform) := {|
  insert_error := fun _ _ => Some (PyException "OperationalError");
  lastrowid := next_key
|}.

(** The platform of [Toy] with a [DELETE] statement that raises. *)
Definition failing_delete : Platform := {|
  Image := Toy.ToyImage;
  Image_width := Toy.width;
  Image_height := Toy.height;
  Image_mode := Toy.mode;
  Image_open := Toy.decode;
  Image_verify := fun _ => None;
  Image_convert := fun i m => inr (Toy.mkImage (Toy.width i) (Toy.height i) m);
  Image_copy := fun i => inr i;
  Image_thumbnail := fun i size =>
    inr (Toy.mkImage (Z.min (Toy.width i) (fst size)) (Z.min (Toy.height i) (snd size))
           (Toy.mode i));
  EXTENSION := Toy.registry;
  save_error := Toy.encoder_error;
  makedirs_error := fun _ _ => None;
  remove_error := fun _ _ => None;
  urandom16 := fun n => (N.of_nat n + 1311768467463790320)%N;
  nfkd_residue := fun _ => "";
  sql_error := fun op _ =>
    match op with
    | SqlDeletePost _ => Some (PyException "OperationalError")
    | _ => None
    end
|}.

(** post 7 of user 1 with both of its files *)
Definition locked_site : World (P := failing_delete) :=
  mkWorld (P := failing_delete)
    (mkFS {[ "static/uploads/abc.png" := Toy.mkImage 50 50 "RGB";
             "static/uploads/thumbs/abc.png" := Toy.mkImage 50 50 "RGB" ]}
          {[ "static/uploads"; "static/uploads/thumbs" ]})
    0 {[ 7 := mkPost (Some 1) (Some "abc.png") ]} None [].

Definition bob : CurrentUser := mkUser true 2 "bob".

Definition cat_post : UploadRequest :=
  mkRequest "POST" (Some "My cat") (Some "")
    (Toy.upload "cat.png" "image/png" Toy.small_rgb).

Definition untitled_post : UploadRequest :=
  mkRequest "POST" (Some "  ") None
    (Toy.upload "cat.png" "image/png" Toy.small_rgb).

(** Hashes that keep the password readable, and a database that never
    fails. *)
Definition accounts : Accounts := {|
  generate_password_hash := fun raw n => "salt" +:+ pretty (Z.of_nat n) +:+ "$" +:+ raw;
  check_password_hash := fun hash password =>
    match PyStr.after_last "$" hash with
    | Some raw => bool_decide (raw = password)
    | None => false
    end;
  statement_error := fun _ _ => None;
  new_user_id := fun t => 1 + Z.of_nat (size (users t))
|}.

(** One user, who likes post 7; nobody is logged in. *)
Definition forum : Site :=
  mkSite (mkTables {[ "alice" := (1, Some "salt0$correct horse") ]} {[ (1, 7) ]})
    None None [] 1.


Definition credentials (username password : string) : Credentials :=
  mkCredentials "POST" (Some username) (Some password).

End ToySite.

(** * Properties *)

Section Runs.
Context {P : Platform}.

Implicit Types (file : option FileStorage) (w : World) (k : Failure).

Lemma verify_image_run stream w : _verify_image stream w = (verified stream, w).
Proof.
  unfold _verify_image, verified, bind, call.
  destruct (Image_open stream) as [e|image]; [reflexivity|].
  destruct (Image_verify image); reflexivity.
Qed.

(** A run that fails a check returns the message of the earliest one. *)
Lemma rejected_run file base dims tsize w k :
  earliest_failure dims file = Some k ->
  process_uploaded_image file base dims tsize w
  = (inr (None, Some (failure_message dims k)), after_rejection k w).
Proof.
  unfold earliest_failure, stage_order. cbn [List.find fails].
  destruct file as [f|]; [|intros [= <-]; reflexivity].
  cbn [original_name declared_type decoded].
  unfold process_uploaded_image.
  destruct (PyStr.is_blank (default "" (filename f))); [intros [= <-]; reflexivity|].
  destruct (allowed_file (default "" (filename f))); cbn [negb];
    [|intros [= <-]; reflexivity].
  unfold is_image_type.
  destruct (match py_or (content_type f) (mimetype f) with
            | Some m => negb (bool_decide (m = "")) && PyStr.startswith m "image/"
            | None => false
            end); cbn [negb]; [|intros [= <-]; reflexivity].
  unfold bind at 1. unfold uuid4_hex at 1.
  unfold bind at 1. unfold try_except at 1. unfold bind at 1.
  rewrite verify_image_run.
  destruct (verified (stream f)) as [e|image]; cbn.
  - intros [= <-]. reflexivity.
  - destruct dims as [max_w max_h]. unfold exceeds. cbn [fst snd].
    destruct ((Image_width image >? max_w) || (Image_height image >? max_h));
      [intros [= <-]; reflexivity | discriminate].
Qed.

(** A run that passes every check goes on to the store: the directory of the
    upload root is made, the full-size image is written, and the thumbnail is
    attempted. *)
Lemma accepted_run file base dims tsize w :
  earliest_failure dims file = None ->
  exists image,
    decoded file = Some image /\
    exceeds dims image = false /\
    process_uploaded_image file base dims tsize w
    = match os_makedirs base (drawn w) with
      | (inl e, w1) => (inl e, w1)
      | (inr _, w1) =>
          match _save_image image (Lib.os_path_join base (storage_name file w)) w1 with
          | (inl _, w2) => (inr (None, Some (failure_message dims StoreFailed)), w2)
          | (inr _, w2) =>
              (inr (Some (storage_name file w), None),
               snd (try_except
                      (create_thumbnail image (Lib.os_path_join base "thumbs")
                         (storage_name file w) tsize)
                      (fun _ => ret tt) w2))
          end
      end.
Proof.
  unfold earliest_failure, stage_order. cbn [List.find fails].
  destruct file as [f|]; [|discriminate].
  cbn [original_name declared_type decoded].
  unfold process_uploaded_image, storage_name, token_of. cbn [original_name].
  destruct (PyStr.is_blank (default "" (filename f))); [discriminate|].
  destruct (allowed_file (default "" (filename f))); cbn [negb]; [|discriminate].
  unfold is_image_type.
  destruct (match py_or (content_type f) (mimetype f) with
            | Some m => negb (bool_decide (m = "")) && PyStr.startswith m "image/"
            | None => false
            end); cbn [negb]; [|discriminate].
  unfold bind at 1. unfold uuid4_hex at 1.
  unfold bind at 1. unfold try_except at 1. unfold bind at 1.
  rewrite verify_image_run.
  destruct (verified (stream f)) as [e|image]; cbn; [discriminate|].
  destruct dims as [max_w max_h]. unfold exceeds. cbn [fst snd].
  destruct ((Image_width image >? max_w) || (Image_height image >? max_h)) eqn:Hdim;
    [discriminate|].
  intros _. exists image. split; [reflexivity|]. split; [exact Hdim|].
  unfold bind at 1. fold (drawn w).
  destruct (os_makedirs base (drawn w)) as [[e|[]] w1]; [reflexivity|].
  unfold bind at 1. unfold try_except at 1. unfold bind at 1.
  destruct (_save_image image _ w1) as [[e|[]] w2]; cbn; [reflexivity|].
  unfold bind at 1.
  destruct (try_except _ _ w2) as [[e|[]] w3] eqn:Hthumb; cbn.
  - exfalso. unfold try_except in Hthumb.
    destruct (create_thumbnail _ _ _ _ w2) as [[e'|[]] w3']; discriminate.
  - reflexivity.
Qed.

End Runs.

(** ** Messages *)

Lemma string_app_assoc (a b c : string) : (a +:+ b) +:+ c = a +:+ (b +:+ c).
Proof.
  induction a as [|x a IH]; [reflexivity|].
  change (String x ((a +:+ b) +:+ c) = String x (a +:+ (b +:+ c))).
  now rewrite IH.
Qed.

(** Two failures with the same message are the same failure, except that a
    rejected decode and a failed store share theirs. *)
Lemma failure_message_eq (d d' : Z * Z) (k j : Failure) :
  failure_message d k = failure_message d' j ->
  k = j \/ (k = DecodeRejected /\ j = StoreFailed) \/ (k = StoreFailed /\ j = DecodeRejected).
Proof.
  destruct k, j; unfold failure_message, size_message; intros H;
    try discriminate H; auto.
Qed.

Lemma size_message_has_bound (max_w max_h : Z) :
  exists pre post,
    size_message max_w max_h = pre +:+ (pretty max_w +:+ "x" +:+ pretty max_h) +:+ post.
Proof.
  exists "画像のサイズが大きすぎます（最大 ", "）。".
  unfold size_message. now rewrite !string_app_assoc.
Qed.

Section Stage_properties.
Context {P : Platform}.

Implicit Types (file : option FileStorage) (w : World) (k : Failure).

Lemma earliest_failure_split file dims pre k post :
  stage_order = (pre ++ k :: post)%list ->
  (forall j, j ∈ pre -> fails dims file j = false) ->
  fails dims file k = true ->
  earliest_failure dims file = Some k.
Proof.
  unfold earliest_failure. intros -> Hpre Hk.
  induction pre as [|j pre IH]; cbn.
  - now rewrite Hk.
  - rewrite (Hpre j) by apply list_elem_of_here.
    apply IH. intros i Hi. apply Hpre. now apply list_elem_of_further.
Qed.

Lemma fails_earliest file dims k :
  fails dims file k = true -> exists j, earliest_failure dims file = Some j.
Proof.
  intros Hk. unfold earliest_failure.
  destruct (List.find (fails dims file) stage_order) as [j|] eqn:Hfind; [eauto|].
  exfalso. assert (Hin : In k stage_order).
  { destruct k; cbn; auto 10. cbn in Hk. discriminate. }
  pose proof (List.find_none _ _ Hfind k Hin) as Hnone. congruence.
Qed.

Lemma after_rejection_fs k w : fs (after_rejection k w) = fs w.
Proof. destruct k; reflexivity. Qed.

(** C10. The error of a run that fails one or more checks is that of the
    earliest failing stage in the order missing file, extension, content
    type, decode/verify, dimension guard: whenever the stages before [k] pass
    and [k] fails, the message of [k] is returned, whatever the later stages
    would say. The size error is returned only for inputs that decode. *)
Theorem earliest_stage_decides_error file base dims tsize w :
  (forall pre k post,
      stage_order = (pre ++ k :: post)%list ->
      (forall j, j ∈ pre -> fails dims file j = false) ->
      fails dims file k = true ->
      fst (process_uploaded_image file base dims tsize w)
      = inr (None, Some (failure_message dims k)))
  /\ (fst (process_uploaded_image file base dims tsize w)
      = inr (None, Some (failure_message dims DimensionRejected)) ->
      exists image, decoded file = Some image /\ exceeds dims image = true).
Proof.
  split.
  - intros pre k post Hsplit Hpre Hk.
    now rewrite (rejected_run _ _ _ _ _ _ (earliest_failure_split _ _ _ _ _ Hsplit Hpre Hk)).
  - destruct (earliest_failure dims file) as [k|] eqn:Hearly.
    + rewrite (rejected_run _ _ _ _ _ _ Hearly). cbn [fst]. intros Hmsg.
      assert (Hm : failure_message dims k = failure_message dims DimensionRejected)
        by congruence.
      apply failure_message_eq in Hm as [->|[[? ?]|[? ?]]]; try discriminate.
      unfold earliest_failure in Hearly. apply List.find_some in Hearly as [_ Hfails].
      cbn in Hfails. destruct (decoded file) as [image|]; [eauto|discriminate].
    + destruct (accepted_run file base dims tsize w Hearly) as (image & _ & _ & ->).
      destruct (os_makedirs base (drawn w)) as [[e|[]] w1]; [discriminate|].
      destruct (_save_image image _ w1) as [[e|[]] w2]; cbn [fst]; [|discriminate].
      intros Hmsg.
      assert (Hm : failure_message dims StoreFailed = failure_message dims DimensionRejected)
        by congruence.
      apply failure_message_eq in Hm as [?|[[? ?]|[? ?]]]; discriminate.
Qed.

(** C3. An input rejected at the gate (missing file, extension, content
    type), at decode/verify or at the dimension guard leaves the file system
    as it was: no file is written and no directory is made, and the run
    returns an error message. *)
Theorem rejection_writes_nothing file base dims tsize w k :
  fails dims file k = true ->
  fs (snd (process_uploaded_image file base dims tsize w)) = fs w
  /\ exists j,
       In j stage_order /\
       fst (process_uploaded_image file base dims tsize w)
       = inr (None, Some (failure_message dims j)).
Proof.
  intros Hk. destruct (fails_earliest _ _ _ Hk) as [j Hj].
  rewrite (rejected_run _ _ _ _ _ _ Hj). cbn [fst snd]. split.
  - apply after_rejection_fs.
  - exists j. split; [|reflexivity].
    unfold earliest_failure in Hj. now apply List.find_some in Hj as [? _].
Qed.

(** The messages of the gate and of the dimension guard are returned by these
    stages only, so that a run that returns one of them has written nothing. *)
Lemma gate_or_size_message_writes_nothing file base dims tsize w k :
  In k stage_order -> k <> DecodeRejected ->
  fst (process_uploaded_image file base dims tsize w)
  = inr (None, Some (failure_message dims k)) ->
  fs (snd (process_uploaded_image file base dims tsize w)) = fs w.
Proof.
  intros Hin Hk.
  destruct (earliest_failure dims file) as [j|] eqn:Hearly.
  - rewrite (rejected_run _ _ _ _ _ _ Hearly). intros _. apply after_rejection_fs.
  - destruct (accepted_run file base dims tsize w Hearly) as (image & _ & _ & ->).
    destruct (os_makedirs base (drawn w)) as [[e|[]] w1]; [discriminate|].
    destruct (_save_image image _ w1) as [[e|[]] w2]; cbn [fst]; [|discriminate].
    intros Hmsg. exfalso.
    assert (Hm : failure_message dims StoreFailed = failure_message dims k) by congruence.
    apply failure_message_eq in Hm as [<-|[[? ?]|[_ ->]]]; [|discriminate|now apply Hk].
    cbn in Hin. intuition discriminate.
Qed.

Lemma failure_run file base dims tsize w k :
  failure_of file base dims w = Some k ->
  fst (process_uploaded_image file base dims tsize w)
  = inr (None, Some (failure_message dims k)).
Proof.
  unfold failure_of.
  destruct (earliest_failure dims file) as [j|] eqn:Hearly.
  - intros [= <-]. now rewrite (rejected_run _ _ _ _ _ _ Hearly).
  - destruct (accepted_run file base dims tsize w Hearly) as (image & -> & _ & ->).
    destruct (os_makedirs base (drawn w)) as [[e|[]] w1]; [discriminate|].
    destruct (_save_image image _ w1) as [[e|[]] w2]; [|discriminate].
    now intros [= <-].
Qed.

(** C4, as the code has it. Every failure returns an error message; two
    failures of different kinds return different messages, except that a
    failed store returns the message of a rejected decode. *)
Theorem failure_messages_distinct_but_store
    file1 base1 dims1 tsize1 w1 k1 file2 base2 dims2 tsize2 w2 k2 :
  failure_of file1 base1 dims1 w1 = Some k1 ->
  failure_of file2 base2 dims2 w2 = Some k2 ->
  exists m1 m2,
    fst (process_uploaded_image file1 base1 dims1 tsize1 w1) = inr (None, Some m1) /\
    fst (process_uploaded_image file2 base2 dims2 tsize2 w2) = inr (None, Some m2) /\
    (m1 = m2 ->
     k1 = k2 \/ (k1 = DecodeRejected /\ k2 = StoreFailed)
     \/ (k1 = StoreFailed /\ k2 = DecodeRejected)) /\
    (k1 = DecodeRejected /\ k2 = StoreFailed -> m1 = m2).
Proof.
  intros H1 H2. exists (failure_message dims1 k1), (failure_message dims2 k2).
  split; [now apply failure_run|]. split; [now apply failure_run|]. split.
  - apply failure_message_eq.
  - now intros [-> ->].
Qed.

(** C5. For an upload that passes the gate and decodes, the run ends with the
    size error exactly when the width is greater than the maximal width or
    the height greater than the maximal height (a dimension equal to its
    bound passes), and the message contains the configured bound. *)
Theorem dimension_guard_strict file base dims tsize w image :
  fails dims file GateNoFile = false ->
  fails dims file GateExtension = false ->
  fails dims file GateContentType = false ->
  decoded file = Some image ->
  (fst (process_uploaded_image file base dims tsize w)
   = inr (None, Some (size_message (fst dims) (snd dims)))
   <-> (Image_width image > fst dims \/ Image_height image > snd dims))
  /\ exists pre post,
       size_message (fst dims) (snd dims)
       = pre +:+ (pretty (fst dims) +:+ "x" +:+ pretty (snd dims)) +:+ post.
Proof.
  intros Hfile Hext Htype Hdec. split; [|apply size_message_has_bound].
  assert (Hgt : exceeds dims image = true
                <-> (Image_width image > fst dims \/ Image_height image > snd dims)).
  { unfold exceeds. rewrite orb_true_iff, !Z.gtb_gt. reflexivity. }
  rewrite <- Hgt.
  destruct (exceeds dims image) eqn:Hexc.
  - split; [reflexivity|]. intros _.
    assert (Hearly : earliest_failure dims file = Some DimensionRejected).
    { unfold earliest_failure, stage_order. cbn [List.find].
      rewrite Hfile, Hext, Htype. cbn [fails]. now rewrite Hdec, Hexc. }
    now rewrite (rejected_run _ _ _ _ _ _ Hearly).
  - split; [|discriminate]. intros Hrun. exfalso.
    assert (Hearly : earliest_failure dims file = None).
    { unfold earliest_failure, stage_order. cbn [List.find].
      rewrite Hfile, Hext, Htype. cbn [fails]. now rewrite Hdec, Hexc. }
    destruct (accepted_run file base dims tsize w Hearly) as (image' & _ & _ & Heq).
    rewrite Heq in Hrun.
    destruct (os_makedirs base (drawn w)) as [[e|[]] w1]; [discriminate|].
    destruct (_save_image image' _ w1) as [[e|[]] w2]; cbn [fst] in Hrun; [|discriminate].
    assert (Hm : failure_message dims StoreFailed = failure_message dims DimensionRejected)
      by (change (failure_message dims DimensionRejected)
            with (size_message (fst dims) (snd dims)); congruence).
    apply failure_message_eq in Hm as [?|[[? ?]|[? ?]]]; discriminate.
Qed.

Lemma gate_ignores_stream file dims bytes k :
  k = GateNoFile \/ k = GateExtension \/ k = GateContentType ->
  fails dims (replace_stream bytes file) k = fails dims file k.
Proof. intros [->|[->| ->]]; destruct file; reflexivity. Qed.

(** C8, as the code has it. When the declared content type does not start
    with [image/] (or is missing), the run is decided at the gate and does not
    depend on the bytes of the stream: other bytes give the same result, the
    world is left as it was, and the error is the content-type error whenever
    the file is there and its name passes the extension check. *)
Theorem content_type_gate_ignores_bytes file bytes base dims tsize w :
  is_image_type (declared_type file) = false ->
  process_uploaded_image (replace_stream bytes file) base dims tsize w
  = process_uploaded_image file base dims tsize w
  /\ snd (process_uploaded_image file base dims tsize w) = w
  /\ (fails dims file GateNoFile = false ->
      fails dims file GateExtension = false ->
      fst (process_uploaded_image file base dims tsize w)
      = inr (None, Some "画像ファイルをアップロードしてください")).
Proof.
  intros Htype.
  assert (Hk : exists k,
             (k = GateNoFile \/ k = GateExtension \/ k = GateContentType) /\
             earliest_failure dims file = Some k /\
             earliest_failure dims (replace_stream bytes file) = Some k /\
             (fails dims file GateNoFile = false ->
              fails dims file GateExtension = false -> k = GateContentType)).
  { unfold earliest_failure, stage_order. cbn [List.find].
    rewrite !gate_ignores_stream by auto.
    assert (Hfails : fails dims file GateContentType = true)
      by (cbn [fails]; now rewrite Htype).
    rewrite Hfails.
    destruct (fails dims file GateNoFile);
      [exists GateNoFile; repeat split; auto; discriminate|].
    destruct (fails dims file GateExtension);
      [exists GateExtension; repeat split; auto; discriminate|].
    exists GateContentType. repeat split; auto. }
  destruct Hk as (k & Hgate & H1 & H2 & Hct).
  rewrite (rejected_run _ _ _ _ _ _ H1), (rejected_run _ _ _ _ _ _ H2).
  split; [destruct Hgate as [->|[->| ->]]; reflexivity|].
  split; [destruct Hgate as [->|[->| ->]]; reflexivity|].
  intros Hf He. now rewrite (Hct Hf He).
Qed.

End Stage_properties.

(** ** Paths and tokens *)

Lemma string_app_nil_r (a : string) : a +:+ "" = a.
Proof.
  induction a as [|x a IH]; [reflexivity|].
  change (String x (a +:+ "") = String x a). now rewrite IH.
Qed.

Lemma string_app_length (a b : string) :
  String.length (a +:+ b) = (String.length a + String.length b)%nat.
Proof.
  induction a as [|x a IH]; [reflexivity|].
  change (S (String.length (a +:+ b)) = S (String.length a + String.length b)).
  now rewrite IH.
Qed.

Lemma endswith_char_app (a : string) (x : ascii) (b : string) (c : ascii) :
  PyStr.endswith_char (a +:+ String x b) c = PyStr.endswith_char (String x b) c.
Proof.
  induction a as [|y a IH]; [reflexivity|].
  change (String y a +:+ String x b) with (String y (a +:+ String x b)).
  rewrite <- IH. destruct a; reflexivity.
Qed.

Lemma os_path_join_relative (a b : string) :
  PyStr.startswith b "/" = false -> Lib.os_path_join a b = Lib.slashed a +:+ b.
Proof.
  intros Hb. unfold Lib.os_path_join, Lib.slashed. rewrite Hb.
  destruct (decide (a = "")); [reflexivity|].
  destruct (PyStr.endswith_char a "/"); [reflexivity|].
  now rewrite string_app_assoc.
Qed.

(** The thumbnail of a stored image never has the path of the image. *)
Lemma thumbnail_path_differs (base name : string) :
  PyStr.startswith name "/" = false ->
  Lib.os_path_join (Lib.os_path_join base "thumbs") name <> Lib.os_path_join base name.
Proof.
  intros Hname.
  rewrite (os_path_join_relative base name Hname).
  rewrite (os_path_join_relative _ name Hname).
  rewrite (os_path_join_relative base "thumbs") by reflexivity.
  assert (Hs : Lib.slashed (Lib.slashed base +:+ "thumbs")
               = Lib.slashed base +:+ "thumbs/").
  { unfold Lib.slashed at 1.
    destruct (decide (Lib.slashed base +:+ "thumbs" = "")) as [He|_].
    - apply (f_equal String.length) in He. rewrite string_app_length in He.
      cbn in He. lia.
    - rewrite endswith_char_app. cbn. now rewrite string_app_assoc. }
  rewrite Hs, string_app_assoc. intros Heq.
  apply String.app_inj in Heq. apply (f_equal String.length) in Heq.
  rewrite string_app_length in Heq. cbn in Heq. lia.
Qed.

Lemma hex_digit_is_hex (z : Z) : Lib.is_hex_char (Lib.hex_digit (z mod 16)) = true.
Proof.
  pose proof (Z.mod_pos_bound z 16 eq_refl) as Hb.
  assert (H : z mod 16 = 0 \/ z mod 16 = 1 \/ z mod 16 = 2 \/ z mod 16 = 3
              \/ z mod 16 = 4 \/ z mod 16 = 5 \/ z mod 16 = 6 \/ z mod 16 = 7
              \/ z mod 16 = 8 \/ z mod 16 = 9 \/ z mod 16 = 10 \/ z mod 16 = 11
              \/ z mod 16 = 12 \/ z mod 16 = 13 \/ z mod 16 = 14 \/ z mod 16 = 15)
    by lia.
  repeat (destruct H as [->|H]; [reflexivity|]). now rewrite H.
Qed.

Lemma hex_spec (n : nat) (z : Z) (acc : string) :
  PyStr.forallb Lib.is_hex_char acc = true ->
  PyStr.forallb Lib.is_hex_char (Lib.hex n z acc) = true
  /\ String.length (Lib.hex n z acc) = (n + String.length acc)%nat.
Proof.
  revert z acc. induction n as [|n IH]; intros z acc Hacc; [now split|].
  cbn [Lib.hex].
  destruct (IH (z / 16) (String (Lib.hex_digit (z mod 16)) acc)) as [H1 H2].
  - cbn [PyStr.forallb]. now rewrite hex_digit_is_hex, Hacc.
  - split; [exact H1|]. rewrite H2. cbn [String.length]. lia.
Qed.

Section Store_properties.
Context {P : Platform}.

Implicit Types (file : option FileStorage) (w : World) (image : Image).

Lemma token_spec w :
  PyStr.forallb Lib.is_hex_char (token_of w) = true
  /\ String.length (token_of w) = 32%nat.
Proof.
  unfold token_of, Lib.uuid_hex.
  destruct (hex_spec 32 (Lib.uuid4_int (urandom16 (draws w))) "" eq_refl) as [H1 H2].
  split; [exact H1|]. rewrite H2. reflexivity.
Qed.

Lemma hex_char_not_slash (c : ascii) :
  Lib.is_hex_char c = true -> c <> "/"%char /\ c <> "."%char.
Proof. intros H. split; intros ->; discriminate H. Qed.

(** The storage name is never empty and never absolute. *)
Lemma storage_name_relative file w :
  storage_name file w <> "" /\ PyStr.startswith (storage_name file w) "/" = false.
Proof.
  unfold storage_name. destruct (token_spec w) as [Hhex Hlen].
  destruct (token_of w) as [|c r]; [discriminate Hlen|].
  cbn [PyStr.forallb] in Hhex. apply andb_true_iff in Hhex as [Hc _].
  apply hex_char_not_slash in Hc as [Hc _].
  split; [discriminate|].
  unfold PyStr.startswith.
  change (String c r +:+ ?x) with (String c (r +:+ x)).
  cbn [String.prefix].
  destruct (Ascii.ascii_dec "/" c) as [<-|_]; [now contradict Hc|reflexivity].
Qed.

Lemma os_makedirs_files path w r w' :
  os_makedirs path w = (r, w') -> files (fs w') = files (fs w).
Proof.
  unfold os_makedirs. destruct (files (fs w) !! path); [now intros [= _ <-]|].
  destruct (makedirs_error path (fs w)); now intros [= _ <-].
Qed.

Lemma Image_save_files image path w r w' :
  Image_save image path w = (r, w') ->
  (r = inr tt /\ files (fs w') = <[path := image]> (files (fs w)))
  \/ ((exists e, r = inl e) /\ w' = w).
Proof.
  unfold Image_save.
  destruct (EXTENSION _); [|intros [= <- <-]; right; eauto].
  destruct (save_error _ _ _ _); intros [= <- <-]; [right; eauto|left; auto].
Qed.

(** What [_save_image] writes: the image itself, or its conversion to RGB
    when its mode is RGBA or P. *)
Lemma save_image_stored image path w w' :
  _save_image image path w = (inr tt, w') ->
  exists stored,
    files (fs w') = <[path := stored]> (files (fs w)) /\
    if bool_decide (Image_mode image ∈ ["RGBA"; "P"])
    then Image_convert image "RGB" = inr stored
    else stored = image.
Proof.
  unfold _save_image, _ensure_saveable_mode, bind.
  destruct (bool_decide (Image_mode image ∈ ["RGBA"; "P"])).
  - unfold call. destruct (Image_convert image "RGB") as [e|converted]; [discriminate|].
    intros Hsave. apply Image_save_files in Hsave as [[_ Hf]|[[e [=]] _]]. eauto.
  - unfold ret. intros Hsave.
    apply Image_save_files in Hsave as [[_ Hf]|[[e [=]] _]]. eauto.
Qed.

(** A failed write of the full-size image leaves the files as they were. *)
Lemma save_image_failed image path w e w' :
  _save_image image path w = (inl e, w') -> w' = w.
Proof.
  unfold _save_image, _ensure_saveable_mode, bind.
  destruct (bool_decide (Image_mode image ∈ ["RGBA"; "P"])).
  - unfold call. destruct (Image_convert image "RGB") as [e'|converted];
      [now intros [= _ <-]|].
    intros Hsave. now apply Image_save_files in Hsave as [[[=] _]|[_ ->]].
  - unfold ret. intros Hsave. now apply Image_save_files in Hsave as [[[=] _]|[_ ->]].
Qed.

(** What [create_thumbnail] does to the files: nothing when it raises, one
    file at the thumbnail path when it returns. *)
Lemma create_thumbnail_files image dir name size w r w' :
  create_thumbnail image dir name size w = (r, w') ->
  ((exists e, r = inl e) /\ files (fs w') = files (fs w))
  \/ (r = inr tt /\
      exists copy thumb stored,
        Image_copy image = inr copy /\
        Image_thumbnail copy size = inr thumb /\
        files (fs w') = <[Lib.os_path_join dir name := stored]> (files (fs w)) /\
        if bool_decide (Image_mode thumb ∈ ["RGBA"; "P"])
        then Image_convert thumb "RGB" = inr stored
        else stored = thumb).
Proof.
  unfold create_thumbnail. unfold bind at 1.
  destruct (os_makedirs dir w) as [[e|[]] w1] eqn:Hmk.
  { intros [= <- <-]. left. split; [eauto|]. eapply os_makedirs_files, Hmk. }
  apply os_makedirs_files in Hmk. rewrite <- Hmk.
  unfold bind at 1. unfold call at 1.
  destruct (Image_copy image) as [e|copy]; [intros [= <- <-]; left; eauto|].
  unfold bind at 1. unfold call at 1.
  destruct (Image_thumbnail copy size) as [e|thumb] eqn:Hresize;
    [intros [= <- <-]; left; eauto|].
  unfold bind at 1.
  destruct (bool_decide (Image_mode thumb ∈ ["RGBA"; "P"])) eqn:Hmode.
  - unfold call at 1.
    destruct (Image_convert thumb "RGB") as [e|converted] eqn:Hconv;
      [intros [= <- <-]; left; eauto|].
    intros Hsave. apply Image_save_files in Hsave as [[-> Hf]|[[e ->] ->]].
    + right. split; [reflexivity|]. exists copy, thumb, converted.
      rewrite Hmode. repeat split; auto.
    + left. eauto.
  - unfold ret at 1.
    intros Hsave. apply Image_save_files in Hsave as [[-> Hf]|[[e ->] ->]].
    + right. split; [reflexivity|]. exists copy, thumb, thumb.
      rewrite Hmode. repeat split; auto.
    + left. eauto.
Qed.

(** Whatever the thumbnail stage does, the full-size file stays as the store
    left it: the thumbnail goes to another path. *)
Lemma stored_file_survives_thumbnail file base tsize w image w2 r w3 :
  create_thumbnail image (Lib.os_path_join base "thumbs") (storage_name file w) tsize w2
  = (r, w3) ->
  files (fs w3) !! Lib.os_path_join base (storage_name file w)
  = files (fs w2) !! Lib.os_path_join base (storage_name file w).
Proof.
  intros Hthumb.
  apply create_thumbnail_files in Hthumb as [[_ ->]|[_ Hok]]; [reflexivity|].
  destruct Hok as (copy & thumb & stored & _ & _ & -> & _).
  apply lookup_insert_ne, thumbnail_path_differs, storage_name_relative.
Qed.

(** C2. When the full-size image has been written and the thumbnail then
    fails, for whatever reason, the run still returns the generated name and
    no error, and the file written for the full-size image is still there,
    with the content it was given. *)
Theorem thumbnail_failure_is_swallowed file base dims tsize w image w1 w2 e w3 :
  earliest_failure dims file = None ->
  decoded file = Some image ->
  os_makedirs base (drawn w) = (inr tt, w1) ->
  _save_image image (Lib.os_path_join base (storage_name file w)) w1 = (inr tt, w2) ->
  create_thumbnail image (Lib.os_path_join base "thumbs") (storage_name file w) tsize w2
  = (inl e, w3) ->
  process_uploaded_image file base dims tsize w
  = (inr (Some (storage_name file w), None), w3)
  /\ is_Some (files (fs w2) !! Lib.os_path_join base (storage_name file w))
  /\ files (fs w3) !! Lib.os_path_join base (storage_name file w)
     = files (fs w2) !! Lib.os_path_join base (storage_name file w).
Proof.
  intros Hearly Hdec Hmk Hsave Hthumb.
  destruct (accepted_run file base dims tsize w Hearly) as (image' & Hdec' & _ & ->).
  rewrite Hdec in Hdec'. injection Hdec' as <-.
  rewrite Hmk, Hsave. unfold try_except. rewrite Hthumb. cbn [snd ret].
  split; [reflexivity|]. split.
  - apply save_image_stored in Hsave as (stored & -> & _).
    rewrite lookup_insert_eq. eauto.
  - apply create_thumbnail_files in Hthumb as [[_ Hf]|[[=] _]]. now rewrite Hf.
Qed.

(** C6, as the code has it. An image is converted before it is saved exactly
    when its mode is [RGBA] or [P], and then with [convert("RGB")]; an image of
    any other mode, the other modes with an alpha channel or a palette
    included, is saved as it is. This holds for the full-size image, whose
    mode is that of the decoded image, and for the thumbnail, whose mode is
    that of the resized copy. *)
Theorem conversion_only_for_RGBA_and_P image path dir name size w :
  (forall w',
      _save_image image path w = (inr tt, w') ->
      exists stored,
        files (fs w') !! path = Some stored /\
        if bool_decide (Image_mode image ∈ ["RGBA"; "P"])
        then Image_convert image "RGB" = inr stored
        else stored = image)
  /\ (forall w',
        create_thumbnail image dir name size w = (inr tt, w') ->
        exists copy thumb stored,
          Image_copy image = inr copy /\
          Image_thumbnail copy size = inr thumb /\
          files (fs w') !! Lib.os_path_join dir name = Some stored /\
          if bool_decide (Image_mode thumb ∈ ["RGBA"; "P"])
          then Image_convert thumb "RGB" = inr stored
          else stored = thumb).
Proof.
  split.
  - intros w' Hsave. apply save_image_stored in Hsave as (stored & -> & Hmode).
    exists stored. now rewrite lookup_insert_eq.
  - intros w' Hthumb.
    apply create_thumbnail_files in Hthumb as [[[e [=]] _]|[_ Hok]].
    destruct Hok as (copy & thumb & stored & Hc & Ht & -> & Hmode).
    exists copy, thumb, stored. now rewrite lookup_insert_eq.
Qed.

End Store_properties.

Section Delete_properties.
Context {P : Platform}.

Implicit Types (w : World) (paths : list string).

Lemma attempt_removal_absent (path : string) (f : FileSystem Image) :
  remove_error path f = None -> files (attempt_removal path f) !! path = None.
Proof.
  intros Hok. unfold attempt_removal.
  destruct (files f !! path) eqn:Hfile; [|exact Hfile].
  rewrite Hok. cbn. apply lookup_delete_eq.
Qed.

Lemma attempt_removal_keeps_absent (path q : string) (f : FileSystem Image) :
  files f !! q = None -> files (attempt_removal path f) !! q = None.
Proof.
  intros Hq. unfold attempt_removal.
  destruct (files f !! path); [|exact Hq].
  destruct (remove_error path f); [exact Hq|]. cbn.
  rewrite lookup_delete_None. now right.
Qed.

(** The loop never raises: each path is tried on its own, and what happens to
    one does not stop the next. *)
Lemma remove_files_run paths w :
  (forall path, path ∈ paths -> path <> "") ->
  exists w',
    remove_files paths w = (inr tt, w') /\
    fs w' = foldl (fun f path => attempt_removal path f) (fs w) paths /\
    posts w' = posts w /\ conn w' = conn w.
Proof.
  revert w. induction paths as [|path rest IH]; intros w Hne.
  - exists w. repeat split.
  - assert (Hpath : bool_decide (path = "") = false).
    { apply bool_decide_eq_false. apply Hne, list_elem_of_here. }
    assert (Hstep : exists w1,
               (let f := bind (os_path_exists path) (fun present =>
                           if present
                           then try_except (os_remove path)
                                  (fun _ => logger_exception ("failed to remove file: " +:+ path))
                           else ret tt) in f w) = (inr tt, w1) /\
               fs w1 = attempt_removal path (fs w) /\
               posts w1 = posts w /\ conn w1 = conn w).
    { cbv zeta. unfold bind, os_path_exists, attempt_removal.
      destruct (files (fs w) !! path) as [i|] eqn:Hfile.
      - rewrite bool_decide_eq_true_2 by eauto. cbn [orb].
        unfold try_except, os_remove. rewrite Hfile.
        destruct (remove_error path (fs w)); eexists; repeat split.
      - rewrite bool_decide_eq_false_2 by (intros [? [=]]). cbn [orb].
        destruct (bool_decide (path ∈ dirs (fs w))) eqn:Hdir.
        + unfold try_except, os_remove. rewrite Hfile. eexists; repeat split.
        + eexists; repeat split. }
    destruct Hstep as (w1 & Hrun & Hfs & Hposts & Hconn).
    destruct (IH w1) as (w' & Hrest & Hfs' & Hposts' & Hconn').
    { intros q Hq. apply Hne. now apply list_elem_of_further. }
    exists w'. cbn [remove_files foldl]. rewrite Hpath. cbn [negb].
    cbv zeta in Hrun. unfold bind at 1. rewrite Hrun, Hrest.
    rewrite Hfs', Hfs, Hposts', Hposts, Hconn', Hconn. repeat split.
Qed.

(** C9. For a post whose stored file name is relative, as every generated
    name is, the view tries the removal of [static/uploads/<name>] and of
    [static/uploads/thumbs/<name>], one after the other; a path that is absent
    or whose removal raises changes nothing for the other path, and the record
    of the post is deleted in every case. *)
Theorem delete_cleans_both_paths user id w row owner name :
  (forall op t, sql_error op t = None) ->
  is_authenticated user = true ->
  default (posts w) (conn w) !! id = Some row ->
  user_id row = Some owner ->
  user_ident user = owner \/ username user = "admin" ->
  post_filename row = Some name ->
  PyStr.startswith name "/" = false ->
  let full := "static/uploads/" +:+ name in
  let thumb := "static/uploads/thumbs/" +:+ name in
  let r := delete user id w in
  fst r = inr (Redirect "home")
  /\ posts (snd r) = base.delete id (default (posts w) (conn w))
  /\ fs (snd r) = attempt_removal thumb (attempt_removal full (fs w))
  /\ (remove_error full (fs w) = None -> files (fs (snd r)) !! full = None)
  /\ (remove_error thumb (attempt_removal full (fs w)) = None ->
      files (fs (snd r)) !! thumb = None).
Proof.
  intros Hsql Hauth Hrow Howner Hallowed Hname Hrel full thumb r.
  assert (Hrun : exists w',
             delete user id w = (inr (Redirect "home"), w') /\
             posts w' = base.delete id (default (posts w) (conn w)) /\
             fs w' = attempt_removal thumb (attempt_removal full (fs w))).
  { unfold delete. rewrite Hauth. cbn [negb]. unfold bind at 1. unfold ret at 1.
    unfold try_except. unfold bind at 1.
    set (view := default (posts w) (conn w)) in *.
    assert (Hdb : exists w0,
               get_db w = (inr tt, w0) /\ conn w0 = Some view /\ fs w0 = fs w).
    { unfold get_db, view. destruct (conn w) eqn:Hc.
      - exists w. repeat split. exact Hc.
      - rewrite Hsql. eexists. repeat split. }
    destruct Hdb as (w0 & -> & Hc0 & Hfs0).
    unfold bind at 1. unfold db_execute at 1. rewrite Hc0, Hsql, Hrow.
    rewrite Howner, Hname. unfold bind at 1. unfold py_int, ret at 1.
    unfold bind at 1.
    assert (Hcheck : negb (bool_decide (user_ident user = owner))
                     && negb (bool_decide (username user = "admin")) = false).
    { destruct Hallowed as [Hu|Hu].
      - now rewrite (bool_decide_eq_true_2 _ Hu).
      - rewrite (bool_decide_eq_true_2 _ Hu). apply andb_false_r. }
    rewrite Hcheck. unfold ret at 1. unfold bind at 1. unfold ret at 1.
    rewrite (os_path_join_relative _ name Hrel), (os_path_join_relative _ name Hrel).
    change (Lib.slashed (Lib.os_path_join "static" "uploads") +:+ name) with full.
    change (Lib.slashed (Lib.os_path_join (Lib.os_path_join "static" "uploads") "thumbs")
            +:+ name) with thumb.
    unfold bind at 1.
    destruct (remove_files_run [full; thumb]
                (mkWorld (fs w0) (draws w0) (posts w0) (Some view) (log w0)))
      as (w1 & -> & Hfs1 & Hposts1 & Hconn1).
    { intros path Hpath. apply list_elem_of_In in Hpath.
      destruct Hpath as [<-|[<-|[]]]; discriminate. }
    unfold bind at 1. unfold db_execute at 1. rewrite Hconn1. cbn [conn]. rewrite Hsql.
    unfold bind at 1. unfold db_commit. cbn [conn]. rewrite Hsql.
    eexists. split; [reflexivity|]. cbn [posts fs]. split; [reflexivity|].
    rewrite Hfs1. cbn [foldl fs]. now rewrite Hfs0. }
  destruct Hrun as (w' & Hrun & Hposts & Hfs). subst r. rewrite Hrun. cbn [fst snd].
  split; [reflexivity|]. split; [exact Hposts|]. split; [exact Hfs|]. rewrite Hfs. split.
  - intros Hok. apply attempt_removal_keeps_absent. now apply attempt_removal_absent.
  - intros Hok. now apply attempt_removal_absent.
Qed.

End Delete_properties.

(** ** The extension of the storage name *)

Lemma letter_char (c : ascii) :
  PyStr.is_letter c = true ->
  Lib.filename_char c = true /\ PyStr.contains c "._" = false.
Proof.
  destruct c as [[] [] [] [] [] [] [] []]; vm_compute; intros H;
    try discriminate H; split; reflexivity.
Qed.

Lemma filename_char_plain (c : ascii) :
  Lib.filename_char c = true ->
  PyStr.is_ascii c = true /\ PyStr.is_space c = false /\ c <> "/"%char.
Proof.
  destruct c as [[] [] [] [] [] [] [] []]; vm_compute; intros H;
    try discriminate H; repeat split; discriminate.
Qed.

Lemma lower_char_letter (c : ascii) :
  PyStr.is_lower (PyStr.lower_char c) = true -> PyStr.is_letter c = true.
Proof.
  destruct c as [[] [] [] [] [] [] [] []]; vm_compute; intros H;
    try discriminate H; reflexivity.
Qed.

Lemma forallb_app (p : ascii -> bool) (s t : string) :
  PyStr.forallb p (s +:+ t) = PyStr.forallb p s && PyStr.forallb p t.
Proof.
  induction s as [|a s IH]; [reflexivity|].
  change (String a s +:+ t) with (String a (s +:+ t)). cbn [PyStr.forallb].
  now rewrite IH, andb_assoc.
Qed.

Lemma forallb_impl (p q : ascii -> bool) (s : string) :
  (forall c, p c = true -> q c = true) ->
  PyStr.forallb p s = true -> PyStr.forallb q s = true.
Proof.
  intros Hpq. induction s as [|a s IH]; [reflexivity|]. cbn [PyStr.forallb].
  intros [Ha Hs]%andb_true_iff. now rewrite (Hpq a Ha), (IH Hs).
Qed.

Lemma lower_letters (e : string) :
  PyStr.forallb PyStr.is_lower (PyStr.lower e) = true ->
  PyStr.forallb PyStr.is_letter e = true.
Proof.
  induction e as [|a e IH]; [reflexivity|]. cbn [PyStr.lower PyStr.forallb].
  intros [Ha He]%andb_true_iff. now rewrite (lower_char_letter a Ha), (IH He).
Qed.

(** An extension accepted by [allowed_file] is a non-empty word of letters. *)
Lemma allowed_extension_letters (e : string) :
  PyStr.lower e ∈ ALLOWED_EXTENSIONS ->
  PyStr.forallb PyStr.is_letter e = true /\ e <> "".
Proof.
  intros Hin. split.
  - apply lower_letters. unfold ALLOWED_EXTENSIONS in Hin.
    repeat (apply elem_of_cons in Hin as [->|Hin]; [reflexivity|]).
    now apply elem_of_nil in Hin.
  - intros ->. unfold ALLOWED_EXTENSIONS in Hin. cbn in Hin.
    repeat (apply elem_of_cons in Hin as [Hin|Hin]; [discriminate Hin|]).
    now apply elem_of_nil in Hin.
Qed.

Lemma contains_false_forallb (c : ascii) (s : string) :
  PyStr.contains c s = false <->
  PyStr.forallb (fun a => negb (bool_decide (a = c))) s = true.
Proof.
  induction s as [|a s IH]; [easy|]. cbn [PyStr.contains PyStr.forallb].
  destruct (decide (a = c)) as [Heq|Hne].
  - rewrite (bool_decide_eq_true_2 _ Heq). easy.
  - rewrite (bool_decide_eq_false_2 _ Hne). exact IH.
Qed.

Lemma after_last_none (c : ascii) (s : string) :
  PyStr.after_last c s = None <-> PyStr.contains c s = false.
Proof.
  induction s as [|a s IH]; [easy|]. cbn [PyStr.after_last PyStr.contains].
  destruct (decide (a = c)).
  - destruct (PyStr.after_last c s); easy.
  - destruct (PyStr.after_last c s); [|easy].
    split; [discriminate|]. intros H. apply IH in H. discriminate.
Qed.

(** [rsplit] cuts at the last separator: the part after it has none. *)
Lemma after_last_split (c : ascii) (s e : string) :
  PyStr.after_last c s = Some e ->
  PyStr.contains c e = false /\ exists stem, s = stem +:+ String c e.
Proof.
  revert e. induction s as [|a s IH]; intros e; [discriminate|].
  cbn [PyStr.after_last].
  destruct (PyStr.after_last c s) as [t|] eqn:Hlast.
  - intros [= ->]. destruct (IH e eq_refl) as (Hno & stem & ->).
    split; [exact Hno|]. now exists (String a stem).
  - destruct (decide (a = c)) as [->|_]; [|discriminate].
    intros [= ->]. split; [now apply after_last_none|]. now exists "".
Qed.

Lemma after_last_app (c : ascii) (s e : string) :
  PyStr.contains c e = false -> PyStr.after_last c (s +:+ String c e) = Some e.
Proof.
  intros Hno. induction s as [|a s IH].
  - change ("" +:+ String c e) with (String c e). cbn [PyStr.after_last].
    apply after_last_none in Hno. rewrite Hno.
    now destruct (decide (c = c)).
  - change (String a s +:+ String c e) with (String a (s +:+ String c e)).
    cbn [PyStr.after_last]. now rewrite IH.
Qed.

Lemma contains_app (c : ascii) (s t : string) :
  PyStr.contains c (s +:+ t) = PyStr.contains c s || PyStr.contains c t.
Proof.
  induction s as [|a s IH]; [reflexivity|].
  change (String a s +:+ t) with (String a (s +:+ t)). cbn [PyStr.contains].
  destruct (decide (a = c)); [reflexivity|exact IH].
Qed.

Lemma rfind_none (c : ascii) (s : string) :
  PyStr.contains c s = false -> PyStr.rfind c s = None.
Proof.
  induction s as [|a s IH]; [reflexivity|]. cbn [PyStr.contains PyStr.rfind].
  destruct (decide (a = c)); [discriminate|]. intros H. now rewrite (IH H).
Qed.

Lemma rfind_app_last (c : ascii) (s t : string) :
  PyStr.contains c t = false ->
  PyStr.rfind c (s +:+ String c t) = Some (String.length s).
Proof.
  intros Hno. induction s as [|a s IH].
  - change ("" +:+ String c t) with (String c t). cbn [PyStr.rfind].
    rewrite (rfind_none c t Hno). now destruct (decide (c = c)).
  - change (String a s +:+ String c t) with (String a (s +:+ String c t)).
    cbn [PyStr.rfind String.length]. now rewrite IH.
Qed.

Lemma rfind_app_none (c : ascii) (s t : string) :
  PyStr.contains c t = false -> PyStr.rfind c (s +:+ t) = PyStr.rfind c s.
Proof.
  intros Hno. induction s as [|a s IH].
  - change ("" +:+ t) with t. now rewrite rfind_none.
  - change (String a s +:+ t) with (String a (s +:+ t)).
    cbn [PyStr.rfind]. now rewrite IH.
Qed.

Lemma drop_app_length (s t : string) : PyStr.drop (String.length s) (s +:+ t) = t.
Proof.
  induction s as [|a s IH]; [now destruct t|].
  change (String a s +:+ t) with (String a (s +:+ t)). exact IH.
Qed.

Lemma map_app (f : ascii -> ascii) (s t : string) :
  PyStr.map f (s +:+ t) = PyStr.map f s +:+ PyStr.map f t.
Proof.
  induction s as [|a s IH]; [reflexivity|].
  change (String a s +:+ t) with (String a (s +:+ t)). cbn [PyStr.map].
  now rewrite IH.
Qed.

Lemma map_slash_plain (t : string) :
  PyStr.forallb Lib.filename_char t = true ->
  PyStr.map (fun c => if decide (c = "/"%char) then " "%char else c) t = t.
Proof.
  induction t as [|a t IH]; [reflexivity|]. cbn [PyStr.forallb PyStr.map].
  intros [Ha Ht]%andb_true_iff. rewrite (IH Ht).
  destruct (filename_char_plain a Ha) as (_ & _ & Hslash).
  now destruct (decide (a = "/"%char)).
Qed.

Lemma join_words_plain (started : bool) (t : string) :
  PyStr.forallb Lib.filename_char t = true ->
  PyStr.join_words started false t = t.
Proof.
  revert started. induction t as [|a t IH]; intros started; [reflexivity|].
  cbn [PyStr.forallb PyStr.join_words]. intros [Ha Ht]%andb_true_iff.
  destruct (filename_char_plain a Ha) as (_ & -> & _). now rewrite (IH true Ht).
Qed.

(** White space before a suffix without white space does not reach it. *)
Lemma join_words_app (s : string) (a : ascii) (t : string) (started pending : bool) :
  PyStr.forallb Lib.filename_char (String a t) = true ->
  exists x, PyStr.join_words started pending (s +:+ String a t) = x +:+ String a t.
Proof.
  intros Hplain. revert started pending.
  induction s as [|b s IH]; intros started pending.
  - change ("" +:+ String a t) with (String a t).
    cbn [PyStr.forallb] in Hplain. apply andb_true_iff in Hplain as [Ha Ht].
    cbn [PyStr.join_words]. destruct (filename_char_plain a Ha) as (_ & -> & _).
    rewrite (join_words_plain true t Ht).
    destruct pending; [now exists "_"|now exists ""].
  - change (String b s +:+ String a t) with (String b (s +:+ String a t)).
    cbn [PyStr.join_words]. destruct (PyStr.is_space b).
    + apply IH.
    + destruct (IH true false) as [x ->].
      destruct pending; [now exists (String "_" (String b x))|now exists (String b x)].
Qed.

Lemma filter_app (p : ascii -> bool) (s t : string) :
  PyStr.filter p (s +:+ t) = PyStr.filter p s +:+ PyStr.filter p t.
Proof.
  induction s as [|a s IH]; [reflexivity|].
  change (String a s +:+ t) with (String a (s +:+ t)). cbn [PyStr.filter].
  rewrite IH. now destruct (p a).
Qed.

Lemma filter_all (p : ascii -> bool) (t : string) :
  PyStr.forallb p t = true -> PyStr.filter p t = t.
Proof.
  induction t as [|a t IH]; [reflexivity|]. cbn [PyStr.forallb PyStr.filter].
  intros [-> Ht]%andb_true_iff. now rewrite (IH Ht).
Qed.

Lemma filter_forallb (p : ascii -> bool) (s : string) :
  PyStr.forallb p (PyStr.filter p s) = true.
Proof.
  induction s as [|a s IH]; [reflexivity|]. cbn [PyStr.filter].
  destruct (p a) eqn:Ha; [|exact IH]. cbn [PyStr.forallb]. now rewrite Ha, IH.
Qed.

Lemma rstrip_plain (q : ascii -> bool) (e : string) :
  PyStr.forallb (fun c => negb (q c)) e = true -> PyStr.rstrip q e = e.
Proof.
  induction e as [|a e IH]; [reflexivity|]. cbn [PyStr.forallb PyStr.rstrip].
  intros [Ha He]%andb_true_iff. rewrite (IH He).
  destruct e; [|reflexivity]. apply negb_true_iff in Ha. now rewrite Ha.
Qed.

(** Nothing is stripped on the right of a text that ends in letters. *)
Lemma rstrip_app (q : ascii -> bool) (u e : string) :
  e <> "" -> PyStr.forallb (fun c => negb (q c)) e = true ->
  PyStr.rstrip q (u +:+ e) = u +:+ e.
Proof.
  intros Hne He. induction u as [|a u IH].
  - change ("" +:+ e) with e. now apply rstrip_plain.
  - change (String a u +:+ e) with (String a (u +:+ e)). cbn [PyStr.rstrip].
    rewrite IH. destruct (u +:+ e) eqn:Hue; [|reflexivity].
    exfalso. apply (f_equal String.length) in Hue.
    rewrite string_app_length in Hue. destruct e; [now apply Hne|cbn in Hue; lia].
Qed.

(** Stripping dots and underscores on the left of [y ++ "." ++ e] either eats
    the dot, when [y] has only dots and underscores, or stops at the first
    other character of [y]. *)
Lemma lstrip_before_extension (y e : string) :
  let q := fun c => PyStr.contains c "._" in
  PyStr.forallb PyStr.is_letter e = true -> e <> "" ->
  PyStr.lstrip q (y +:+ String "." e) = e
  \/ exists a z,
       PyStr.lstrip q (y +:+ String "." e) = String a (z +:+ String "." e)
       /\ q a = false
       /\ forall p, PyStr.forallb p y = true -> p a = true /\ PyStr.forallb p z = true.
Proof.
  intros q He Hne. induction y as [|b y IH].
  - left. change ("" +:+ String "." e) with (String "."%char e).
    cbn [PyStr.lstrip]. change (q "."%char) with true. cbn match.
    destruct e as [|c e]; [now contradict Hne|].
    cbn [PyStr.forallb] in He. apply andb_true_iff in He as [Hc _].
    cbn [PyStr.lstrip]. fold q. destruct (letter_char c Hc) as [_ Hq].
    unfold q at 1. now rewrite Hq.
  - change (String b y +:+ String "." e) with (String b (y +:+ String "." e)).
    cbn [PyStr.lstrip]. destruct (q b) eqn:Hb.
    + destruct IH as [IH|(a & z & Heq & Ha & Hall)]; [now left|].
      right. exists a, z. repeat split; auto.
      all: intros; cbn [PyStr.forallb] in *;
        match goal with H : _ && _ = true |- _ => apply andb_true_iff in H as [_ H] end;
        now apply Hall.
    + right. exists b, y. repeat split; auto.
      all: intros; cbn [PyStr.forallb] in *;
        match goal with H : _ && _ = true |- _ => now apply andb_true_iff in H as [? ?] end.
Qed.

Section Name_properties.
Context {P : Platform}.

Implicit Types (file : option FileStorage) (w : World).

Lemma nfkd_ascii_plain (run t : string) :
  PyStr.forallb PyStr.is_ascii t = true ->
  Lib.nfkd_ascii run t = Lib.flush run +:+ t.
Proof.
  revert run. induction t as [|a t IH]; intros run.
  - intros _. cbn [Lib.nfkd_ascii]. now rewrite string_app_nil_r.
  - cbn [PyStr.forallb Lib.nfkd_ascii]. intros [-> Ht]%andb_true_iff.
    now rewrite (IH "" Ht).
Qed.

(** Normalisation leaves an ASCII suffix as it is. *)
Lemma nfkd_ascii_app (run s t : string) :
  PyStr.forallb PyStr.is_ascii t = true ->
  Lib.nfkd_ascii run (s +:+ t) = Lib.nfkd_ascii run s +:+ t.
Proof.
  intros Ht. revert run. induction s as [|a s IH]; intros run.
  - change ("" +:+ t) with t. cbn [Lib.nfkd_ascii]. now apply nfkd_ascii_plain.
  - change (String a s +:+ t) with (String a (s +:+ t)). cbn [Lib.nfkd_ascii].
    destruct (PyStr.is_ascii a); [|apply IH].
    rewrite IH, string_app_assoc. reflexivity.
Qed.

(** The sanitised name of a name with extension [e], a word of letters: [e]
    alone when nothing else survives, or a stem that starts with a character
    other than the dot and the underscore, then the dot and [e]. *)
Lemma secure_filename_extension (stem e : string) :
  PyStr.forallb PyStr.is_letter e = true -> e <> "" ->
  Lib.secure_filename (stem +:+ String "." e) = e
  \/ exists a z,
       Lib.secure_filename (stem +:+ String "." e) = String a (z +:+ String "." e)
       /\ PyStr.contains a "._" = false
       /\ Lib.filename_char a = true
       /\ PyStr.forallb Lib.filename_char z = true.
Proof.
  intros He Hne.
  assert (Hfc : PyStr.forallb Lib.filename_char (String "." e) = true).
  { cbn [PyStr.forallb]. change (Lib.filename_char ".") with true. cbn [andb].
    eapply forallb_impl; [|exact He]. intros c Hc. now apply letter_char. }
  assert (Hascii : PyStr.forallb PyStr.is_ascii (String "." e) = true).
  { eapply forallb_impl; [|exact Hfc]. intros c Hc. now apply filename_char_plain. }
  assert (Hnotq : PyStr.forallb (fun c => negb (PyStr.contains c "._")) e = true).
  { eapply forallb_impl; [|exact He]. intros c Hc.
    destruct (letter_char c Hc) as [_ ->]. reflexivity. }
  unfold Lib.secure_filename.
  rewrite (nfkd_ascii_app "" stem _ Hascii), map_app, (map_slash_plain _ Hfc).
  destruct (join_words_app
              (PyStr.map (fun c => if decide (c = "/"%char) then " "%char else c)
                 (Lib.nfkd_ascii "" stem)) "." e false false Hfc) as [x ->].
  rewrite filter_app, (filter_all _ _ Hfc). unfold PyStr.strip.
  destruct (lstrip_before_extension (PyStr.filter Lib.filename_char x) e He Hne)
    as [->|(a & z & -> & Ha & Hall)].
  - left. now apply rstrip_plain.
  - right. exists a, z.
    destruct (Hall Lib.filename_char (filter_forallb _ _)) as [Hfa Hfz].
    repeat split; auto.
    replace (String a (z +:+ String "." e)) with (String a (z +:+ ".") +:+ e).
    + now apply rstrip_app.
    + change (String a (z +:+ ".") +:+ e) with (String a ((z +:+ ".") +:+ e)).
      now rewrite string_app_assoc.
Qed.

(** The extension taken from the sanitised name is empty or is the dot and
    the extension that [allowed_file] accepted. *)
Lemma sanitised_extension (name : string) :
  allowed_file name = true ->
  exists e,
    PyStr.after_last "." name = Some e /\
    PyStr.lower e ∈ ALLOWED_EXTENSIONS /\
    PyStr.contains "." e = false /\
    (snd (Lib.os_path_splitext (Lib.secure_filename name)) = ""
     \/ snd (Lib.os_path_splitext (Lib.secure_filename name)) = String "." e).
Proof.
  unfold allowed_file.
  destruct (bool_decide (name = "") || negb (PyStr.contains "." name)); [discriminate|].
  destruct (PyStr.after_last "." name) as [e|] eqn:Hlast; [|discriminate].
  intros Hin%bool_decide_eq_true. exists e.
  destruct (after_last_split _ _ _ Hlast) as (Hnodot & stem & ->).
  destruct (allowed_extension_letters e Hin) as [He Hne].
  repeat split; auto.
  destruct (secure_filename_extension stem e He Hne)
    as [->|(a & z & -> & Ha & Hfa & Hfz)].
  - left. unfold Lib.os_path_splitext. now rewrite (rfind_none _ _ Hnodot).
  - right. unfold Lib.os_path_splitext.
    change (String a (z +:+ String "." e)) with (String a z +:+ String "." e).
    rewrite (rfind_app_last "." (String a z) e Hnodot).
    assert (Hslash : PyStr.contains "/" (String a z +:+ String "." e) = false).
    { apply contains_false_forallb. rewrite forallb_app. apply andb_true_iff. split.
      - eapply forallb_impl; [|cbn [PyStr.forallb]; now rewrite Hfa, Hfz].
        intros c Hc. destruct (filename_char_plain c Hc) as (_ & _ & Hs).
        now rewrite (bool_decide_eq_false_2 _ Hs).
      - cbn [PyStr.forallb]. apply andb_true_iff. split; [reflexivity|].
        eapply forallb_impl; [|exact He]. intros c Hc.
        destruct (letter_char c Hc) as [Hf _].
        destruct (filename_char_plain c Hf) as (_ & _ & Hs).
        now rewrite (bool_decide_eq_false_2 _ Hs). }
    rewrite (rfind_none _ _ Hslash).
    destruct (decide (0 <= String.length (String a z))%nat) as [_|Hle]; [|lia].
    rewrite Nat.sub_0_r.
    change (PyStr.drop 0 (String a z +:+ String "." e))
      with (String a (z +:+ String "." e)).
    cbn [String.length Lib.has_stem].
    destruct (decide (a = "."%char)) as [->|_]; [discriminate Ha|].
    cbn [snd]. change (S (String.length z)) with (String.length (String a z)).
    apply drop_app_length.
Qed.

Lemma endswith_char_contains (s : string) (c : ascii) :
  PyStr.endswith_char s c = true -> exists j, PyStr.rfind c s = Some j.
Proof.
  induction s as [|a s IH]; [discriminate|].
  cbn [PyStr.rfind]. destruct s as [|b s].
  - cbn. destruct (decide (a = c)); [eauto|discriminate].
  - intros H. destruct (IH H) as [j ->]. eauto.
Qed.

(** In a text that ends with [c], any other character occurs before the last
    [c]. *)
Lemma rfind_before_last (s : string) (c c' : ascii) (i : nat) :
  PyStr.endswith_char s c = true -> c' <> c -> PyStr.rfind c' s = Some i ->
  exists j, PyStr.rfind c s = Some j /\ (i < j)%nat.
Proof.
  intros Hend Hne. revert i. induction s as [|a s IH]; intros i; [discriminate|].
  destruct s as [|b s].
  - cbn in Hend |- *. destruct (decide (a = c)) as [->|]; [|discriminate].
    destruct (decide (c = c')) as [->|]; [now contradict Hne|discriminate].
  - change (PyStr.endswith_char (String a (String b s)) c)
      with (PyStr.endswith_char (String b s) c) in Hend.
    cbn [PyStr.rfind] in *.
    destruct (endswith_char_contains _ _ Hend) as [j Hj]. cbn [PyStr.rfind] in Hj.
    rewrite Hj.
    destruct (match PyStr.rfind c' s with
              | Some i => Some (S i)
              | None => if decide (b = c') then Some 0%nat else None
              end) as [i'|] eqn:Hi.
    + intros [= <-]. destruct (IH Hend i' eq_refl) as (j' & Hj' & Hlt).
      rewrite Hj in Hj'. injection Hj' as <-. exists (S j). split; [reflexivity|lia].
    + destruct (decide (a = c')); [|discriminate].
      intros [= <-]. exists (S j). split; [reflexivity|lia].
Qed.

(** A name without dot and slash, put in a directory, has no extension. *)
Lemma splitext_plain_name (base t : string) :
  PyStr.contains "." t = false -> PyStr.contains "/" t = false ->
  snd (Lib.os_path_splitext (Lib.slashed base +:+ t)) = "".
Proof.
  intros Hdot Hslash. unfold Lib.os_path_splitext.
  rewrite (rfind_app_none "." _ t Hdot), (rfind_app_none "/" _ t Hslash).
  destruct (PyStr.rfind "." (Lib.slashed base)) as [i|] eqn:Hi; [|reflexivity].
  assert (Hend : PyStr.endswith_char (Lib.slashed base) "/" = true).
  { unfold Lib.slashed in *. destruct (decide (base = "")); [discriminate Hi|].
    destruct (PyStr.endswith_char base "/") eqn:Hb; [exact Hb|].
    now rewrite endswith_char_app. }
  destruct (rfind_before_last _ "/" "." i Hend) as (j & -> & Hlt); [discriminate|exact Hi|].
  destruct (decide (S j <= i)%nat); [lia|reflexivity].
Qed.

Lemma save_image_extension (image : Image) (path : string) w w' :
  _save_image image path w = (inr tt, w') ->
  EXTENSION (PyStr.lower (snd (Lib.os_path_splitext path))) <> None.
Proof.
  unfold _save_image, bind.
  destruct (_ensure_saveable_mode image w) as [[e|converted] w1]; [discriminate|].
  unfold Image_save. destruct (EXTENSION _); [discriminate|discriminate].
Qed.

Lemma accepted_extension file dims :
  earliest_failure dims file = None -> allowed_file (original_name file) = true.
Proof.
  unfold earliest_failure, stage_order. cbn [List.find].
  destruct (fails dims file GateNoFile); [discriminate|].
  destruct (fails dims file GateExtension) eqn:Hext; [discriminate|].
  intros _. cbn [fails] in Hext. now apply negb_false_iff in Hext.
Qed.

Lemma hex_no_dot_no_slash (t : string) :
  PyStr.forallb Lib.is_hex_char t = true ->
  PyStr.contains "." t = false /\ PyStr.contains "/" t = false.
Proof.
  intros Hhex. split; apply contains_false_forallb;
    (eapply forallb_impl; [|exact Hhex]); intros c Hc;
    destruct (hex_char_not_slash c Hc) as [H1 H2];
    now apply negb_true_iff, bool_decide_eq_false_2.
Qed.

(** C7. A successful upload is stored under the 32 hexadecimal digits of a
    random token followed by the extension of the sanitised original name;
    that extension is the dot and the extension that passed the allow-list,
    so that the stored name itself passes [allowed_file]. The codec is
    Pillow, which has no format for a name without extension. *)
Theorem stored_name_has_allowed_extension file base dims tsize w name w' :
  EXTENSION "" = None ->
  process_uploaded_image file base dims tsize w = (inr (Some name, None), w') ->
  exists e,
    name = token_of w +:+ String "." e
    /\ String.length (token_of w) = 32%nat
    /\ PyStr.forallb Lib.is_hex_char (token_of w) = true
    /\ snd (Lib.os_path_splitext (Lib.secure_filename (original_name file)))
       = String "." e
    /\ PyStr.after_last "." (original_name file) = Some e
    /\ PyStr.lower e ∈ ALLOWED_EXTENSIONS
    /\ allowed_file name = true.
Proof.
  intros Hreg Hrun.
  destruct (earliest_failure dims file) as [k|] eqn:Hearly.
  { rewrite (rejected_run _ _ _ _ _ _ Hearly) in Hrun. discriminate. }
  destruct (accepted_run file base dims tsize w Hearly) as (image & _ & _ & Heq).
  rewrite Heq in Hrun. clear Heq.
  destruct (os_makedirs base (drawn w)) as [[err|[]] w1]; [discriminate|].
  destruct (_save_image image _ w1) as [[err|[]] w2] eqn:Hsave; [discriminate|].
  injection Hrun as <- _.
  destruct (token_spec w) as [Hhex Hlen].
  destruct (sanitised_extension _ (accepted_extension _ _ Hearly))
    as (e & Hlast & Hin & Hnodot & [Hext|Hext]).
  - exfalso. apply save_image_extension in Hsave. apply Hsave.
    destruct (storage_name_relative file w) as [_ Hrel].
    rewrite (os_path_join_relative _ _ Hrel).
    unfold storage_name. rewrite Hext, string_app_nil_r.
    destruct (hex_no_dot_no_slash _ Hhex) as [Hd Hs].
    now rewrite (splitext_plain_name base _ Hd Hs).
  - exists e. unfold storage_name. rewrite Hext. repeat split; auto.
    unfold allowed_file.
    assert (Hdot : PyStr.contains "." (token_of w +:+ String "." e) = true).
    { rewrite contains_app. cbn [PyStr.contains].
      destruct (decide ("."%char = "."%char)); [apply orb_true_r|congruence]. }
    rewrite Hdot, (after_last_app "." _ e Hnodot).
    rewrite bool_decide_eq_false_2.
    + cbn [negb orb]. now apply bool_decide_eq_true_2.
    + intros Hempty. apply (f_equal String.length) in Hempty.
      rewrite string_app_length, Hlen in Hempty. discriminate.
Qed.

End Name_properties.

(** ** What a run returns, and what escapes it *)

Section Outcome.
Context {P : Platform}.

Implicit Types (file : option FileStorage) (w : World).

(** A run that returns gives the name or the error, never both or neither. *)
Lemma returns_exactly_one file base dims tsize w name error w' :
  process_uploaded_image file base dims tsize w = (inr (name, error), w') ->
  (name = Some (storage_name file w) /\ storage_name file w <> "" /\ error = None)
  \/ (name = None /\ exists k, error = Some (failure_message dims k)).
Proof.
  destruct (earliest_failure dims file) as [k|] eqn:Hearly.
  - rewrite (rejected_run _ _ _ _ _ _ Hearly). intros [= <- <- _]. right. eauto.
  - destruct (accepted_run file base dims tsize w Hearly) as (image & _ & _ & ->).
    destruct (os_makedirs base (drawn w)) as [[e|[]] w1]; [discriminate|].
    destruct (_save_image image _ w1) as [[e|[]] w2]; intros [= <- <- _].
    + right. split; [reflexivity|]. now exists StoreFailed.
    + left. split; [reflexivity|]. split; [apply storage_name_relative|reflexivity].
Qed.

(** The one exception that reaches the caller is that of [os.makedirs] on the
    upload root, which the code calls outside of any [try]. *)
Lemma only_makedirs_escapes file base dims tsize w e w' :
  process_uploaded_image file base dims tsize w = (inl e, w') <->
  earliest_failure dims file = None /\ os_makedirs base (drawn w) = (inl e, w').
Proof.
  destruct (earliest_failure dims file) as [k|] eqn:Hearly.
  - rewrite (rejected_run _ _ _ _ _ _ Hearly). split; [discriminate|now intros [[=] _]].
  - destruct (accepted_run file base dims tsize w Hearly) as (image & _ & _ & ->).
    destruct (os_makedirs base (drawn w)) as [[e1|[]] w1].
    + split; [now intros [= <- <-]|now intros [_ [= <- <-]]].
    + destruct (_save_image image _ w1) as [[e2|[]] w2];
        (split; [discriminate|now intros [_ [=]]]).
Qed.

End Outcome.

(** ** More on [allowed_file] and on the storage name *)

(** X1. Only the last extension counts, and its case does not. *)
Theorem allowed_file_iff (name : string) :
  allowed_file name = true <->
  exists stem e,
    name = stem +:+ String "." e /\ PyStr.contains "." e = false
    /\ PyStr.lower e ∈ ALLOWED_EXTENSIONS.
Proof.
  split.
  - unfold allowed_file.
    destruct (bool_decide (name = "") || negb (PyStr.contains "." name)); [discriminate|].
    destruct (PyStr.after_last "." name) as [e|] eqn:Hlast; [|discriminate].
    intros Hin%bool_decide_eq_true.
    destruct (after_last_split _ _ _ Hlast) as (Hnodot & stem & ->). eauto.
  - intros (stem & e & -> & Hnodot & Hin). unfold allowed_file.
    rewrite (after_last_app "." stem e Hnodot), contains_app.
    cbn [PyStr.contains]. destruct (decide ("."%char = "."%char)); [|congruence].
    rewrite orb_true_r. cbn [negb]. rewrite orb_false_r.
    rewrite bool_decide_eq_false_2.
    + now apply bool_decide_eq_true_2.
    + intros Hempty. apply (f_equal String.length) in Hempty.
      rewrite string_app_length in Hempty. cbn in Hempty. lia.
Qed.

Lemma forallb_lstrip (p q : ascii -> bool) (s : string) :
  PyStr.forallb p s = true -> PyStr.forallb p (PyStr.lstrip q s) = true.
Proof.
  induction s as [|a s IH]; [easy|]. cbn [PyStr.lstrip].
  destruct (q a); [|easy]. cbn [PyStr.forallb]. intros [_ Hs]%andb_true_iff. auto.
Qed.

Lemma forallb_rstrip (p q : ascii -> bool) (s : string) :
  PyStr.forallb p s = true -> PyStr.forallb p (PyStr.rstrip q s) = true.
Proof.
  induction s as [|a s IH]; [easy|]. cbn [PyStr.rstrip PyStr.forallb].
  intros [Ha Hs]%andb_true_iff. specialize (IH Hs).
  destruct (PyStr.rstrip q s).
  - destruct (q a); [reflexivity|]. cbn [PyStr.forallb]. now rewrite Ha.
  - cbn [PyStr.forallb] in *. now rewrite Ha.
Qed.

Lemma forallb_drop (p : ascii -> bool) (n : nat) (s : string) :
  PyStr.forallb p s = true -> PyStr.forallb p (PyStr.drop n s) = true.
Proof.
  revert s. induction n as [|n IH]; intros s; [now destruct s|].
  destruct s as [|a s]; [easy|]. cbn [PyStr.drop PyStr.forallb].
  intros [_ Hs]%andb_true_iff. auto.
Qed.

Lemma hex_char_filename_char (c : ascii) :
  Lib.is_hex_char c = true -> Lib.filename_char c = true.
Proof.
  destruct c as [[] [] [] [] [] [] [] []]; vm_compute; intros H;
    try discriminate H; reflexivity.
Qed.

Section Name_safety.
Context {P : Platform}.

(** Whatever the client sends as a name, the extension kept for the storage
    name has only letters, digits, dots, dashes and underscores. *)
Lemma sanitised_extension_chars (name : string) :
  PyStr.forallb Lib.filename_char
    (snd (Lib.os_path_splitext (Lib.secure_filename name))) = true.
Proof.
  assert (Hsafe : PyStr.forallb Lib.filename_char (Lib.secure_filename name) = true).
  { unfold Lib.secure_filename, PyStr.strip.
    apply forallb_rstrip, forallb_lstrip, filter_forallb. }
  unfold Lib.os_path_splitext.
  destruct (PyStr.rfind "." _) as [i|]; [|reflexivity].
  destruct (decide _); [|reflexivity].
  destruct (Lib.has_stem _ _); [|reflexivity].
  cbn [snd]. now apply forallb_drop.
Qed.

Lemma storage_name_chars (file : option FileStorage) (w : World) :
  PyStr.forallb Lib.filename_char (storage_name file w) = true.
Proof.
  unfold storage_name. rewrite forallb_app. apply andb_true_iff. split.
  - eapply forallb_impl; [apply hex_char_filename_char|apply token_spec].
  - apply sanitised_extension_chars.
Qed.

Lemma storage_name_no_slash (file : option FileStorage) (w : World) :
  PyStr.contains "/" (storage_name file w) = false.
Proof.
  apply contains_false_forallb.
  eapply forallb_impl; [|apply storage_name_chars].
  intros c Hc. destruct (filename_char_plain c Hc) as (_ & _ & Hs).
  now apply negb_true_iff, bool_decide_eq_false_2.
Qed.

End Name_safety.

Section Upload_effects.
Context {P : Platform}.

Implicit Types (file : option FileStorage) (w : World) (image : Image).

Lemma keeps_db_refl w : keeps_db w w.
Proof. now repeat split. Qed.

Lemma keeps_db_trans w1 w2 w3 : keeps_db w1 w2 -> keeps_db w2 w3 -> keeps_db w1 w3.
Proof. intros (? & ? & ?) (? & ? & ?). repeat split; congruence. Qed.

Lemma os_makedirs_effect path w r w' :
  os_makedirs path w = (r, w') ->
  keeps_db w w' /\ draws w' = draws w /\ files (fs w') = files (fs w)
  /\ dirs (fs w) ⊆ dirs (fs w') /\ (r = inr tt -> path ∈ dirs (fs w')).
Proof.
  unfold os_makedirs. destruct (files (fs w) !! path).
  { intros [= <- <-]. repeat split; [set_solver|discriminate]. }
  destruct (makedirs_error path (fs w)); intros [= <- <-]; cbn.
  - repeat split; [set_solver|discriminate].
  - repeat split; set_solver.
Qed.

Lemma Image_save_effect image path w r w' :
  Image_save image path w = (r, w') ->
  keeps_db w w' /\ draws w' = draws w /\ dirs (fs w') = dirs (fs w)
  /\ forall q, q <> path -> files (fs w') !! q = files (fs w) !! q.
Proof.
  unfold Image_save. destruct (EXTENSION _); [|intros [= <- <-]; now repeat split].
  destruct (save_error _ _ _ _); intros [= <- <-]; cbn; repeat split.
  intros q Hq. now apply lookup_insert_ne.
Qed.

Lemma save_image_effect image path w r w' :
  _save_image image path w = (r, w') ->
  keeps_db w w' /\ draws w' = draws w /\ dirs (fs w') = dirs (fs w)
  /\ forall q, q <> path -> files (fs w') !! q = files (fs w) !! q.
Proof.
  unfold _save_image, _ensure_saveable_mode, bind.
  destruct (bool_decide (Image_mode image ∈ ["RGBA"; "P"])).
  - unfold call. destruct (Image_convert image "RGB") as [e|converted].
    + intros [= <- <-]. now repeat split.
    + apply Image_save_effect.
  - unfold ret. apply Image_save_effect.
Qed.

Lemma create_thumbnail_effect image dir name size w r w' :
  create_thumbnail image dir name size w = (r, w') ->
  keeps_db w w' /\ draws w' = draws w /\ dirs (fs w) ⊆ dirs (fs w')
  /\ forall q, q <> Lib.os_path_join dir name -> files (fs w') !! q = files (fs w) !! q.
Proof.
  unfold create_thumbnail. unfold bind at 1.
  destruct (os_makedirs dir w) as [[e|[]] w1] eqn:Hmk;
    apply os_makedirs_effect in Hmk as (Hdb & Hdr & Hf & Hd & _).
  { intros [= <- <-]. repeat split; try apply Hdb; auto. intros. now rewrite Hf. }
  assert (Hstay : forall e : exn, (@inl exn unit e, w1) = (r, w') ->
            keeps_db w w' /\ draws w' = draws w /\ dirs (fs w) ⊆ dirs (fs w')
            /\ forall q, q <> Lib.os_path_join dir name ->
                 files (fs w') !! q = files (fs w) !! q).
  { intros e [= <- <-]. repeat split; try apply Hdb; auto. intros. now rewrite Hf. }
  unfold bind at 1. unfold call at 1.
  destruct (Image_copy image) as [e|copy]; [apply Hstay|].
  unfold bind at 1. unfold call at 1.
  destruct (Image_thumbnail copy size) as [e|thumb]; [apply Hstay|].
  unfold bind at 1.
  assert (Hsave : forall i, Image_save i (Lib.os_path_join dir name) w1 = (r, w') ->
            keeps_db w w' /\ draws w' = draws w /\ dirs (fs w) ⊆ dirs (fs w')
            /\ forall q, q <> Lib.os_path_join dir name ->
                 files (fs w') !! q = files (fs w) !! q).
  { intros i (Hdb' & Hdr' & Hd' & Hf')%Image_save_effect. repeat split.
    - eapply keeps_db_trans; eauto.
    - eapply keeps_db_trans; eauto.
    - eapply keeps_db_trans; eauto.
    - congruence.
    - now rewrite Hd'.
    - intros q Hq. now rewrite (Hf' q Hq), Hf. }
  destruct (bool_decide (Image_mode thumb ∈ ["RGBA"; "P"])).
  - unfold call at 1. destruct (Image_convert thumb "RGB") as [e|converted];
      [apply Hstay|apply Hsave].
  - unfold ret at 1. apply Hsave.
Qed.

Lemma upload_frame file base dims tsize w :
  keeps_db w (snd (process_uploaded_image file base dims tsize w))
  /\ dirs (fs w) ⊆ dirs (fs (snd (process_uploaded_image file base dims tsize w)))
  /\ forall q, q <> full_path file base w -> q <> thumb_path file base w ->
       files (fs (snd (process_uploaded_image file base dims tsize w))) !! q
       = files (fs w) !! q.
Proof.
  destruct (earliest_failure dims file) as [k|] eqn:Hearly.
  { rewrite (rejected_run _ _ _ _ _ _ Hearly). cbn [snd].
    destruct k; cbn; (split; [done|split; done]). }
  destruct (accepted_run file base dims tsize w Hearly) as (image & _ & _ & ->).
  assert (Hdrawn : keeps_db w (drawn w) /\ fs (drawn w) = fs w) by now repeat split.
  destruct Hdrawn as [Hdb0 Hfs0].
  destruct (os_makedirs base (drawn w)) as [[e|[]] w1] eqn:Hmk;
    apply os_makedirs_effect in Hmk as (Hdb1 & _ & Hf1 & Hd1 & _);
    rewrite Hfs0 in Hf1, Hd1;
    pose proof (keeps_db_trans _ _ _ Hdb0 Hdb1) as Hk1.
  { cbn [snd]. split; [exact Hk1|]. split; [exact Hd1|]. intros. now rewrite Hf1. }
  destruct (_save_image image _ w1) as [[e|[]] w2] eqn:Hsave;
    apply save_image_effect in Hsave as (Hdb2 & _ & Hd2 & Hf2); cbn [snd];
    pose proof (keeps_db_trans _ _ _ Hk1 Hdb2) as Hk2.
  { split; [exact Hk2|]. split; [now rewrite Hd2|].
    intros q Hq _. now rewrite (Hf2 q Hq), Hf1. }
  unfold try_except.
  destruct (create_thumbnail image _ _ tsize w2) as [[e|[]] w3] eqn:Hthumb;
    apply create_thumbnail_effect in Hthumb as (Hdb3 & _ & Hd3 & Hf3); cbn [snd ret];
    pose proof (keeps_db_trans _ _ _ Hk2 Hdb3) as Hk3.
  all: split; [exact Hk3|]; split; [rewrite <- Hd3, Hd2; exact Hd1|];
    intros q Hq1 Hq2; now rewrite (Hf3 q Hq2), (Hf2 q Hq1), Hf1.
Qed.

(** X2. An upload touches nothing but its own two paths: a file whose content
    differs after the run, whatever its outcome, is the full-size file or the
    thumbnail of the storage name. No directory goes away, and the database,
    its connection and the log are not used. *)
Theorem upload_touches_only_its_paths file base dims tsize w r w' :
  process_uploaded_image file base dims tsize w = (r, w') ->
  keeps_db w w'
  /\ dirs (fs w) ⊆ dirs (fs w')
  /\ forall q, files (fs w') !! q <> files (fs w) !! q ->
       q = full_path file base w \/ q = thumb_path file base w.
Proof.
  intros Hrun. destruct (upload_frame file base dims tsize w) as (Hdb & Hd & Hf).
  rewrite Hrun in Hdb, Hd, Hf. cbn [snd] in Hdb, Hd, Hf.
  split; [exact Hdb|]. split; [exact Hd|]. intros q Hq.
  destruct (decide (q = full_path file base w)) as [|H1]; [now left|].
  destruct (decide (q = thumb_path file base w)) as [|H2]; [now right|].
  now contradict Hq; apply Hf.
Qed.

End Upload_effects.

Lemma string_app_inj_length (a b x y : string) :
  String.length a = String.length b -> a +:+ x = b +:+ y -> a = b /\ x = y.
Proof.
  revert b. induction a as [|c a IH]; intros [|d b] Hlen Heq; try discriminate Hlen.
  - now split.
  - change (String c (a +:+ x) = String d (b +:+ y)) in Heq.
    injection Heq as -> Heq. injection Hlen as Hlen.
    destruct (IH b Hlen Heq) as [-> ->]. now split.
Qed.

Lemma thumbs_path_shape (base name : string) :
  PyStr.startswith name "/" = false ->
  Lib.os_path_join (Lib.os_path_join base "thumbs") name
  = Lib.slashed base +:+ ("thumbs/" +:+ name).
Proof.
  intros Hname.
  rewrite (os_path_join_relative _ name Hname).
  rewrite (os_path_join_relative base "thumbs") by reflexivity.
  assert (Hs : Lib.slashed (Lib.slashed base +:+ "thumbs")
               = Lib.slashed base +:+ "thumbs/").
  { unfold Lib.slashed at 1.
    destruct (decide (Lib.slashed base +:+ "thumbs" = "")) as [He|_].
    - apply (f_equal String.length) in He. rewrite string_app_length in He.
      cbn in He. lia.
    - rewrite endswith_char_app. cbn. now rewrite string_app_assoc. }
  now rewrite Hs, string_app_assoc.
Qed.

Section Upload_results.
Context {P : Platform}.

Implicit Types (file : option FileStorage) (w : World) (image : Image).

Lemma successful_run_file file base dims tsize w name w' :
  process_uploaded_image file base dims tsize w = (inr (Some name, None), w') ->
  exists image stored,
    decoded file = Some image
    /\ files (fs w') !! Lib.os_path_join base name = Some stored
    /\ (if bool_decide (Image_mode image ∈ ["RGBA"; "P"])
        then Image_convert image "RGB" = inr stored
        else stored = image)
    /\ base ∈ dirs (fs w').
Proof.
  intros Hrun.
  destruct (earliest_failure dims file) as [k|] eqn:Hearly.
  { rewrite (rejected_run _ _ _ _ _ _ Hearly) in Hrun. discriminate. }
  destruct (accepted_run file base dims tsize w Hearly) as (image & Hdec & _ & Heq).
  rewrite Heq in Hrun. clear Heq.
  destruct (os_makedirs base (drawn w)) as [[e|[]] w1] eqn:Hmk; [discriminate|].
  destruct (_save_image image _ w1) as [[e|[]] w2] eqn:Hsave; [discriminate|].
  injection Hrun as <- <-.
  apply os_makedirs_effect in Hmk as (_ & _ & _ & _ & Hdir).
  pose proof (save_image_effect _ _ _ _ _ Hsave) as (_ & _ & Hd2 & _).
  apply save_image_stored in Hsave as (stored & Hfiles & Hmode).
  unfold try_except.
  destruct (create_thumbnail image _ _ tsize w2) as [r w3] eqn:Hthumb.
  pose proof (stored_file_survives_thumbnail _ _ _ _ _ _ _ _ Hthumb) as Hkeep.
  apply create_thumbnail_effect in Hthumb as (_ & _ & Hd3 & _).
  exists image, stored. split; [exact Hdec|].
  assert (Hw3 : fs (snd (match r with
                         | inl e => ret () w3
                         | inr a => (inr a, w3)
                         end)) = fs w3) by now destruct r.
  rewrite Hw3, Hkeep, Hfiles, lookup_insert_eq.
  repeat split; auto. apply Hd3. rewrite Hd2. now apply Hdir.
Qed.

(** X3. A successful upload has written the decoded image, or its conversion to
    RGB when its mode is RGBA or P, to the file named by the result directly
    under the upload root: the name has no path separator and only letters,
    digits, dots, dashes and underscores, whatever name the client sent. The
    upload root is a directory afterwards. *)
Theorem successful_upload_stores_file file base dims tsize w name w' :
  process_uploaded_image file base dims tsize w = (inr (Some name, None), w') ->
  exists image stored,
    decoded file = Some image
    /\ PyStr.forallb Lib.filename_char name = true
    /\ PyStr.contains "/" name = false
    /\ files (fs w') !! (Lib.slashed base +:+ name) = Some stored
    /\ (if bool_decide (Image_mode image ∈ ["RGBA"; "P"])
        then Image_convert image "RGB" = inr stored
        else stored = image)
    /\ base ∈ dirs (fs w').
Proof.
  intros Hrun.
  destruct (successful_run_file _ _ _ _ _ _ _ Hrun)
    as (image & stored & Hdec & Hfile & Hmode & Hdir).
  apply returns_exactly_one in Hrun as [([= ->] & _)|([=] & _)].
  destruct (storage_name_relative file w) as [_ Hrel].
  rewrite (os_path_join_relative base _ Hrel) in Hfile.
  exists image, stored. split; [exact Hdec|].
  split; [apply storage_name_chars|]. split; [apply storage_name_no_slash|].
  now repeat split.
Qed.

(** X4. A thumbnail is made for stored images only: when a run leaves a file at
    its thumbnail path where there was none, it returned the name and the
    full-size file is there. *)
Theorem thumbnail_implies_stored_image file base dims tsize w :
  files (fs w) !! thumb_path file base w = None ->
  is_Some (files (fs (snd (process_uploaded_image file base dims tsize w)))
             !! thumb_path file base w) ->
  fst (process_uploaded_image file base dims tsize w)
  = inr (Some (storage_name file w), None)
  /\ is_Some (files (fs (snd (process_uploaded_image file base dims tsize w)))
                !! full_path file base w).
Proof.
  intros Hnone. unfold thumb_path, full_path in *.
  destruct (earliest_failure dims file) as [k|] eqn:Hearly.
  { rewrite (rejected_run _ _ _ _ _ _ Hearly). cbn [snd].
    rewrite after_rejection_fs, Hnone. now intros [? [=]]. }
  destruct (accepted_run file base dims tsize w Hearly) as (image & _ & _ & ->).
  destruct (os_makedirs base (drawn w)) as [[e|[]] w1] eqn:Hmk;
    apply os_makedirs_effect in Hmk as (_ & _ & Hf1 & _).
  { cbn [snd]. rewrite Hf1. cbn [drawn fs]. rewrite Hnone. now intros [? [=]]. }
  destruct (_save_image image _ w1) as [[e|[]] w2] eqn:Hsave.
  { apply save_image_failed in Hsave as ->. cbn [snd]. rewrite Hf1. cbn [drawn fs].
    rewrite Hnone. now intros [? [=]]. }
  intros _. cbn [fst snd]. split; [reflexivity|].
  unfold try_except.
  destruct (create_thumbnail image _ _ tsize w2) as [r w3] eqn:Hthumb.
  pose proof (stored_file_survives_thumbnail _ _ _ _ _ _ _ _ Hthumb) as Hkeep.
  apply save_image_stored in Hsave as (stored & Hfiles & _).
  assert (Hw3 : fs (snd (match r with
                         | inl e => ret () w3
                         | inr a => (inr a, w3)
                         end)) = fs w3) by now destruct r.
  rewrite Hw3, Hkeep, Hfiles, lookup_insert_eq. eauto.
Qed.

Lemma successful_upload_draws file base dims tsize w name w' :
  process_uploaded_image file base dims tsize w = (inr (Some name, None), w') ->
  draws w' = S (draws w).
Proof.
  intros Hrun.
  destruct (earliest_failure dims file) as [k|] eqn:Hearly.
  { rewrite (rejected_run _ _ _ _ _ _ Hearly) in Hrun. discriminate. }
  destruct (accepted_run file base dims tsize w Hearly) as (image & _ & _ & Heq).
  rewrite Heq in Hrun. clear Heq.
  destruct (os_makedirs base (drawn w)) as [[e|[]] w1] eqn:Hmk; [discriminate|].
  destruct (_save_image image _ w1) as [[e|[]] w2] eqn:Hsave; [discriminate|].
  injection Hrun as _ <-.
  apply os_makedirs_effect in Hmk as (_ & Hd1 & _).
  apply save_image_effect in Hsave as (_ & Hd2 & _).
  unfold try_except.
  destruct (create_thumbnail image _ _ tsize w2) as [r w3] eqn:Hthumb.
  apply create_thumbnail_effect in Hthumb as (_ & Hd3 & _).
  assert (Hw3 : draws (snd (match r with
                            | inl e => ret () w3
                            | inr a => (inr a, w3)
                            end)) = draws w3) by now destruct r.
  rewrite Hw3, Hd3, Hd2, Hd1. reflexivity.
Qed.

(** X5. Two uploads in a row, the tokens of which differ: the second one gets
    another name and leaves the file of the first one as it is, whether it
    succeeds or not. *)
Theorem second_upload_keeps_first file1 file2 base dims1 dims2 tsize1 tsize2 w name1 w1 :
  process_uploaded_image file1 base dims1 tsize1 w = (inr (Some name1, None), w1) ->
  token_of (drawn w) <> token_of w ->
  (forall name2 error,
      fst (process_uploaded_image file2 base dims2 tsize2 w1) = inr (Some name2, error) ->
      name2 <> name1)
  /\ files (fs (snd (process_uploaded_image file2 base dims2 tsize2 w1)))
       !! Lib.os_path_join base name1
     = files (fs w1) !! Lib.os_path_join base name1.
Proof.
  intros Hrun1 Htoken.
  pose proof (successful_upload_draws _ _ _ _ _ _ _ Hrun1) as Hdraws.
  assert (Htok1 : token_of w1 = token_of (drawn w)).
  { unfold token_of. now rewrite Hdraws. }
  apply returns_exactly_one in Hrun1 as [([= ->] & _)|([=] & _)].
  pose proof (storage_name_no_slash file1 w) as Hslash.
  assert (Hnames : storage_name file2 w1 <> storage_name file1 w).
  { unfold storage_name at 1 2. intros Heq.
    apply string_app_inj_length in Heq as [Heq _].
    - rewrite Htok1 in Heq. now apply Htoken.
    - destruct (token_spec w1) as [_ ->], (token_spec w) as [_ ->]. reflexivity. }
  split.
  - intros name2 error Hrun2.
    destruct (process_uploaded_image file2 base dims2 tsize2 w1) as [r2 w2] eqn:Hr2.
    cbn [fst] in Hrun2. subst r2.
    apply returns_exactly_one in Hr2 as [(Hn & _)|([=] & _)].
    injection Hn as ->. exact Hnames.
  - destruct (storage_name_relative file1 w) as [_ Hrel1].
    destruct (storage_name_relative file2 w1) as [_ Hrel2].
    apply upload_frame; unfold full_path, thumb_path.
    + rewrite !os_path_join_relative by assumption.
      intros Heq%String.app_inj. now apply Hnames.
    + rewrite thumbs_path_shape, os_path_join_relative by assumption.
      intros Heq%String.app_inj. rewrite Heq in Hslash. discriminate Hslash.
Qed.

End Upload_results.

Section Delete_more.
Context {P : Platform}.

Implicit Types (w : World) (user : CurrentUser).

Lemma cleanup_paths_not_empty (name path : string) :
  path ∈ cleanup_paths name -> path <> "".
Proof.
  intros Hin Hempty. subst path. apply list_elem_of_In in Hin.
  assert (Hjoin : forall a, a <> "" -> Lib.os_path_join a name <> "").
  { intros a Ha. unfold Lib.os_path_join.
    destruct (PyStr.startswith name "/") eqn:Hs.
    - intros ->. discriminate Hs.
    - destruct (decide (a = "")); [done|].
      destruct (PyStr.endswith_char a "/"); intros He;
        apply (f_equal String.length) in He; rewrite !string_app_length in He;
        destruct a; cbn in He; try lia; congruence. }
  destruct Hin as [Hin|[Hin|[]]]; revert Hin; apply Hjoin; vm_compute; discriminate.
Qed.



Lemma attempt_removal_dirs (path : string) (f : FileSystem Image) :
  dirs (attempt_removal path f) = dirs f.
Proof.
  unfold attempt_removal. destruct (files f !! path); [|reflexivity].
  now destruct (remove_error path f).
Qed.


(** X7. A user who is neither the owner nor [admin] gets status 500, not 403:
    the [abort(403)] is caught by the handler of the view. Nothing is removed
    and the table is as it was. *)
Theorem delete_by_stranger_is_refused user id w row owner :
  (forall op t, sql_error op t = None) ->
  is_authenticated user = true ->
  default (posts w) (conn w) !! id = Some row ->
  user_id row = Some owner ->
  user_ident user <> owner ->
  username user <> "admin" ->
  fst (delete user id w) = inl (HTTPException 500)
  /\ fs (snd (delete user id w)) = fs w
  /\ posts (snd (delete user id w)) = posts w
  /\ log (snd (delete user id w)) = (log w ++ ["failed to delete post"])%list.
Proof.
  intros Hsql Hauth Hrow Howner Hid Hname.
  remember (delete user id w) as r eqn:Hr. unfold delete in Hr.
  rewrite Hauth in Hr. cbn [negb] in Hr. unfold bind at 1 in Hr. unfold ret at 1 in Hr.
  unfold try_except in Hr. unfold bind at 1 in Hr.
  assert (Hdb : exists w0,
             get_db w = (inr tt, w0) /\ conn w0 = Some (default (posts w) (conn w))
             /\ fs w0 = fs w /\ posts w0 = posts w /\ log w0 = log w).
  { unfold get_db. destruct (conn w) eqn:Hc.
    - exists w. rewrite Hc. now repeat split.
    - rewrite Hsql. eexists. now repeat split. }
  destruct Hdb as (w0 & Hdb & Hc0 & Hfs0 & Hposts0 & Hlog0). rewrite Hdb in Hr.
  unfold bind at 1 in Hr. unfold db_execute at 1 in Hr.
  rewrite Hc0, Hsql, Hrow, Howner in Hr.
  unfold bind at 1 in Hr. unfold py_int, ret at 1 in Hr. unfold bind at 1 in Hr.
  rewrite (bool_decide_eq_false_2 _ Hid), (bool_decide_eq_false_2 _ Hname) in Hr.
  cbn in Hr. subst r. cbn. now rewrite Hfs0, Hposts0, Hlog0.
Qed.

(** X8. Deleting a post that is not there redirects to the home page and changes
    neither the files nor the table. *)
Theorem delete_of_missing_post user id w :
  (forall op t, sql_error op t = None) ->
  is_authenticated user = true ->
  default (posts w) (conn w) !! id = None ->
  fst (delete user id w) = inr (Redirect "home")
  /\ fs (snd (delete user id w)) = fs w
  /\ posts (snd (delete user id w)) = posts w
  /\ log (snd (delete user id w)) = log w.
Proof.
  intros Hsql Hauth Hrow.
  remember (delete user id w) as r eqn:Hr. unfold delete in Hr.
  rewrite Hauth in Hr. cbn [negb] in Hr. unfold bind at 1 in Hr. unfold ret at 1 in Hr.
  unfold try_except in Hr. unfold bind at 1 in Hr.
  assert (Hdb : exists w0,
             get_db w = (inr tt, w0) /\ conn w0 = Some (default (posts w) (conn w))
             /\ fs w0 = fs w /\ posts w0 = posts w /\ log w0 = log w).
  { unfold get_db. destruct (conn w) eqn:Hc.
    - exists w. rewrite Hc. now repeat split.
    - rewrite Hsql. eexists. now repeat split. }
  destruct Hdb as (w0 & Hdb & Hc0 & Hfs0 & Hposts0 & Hlog0). rewrite Hdb in Hr.
  unfold bind at 1 in Hr. unfold db_execute at 1 in Hr. rewrite Hc0, Hsql, Hrow in Hr.
  cbn in Hr. subst r. cbn. now rewrite Hfs0, Hposts0, Hlog0.
Qed.

(** X9. The files go before the record: when the [DELETE] statement raises, the
    view answers 500, the record of the post is still in the table, and the
    two files have been removed all the same. *)
Theorem delete_failing_statement_leaves_record user id w row owner name e :
  sql_error SqlConnect (posts w) = None ->
  sql_error (SqlSelectPost id) (default (posts w) (conn w)) = None ->
  sql_error (SqlDeletePost id) (default (posts w) (conn w)) = Some e ->
  is_authenticated user = true ->
  default (posts w) (conn w) !! id = Some row ->
  user_id row = Some owner ->
  user_ident user = owner \/ username user = "admin" ->
  post_filename row = Some name ->
  fst (delete user id w) = inl (HTTPException 500)
  /\ posts (snd (delete user id w)) = posts w
  /\ fs (snd (delete user id w))
     = foldl (fun f path => attempt_removal path f) (fs w) (cleanup_paths name).
Proof.
  intros Hconnect Hselect Hdelete Hauth Hrow Howner Hallowed Hname.
  remember (delete user id w) as r eqn:Hr. unfold delete in Hr.
  rewrite Hauth in Hr. cbn [negb] in Hr. unfold bind at 1 in Hr. unfold ret at 1 in Hr.
  unfold try_except in Hr. unfold bind at 1 in Hr.
  set (view := default (posts w) (conn w)) in *.
  assert (Hdb : exists w0,
             get_db w = (inr tt, w0) /\ conn w0 = Some view
             /\ fs w0 = fs w /\ posts w0 = posts w).
  { unfold get_db, view. destruct (conn w) eqn:Hc.
    - exists w. now repeat split.
    - rewrite Hconnect. eexists. now repeat split. }
  destruct Hdb as (w0 & Hdb & Hc0 & Hfs0 & Hposts0). rewrite Hdb in Hr.
  unfold bind at 1 in Hr. unfold db_execute at 1 in Hr.
  rewrite Hc0, Hselect, Hrow, Howner, Hname in Hr.
  unfold bind at 1 in Hr. unfold py_int, ret at 1 in Hr. unfold bind at 1 in Hr.
  assert (Hcheck : negb (bool_decide (user_ident user = owner))
                   && negb (bool_decide (username user = "admin")) = false).
  { destruct Hallowed as [Hu|Hu].
    - now rewrite (bool_decide_eq_true_2 _ Hu).
    - rewrite (bool_decide_eq_true_2 _ Hu). apply andb_false_r. }
  rewrite Hcheck in Hr. unfold ret at 1 in Hr. unfold bind at 1 in Hr.
  unfold ret at 1 in Hr. unfold bind at 1 in Hr.
  destruct (remove_files_run (cleanup_paths name)
              (mkWorld (fs w0) (draws w0) (posts w0) (Some view) (log w0))
              (cleanup_paths_not_empty name))
    as (w1 & Hrm & Hfs1 & Hposts1 & Hconn1).
  unfold cleanup_paths in Hrm. rewrite Hrm in Hr. clear Hrm.
  unfold bind at 1 in Hr. unfold db_execute at 1 in Hr. rewrite Hconn1 in Hr.
  cbn [conn] in Hr. rewrite Hdelete in Hr. cbn in Hr. subst r. cbn.
  rewrite Hposts1, Hfs1. cbn. now rewrite Hposts0, Hfs0.
Qed.

End Delete_more.

Section Script_properties.
Context {P : Platform} {E : ScriptEnv}.

Implicit Types (w : World) (t : Tally).

Lemma make_thumbnail_run (src dst : string) w :
  (exists e, make_thumbnail src dst w = (inr (false, Some (exn_text e)), w))
  \/ (exists stored opened converted thumb w',
        make_thumbnail src dst w = (inr (true, None), w')
        /\ files (fs w) !! src = Some stored
        /\ Image_open_file src stored = inr opened
        /\ Image_verify opened = None
        /\ (if bool_decide (Image_mode opened ∈ ["RGBA"; "P"])
            then Image_convert opened "RGB" = inr converted
            else converted = opened)
        /\ Image_thumbnail converted THUMB_SIZE = inr thumb
        /\ files (fs w') = <[dst := thumb]> (files (fs w))
        /\ dirs (fs w') = dirs (fs w)
        /\ keeps_db w w').
Proof.
  remember (make_thumbnail src dst w) as r eqn:Hr.
  unfold make_thumbnail, try_except in Hr. unfold bind at 1 in Hr.
  unfold Image_open_path at 1 in Hr.
  destruct (files (fs w) !! src) as [stored|] eqn:Hsrc; [|left; subst r; eauto].
  destruct (Image_open_file src stored) as [e|opened] eqn:Hopen; [left; subst r; eauto|].
  unfold bind at 1 in Hr.
  destruct (Image_verify opened) as [e|] eqn:Hverify; [left; subst r; eauto|].
  unfold ret at 1 in Hr. unfold bind at 1 in Hr. unfold Image_open_path at 1 in Hr.
  rewrite Hsrc, Hopen in Hr. unfold bind at 1 in Hr.
  assert (Hrest : forall converted,
            r = match bind (call (Image_thumbnail converted THUMB_SIZE))
                        (fun im => bind (Image_save im dst) (fun _ => ret (true, None))) w
                with
                | (inr a, w') => (inr a, w')
                | (inl e, w') => ret (false, Some (exn_text e)) w'
                end ->
            (exists e, r = (inr (false, Some (exn_text e)), w))
            \/ exists thumb w',
                 r = (inr (true, None), w')
                 /\ Image_thumbnail converted THUMB_SIZE = inr thumb
                 /\ files (fs w') = <[dst := thumb]> (files (fs w))
                 /\ dirs (fs w') = dirs (fs w)
                 /\ keeps_db w w').
  { intros converted Hc. unfold bind at 1 in Hc. unfold call at 1 in Hc.
    destruct (Image_thumbnail converted THUMB_SIZE) as [e|thumb];
      [left; exists e; exact Hc|].
    unfold bind at 1 in Hc.
    destruct (Image_save thumb dst w) as [[e|[]] w'] eqn:Hsave.
    - apply Image_save_files in Hsave as [[[=] _]|[_ ->]]. left. exists e. exact Hc.
    - pose proof (Image_save_effect _ _ _ _ _ Hsave) as (Hdb & _ & Hd & _).
      apply Image_save_files in Hsave as [[_ Hf]|[[e [=]] _]].
      right. exists thumb, w'. repeat split; auto; apply Hdb. }
  destruct (bool_decide (Image_mode opened ∈ ["RGBA"; "P"])) eqn:Hmode.
  - unfold call at 1 in Hr.
    destruct (Image_convert opened "RGB") as [e|converted] eqn:Hconv;
      [left; subst r; eauto|].
    destruct (Hrest converted Hr) as [Hfail|(thumb & w' & Hrun & Ht & Hf & Hd & Hdb)];
      [left; exact Hfail|].
    right. exists stored, opened, converted, thumb, w'. rewrite Hmode.
    repeat split; auto; apply Hdb.
  - unfold ret at 1 in Hr.
    destruct (Hrest opened Hr) as [Hfail|(thumb & w' & Hrun & Ht & Hf & Hd & Hdb)];
      [left; exact Hfail|].
    right. exists stored, opened, opened, thumb, w'. rewrite Hmode.
    repeat split; auto; apply Hdb.
Qed.


Lemma thumbs_loop_step (force : bool) (fn : string) (rest : list string) t w :
  exists t1 w1,
    thumbs_loop force (fn :: rest) t w = thumbs_loop force rest t1 w1
    /\ loop_step force fn t w t1 w1.
Proof.
  unfold loop_step. cbn [thumbs_loop].
  destruct (bool_decide (PyStr.lower (snd (Lib.os_path_splitext fn)) ∈ SUPPORTED_EXT));
    cbn [negb].
  { unfold bind at 1. unfold os_path_exists at 1.
    destruct (bool_decide (is_Some (files (fs w) !! Lib.os_path_join THUMB_DIR fn))
              || bool_decide (Lib.os_path_join THUMB_DIR fn ∈ dirs (fs w))) eqn:Hthere.
    - destruct force; cbn [negb andb].
      + unfold bind at 1.
        destruct (make_thumbnail_run (Lib.os_path_join UPLOAD_DIR fn)
                    (Lib.os_path_join THUMB_DIR fn) w)
          as [[e ->]|(stored & opened & converted & thumb & w' & -> & Hsrc & _ & _ & _
                      & _ & Hf & Hd & Hdb)]; cbn [fst snd default print].
        * do 2 eexists. split; [reflexivity|]. right. right. left. eauto.
        * do 2 eexists. split; [reflexivity|]. right. right. right.
          split; [reflexivity|]. split; [discriminate|]. split; [eauto|].
          split; [eauto|]. split; [exact Hd|]. split; [exact Hdb|reflexivity].
      + do 2 eexists. split; [reflexivity|]. right. left.
        apply orb_true_iff in Hthere as [H|H]; apply bool_decide_eq_true in H; auto 10.
    - rewrite andb_false_l. unfold bind at 1.
      apply orb_false_iff in Hthere as [Hnone _]. apply bool_decide_eq_false in Hnone.
      assert (Hnone' : files (fs w) !! Lib.os_path_join THUMB_DIR fn = None).
      { destruct (files (fs w) !! Lib.os_path_join THUMB_DIR fn); [|reflexivity].
        exfalso. apply Hnone. eauto. }
      destruct (make_thumbnail_run (Lib.os_path_join UPLOAD_DIR fn)
                  (Lib.os_path_join THUMB_DIR fn) w)
        as [[e ->]|(stored & opened & converted & thumb & w' & -> & Hsrc & _ & _ & _
                    & _ & Hf & Hd & Hdb)]; cbn [fst snd default print].
      + do 2 eexists. split; [reflexivity|]. right. right. left. eauto.
      + do 2 eexists. split; [reflexivity|]. right. right. right.
        split; [reflexivity|]. split; [auto|]. split; [eauto|].
        split; [eauto|]. split; [exact Hd|]. split; [exact Hdb|reflexivity]. }
  do 2 eexists. split; [reflexivity|]. left. auto.
Qed.

(** The loop never raises: a file whose thumbnail fails does not stop the
    others. Its rounds are chained by [loop_step]. *)
Lemma thumbs_loop_run (force : bool) (files : list string) t w
    (Inv : Tally -> World -> Prop) :
  Inv t w ->
  (forall fn t0 w0 t1 w1,
      fn ∈ files -> Inv t0 w0 -> loop_step force fn t0 w0 t1 w1 -> Inv t1 w1) ->
  exists t' w', thumbs_loop force files t w = (inr t', w') /\ Inv t' w'.
Proof.
  revert t w. induction files as [|fn rest IH]; intros t w H0 Hstep.
  - exists t, w. now split.
  - destruct (thumbs_loop_step force fn rest t w) as (t1 & w1 & -> & Hs).
    apply IH.
    + eapply Hstep; eauto. apply list_elem_of_here.
    + intros fn' t0 w0 t2 w2 Hin. apply Hstep. now apply list_elem_of_further.
Qed.

End Script_properties.

Section Main_properties.
Context {P : Platform} {E : ScriptEnv}.

Implicit Types (w : World) (t : Tally).

Lemma regular_files_run (names : list string) w :
  regular_files names w
  = (inr (List.filter
            (fun f => bool_decide (is_Some (files (fs w) !! Lib.os_path_join UPLOAD_DIR f)))
            names), w).
Proof.
  induction names as [|f rest IH]; [reflexivity|].
  cbn [regular_files List.filter]. unfold bind at 1. unfold os_path_isfile at 1.
  unfold bind at 1. rewrite IH. reflexivity.
Qed.

(** The course of [main]: status 1 when the upload directory is missing;
    otherwise the thumbnail directory is made, the directory is listed, and
    only an exception of one of these two calls can escape. *)
Lemma main_run (force : bool) w :
  ((UPLOAD_DIR ∉ dirs (fs w)) /\
   main force w
   = (inr (1, ["アップロードディレクトリが見つかりません: " +:+ UPLOAD_DIR]), w))
  \/ ((UPLOAD_DIR ∈ dirs (fs w)) /\
      exists r1 w1,
        os_makedirs THUMB_DIR w = (r1, w1) /\
        match r1, listdir UPLOAD_DIR (fs w1) with
        | inl e, _ => main force w = (inl e, w1)
        | inr _, inl e => main force w = (inl e, w1)
        | inr _, inr names =>
            exists t w',
              thumbs_loop force
                (List.filter
                   (fun f => bool_decide
                               (is_Some (files (fs w1) !! Lib.os_path_join UPLOAD_DIR f)))
                   names)
                (mkTally 0 0 0 0 []) w1 = (inr t, w')
              /\ main force w = (inr (0, (printed t ++ summary t)%list), w')
        end).
Proof.
  remember (main force w) as r eqn:Hr. unfold main in Hr.
  unfold bind at 1 in Hr. unfold os_path_isdir at 1 in Hr.
  destruct (bool_decide (UPLOAD_DIR ∈ dirs (fs w))) eqn:Hdir; cbn [negb] in Hr.
  2:{ left. apply bool_decide_eq_false in Hdir. now split. }
  right. apply bool_decide_eq_true in Hdir. split; [exact Hdir|].
  unfold bind at 1 in Hr.
  destruct (os_makedirs THUMB_DIR w) as [[e|[]] w1].
  - do 2 eexists. split; [reflexivity|]. exact Hr.
  - do 2 eexists. split; [reflexivity|].
    unfold bind at 1 in Hr. unfold os_listdir at 1 in Hr.
    destruct (listdir UPLOAD_DIR (fs w1)) as [e|names]; [exact Hr|].
    unfold bind at 1 in Hr. rewrite regular_files_run in Hr.
    unfold bind at 1 in Hr.
    destruct (thumbs_loop_run force
                (List.filter
                   (fun f => bool_decide
                               (is_Some (files (fs w1) !! Lib.os_path_join UPLOAD_DIR f)))
                   names)
                (mkTally 0 0 0 0 []) w1 (fun _ _ => True) I)
      as (t & w' & Hloop & _); [auto|].
    rewrite Hloop in Hr. exists t, w'. split; [exact Hloop|exact Hr].
Qed.

Lemma loop_step_created_line (force : bool) (fn dst : string) t w t1 w1 :
  loop_step force fn t w t1 w1 ->
  ("作成: " +:+ dst) ∈ printed t1 ->
  ("作成: " +:+ dst) ∈ printed t
  \/ (dst = Lib.os_path_join THUMB_DIR fn /\ is_Some (files (fs w1) !! dst)).
Proof.
  unfold loop_step.
  intros [(_ & _ & ->)|[(_ & _ & _ & _ & ->)|[(_ & _ & e & ->)
                       |(_ & _ & _ & (thumb & Hf) & _ & _ & ->)]]];
    cbn [printed]; auto.
  - intros [Hin|Hin%list_elem_of_singleton]%elem_of_app; [now left|].
    exfalso. discriminate Hin.
  - intros [Hin|Hin%list_elem_of_singleton]%elem_of_app; [now left|].
    right. apply String.app_inj in Hin as ->.
    split; [reflexivity|]. rewrite Hf, lookup_insert_eq. eauto.
Qed.

Lemma loop_step_files (force : bool) (fn q : string) t w t1 w1 :
  loop_step force fn t w t1 w1 ->
  (files (fs w1) !! q = files (fs w) !! q
   \/ (q = Lib.os_path_join THUMB_DIR fn
       /\ bool_decide (PyStr.lower (snd (Lib.os_path_splitext fn)) ∈ SUPPORTED_EXT) = true
       /\ is_Some (files (fs w1) !! q)
       /\ (force = false -> files (fs w) !! q = None)))
  /\ dirs (fs w1) = dirs (fs w) /\ keeps_db w w1.
Proof.
  unfold loop_step.
  intros [(-> & _)|[(-> & _)|[(-> & _)
                   |(Hsup & Hfree & _ & (thumb & Hf) & Hd & Hdb & _)]]];
    try (split; [now left|split; [reflexivity|apply keeps_db_refl]]).
  split; [|now split].
  destruct (decide (q = Lib.os_path_join THUMB_DIR fn)) as [->|Hne].
  - right. rewrite Hf, lookup_insert_eq. eauto 10.
  - left. rewrite Hf. now apply lookup_insert_ne.
Qed.

(** X11. Without [--force] the script never overwrites: every file that is there
    before [main] runs, a thumbnail or any other, is there afterwards with the
    same content. *)
Theorem main_without_force_keeps_files w q :
  is_Some (files (fs w) !! q) ->
  files (fs (snd (main false w))) !! q = files (fs w) !! q.
Proof.
  intros Hq.
  destruct (main_run false w) as [[_ ->]|(_ & r1 & w1 & Hmk & Hrun)]; [reflexivity|].
  apply os_makedirs_effect in Hmk as (_ & _ & Hf1 & _).
  destruct r1 as [e|[]]; [rewrite Hrun; cbn [snd]; now rewrite Hf1|].
  destruct (listdir UPLOAD_DIR (fs w1)) as [e|names];
    [rewrite Hrun; cbn [snd]; now rewrite Hf1|].
  destruct Hrun as (t & w' & Hloop & ->). cbn [snd].
  set (regular := List.filter _ names) in *.
  destruct (thumbs_loop_run false regular (mkTally 0 0 0 0 []) w1
              (fun _ w0 => files (fs w0) !! q = files (fs w) !! q))
    as (t' & w'' & Hloop' & Hinv).
  - now rewrite Hf1.
  - intros fn t0 w0 t1 w2 _ Hinv Hstep.
    destruct (loop_step_files _ _ q _ _ _ _ Hstep) as [[Hsame|(_ & _ & _ & Hnone)] _].
    + now rewrite Hsame.
    + rewrite Hinv in Hnone. rewrite (Hnone eq_refl) in Hq. now destruct Hq.
  - rewrite Hloop in Hloop'. now injection Hloop' as _ <-.
Qed.

(** X12. With or without [--force], the script writes thumbnails and nothing else:
    a path whose content changes is the thumbnail path of a regular file of
    the upload directory with a supported extension, and it holds a file
    afterwards. No file is removed, and the database, its connection and the
    log are not used. *)
Theorem main_changes_only_thumbnails (force : bool) w :
  keeps_db w (snd (main force w))
  /\ forall q,
       files (fs (snd (main force w))) !! q <> files (fs w) !! q ->
       is_Some (files (fs (snd (main force w))) !! q)
       /\ exists fn,
            q = Lib.os_path_join THUMB_DIR fn
            /\ is_Some (files (fs w) !! Lib.os_path_join UPLOAD_DIR fn)
            /\ PyStr.lower (snd (Lib.os_path_splitext fn)) ∈ SUPPORTED_EXT.
Proof.
  destruct (main_run force w) as [[_ ->]|(_ & r1 & w1 & Hmk & Hrun)].
  { split; [apply keeps_db_refl|]. intros q Hq. now contradict Hq. }
  apply os_makedirs_effect in Hmk as (Hdb1 & _ & Hf1 & _).
  destruct r1 as [e|[]].
  { rewrite Hrun. cbn [snd]. split; [exact Hdb1|]. intros q Hq.
    rewrite Hf1 in Hq. now contradict Hq. }
  destruct (listdir UPLOAD_DIR (fs w1)) as [e|names].
  { rewrite Hrun. cbn [snd]. split; [exact Hdb1|]. intros q Hq.
    rewrite Hf1 in Hq. now contradict Hq. }
  destruct Hrun as (t & w' & Hloop & ->). cbn [snd].
  set (regular := List.filter _ names) in *.
  destruct (thumbs_loop_run force regular (mkTally 0 0 0 0 []) w1
              (fun _ w0 =>
                 keeps_db w w0 /\
                 forall q,
                   files (fs w0) !! q <> files (fs w) !! q ->
                   is_Some (files (fs w0) !! q)
                   /\ exists fn,
                        q = Lib.os_path_join THUMB_DIR fn
                        /\ is_Some (files (fs w) !! Lib.os_path_join UPLOAD_DIR fn)
                        /\ PyStr.lower (snd (Lib.os_path_splitext fn)) ∈ SUPPORTED_EXT))
    as (t' & w'' & Hloop' & Hinv).
  - split; [exact Hdb1|]. intros q Hq. rewrite Hf1 in Hq. now contradict Hq.
  - intros fn t0 w0 t1 w2 Hin [Hdb Hinv] Hstep.
    apply list_elem_of_In, List.filter_In in Hin as [_ Hfile].
    apply bool_decide_eq_true in Hfile. rewrite Hf1 in Hfile.
    split.
    + eapply keeps_db_trans; [exact Hdb|].
      exact (proj2 (proj2 (loop_step_files _ _ "" _ _ _ _ Hstep))).
    + intros q Hq.
      destruct (loop_step_files _ _ q _ _ _ _ Hstep) as [[Hsame|(-> & Hsup & Hsome & _)] _].
      * rewrite Hsame in Hq |- *. now apply Hinv.
      * split; [exact Hsome|]. exists fn. apply bool_decide_eq_true in Hsup. auto.
  - rewrite Hloop in Hloop'. injection Hloop' as _ <-. exact Hinv.
Qed.

(** X13. The figures of the summary add up. When [main] returns, its status is 0
    or 1; with status 0 the lines are those of the files followed by the
    summary of counters that satisfy: created, failed and skipped together are
    the regular files of the directory; the files with a supported extension
    are those created, failed, or skipped because their thumbnail was there;
    with [--force] none is skipped for that reason. Every line that announces
    a thumbnail names a file that is there afterwards. *)
Theorem main_summary (force : bool) w status lines w' :
  main force w = (inr (status, lines), w') ->
  (status = 1 /\ w' = w /\ UPLOAD_DIR ∉ dirs (fs w))
  \/ (status = 0 /\
      exists names t,
        listdir UPLOAD_DIR (fs (snd (os_makedirs THUMB_DIR w))) = inr names
        /\ lines = (printed t ++ summary t)%list
        /\ created t + failed t + skipped t
           = Z.of_nat (length (List.filter
                                 (fun f => bool_decide
                                   (is_Some (files (fs w) !! Lib.os_path_join UPLOAD_DIR f)))
                                 names))
        /\ 0 <= created t /\ 0 <= failed t
        /\ created t + failed t <= total t <= created t + failed t + skipped t
        /\ (force = true -> total t = created t + failed t)
        /\ forall dst, ("作成: " +:+ dst) ∈ printed t -> is_Some (files (fs w') !! dst)).
Proof.
  intros Hmain.
  destruct (main_run force w) as [[Hdir Hrun]|(_ & r1 & w1 & Hmk & Hrun)].
  { rewrite Hrun in Hmain. injection Hmain as <- _ <-. now left. }
  right. rewrite Hmk. cbn [snd].
  apply os_makedirs_effect in Hmk as (_ & _ & Hf1 & _).
  destruct r1 as [e|[]]; [rewrite Hrun in Hmain; discriminate|].
  destruct (listdir UPLOAD_DIR (fs w1)) as [e|names];
    [rewrite Hrun in Hmain; discriminate|].
  destruct Hrun as (t & w'' & Hloop & Hrun). rewrite Hrun in Hmain.
  injection Hmain as <- <- <-. split; [reflexivity|].
  exists names, t. split; [reflexivity|]. split; [reflexivity|].
  rewrite <- Hf1. set (regular := List.filter _ names) in *.
  assert (Hgen : forall todo t0 w0,
            exists t1 w1',
              thumbs_loop force todo t0 w0 = (inr t1, w1')
              /\ created t1 + failed t1 + skipped t1
                 = created t0 + failed t0 + skipped t0 + Z.of_nat (length todo)
              /\ created t0 <= created t1 /\ failed t0 <= failed t1
              /\ skipped t0 <= skipped t1
              /\ total t1 - total t0
                 <= (created t1 - created t0) + (failed t1 - failed t0)
                    + (skipped t1 - skipped t0)
              /\ (created t1 - created t0) + (failed t1 - failed t0)
                 <= total t1 - total t0
              /\ (force = true ->
                  total t1 - total t0
                  = (created t1 - created t0) + (failed t1 - failed t0))
              /\ ((forall dst, ("作成: " +:+ dst) ∈ printed t0 ->
                               is_Some (files (fs w0) !! dst)) ->
                  forall dst, ("作成: " +:+ dst) ∈ printed t1 ->
                              is_Some (files (fs w1') !! dst))).
  { clear. intros todo. induction todo as [|fn rest IH]; intros t0 w0.
    - exists t0, w0. cbn [length]. repeat split; auto; lia.
    - destruct (thumbs_loop_step force fn rest t0 w0) as (t1 & w1 & -> & Hs).
      destruct (IH t1 w1) as (t2 & w2 & -> & Hsum & Hc & Hf & Hk & Hle & Hge & Hforce & Hlines).
      exists t2, w2. split; [reflexivity|].
      assert (Hstep : created t1 + failed t1 + skipped t1
                      = created t0 + failed t0 + skipped t0 + 1
                      /\ created t0 <= created t1 /\ failed t0 <= failed t1
                      /\ skipped t0 <= skipped t1
                      /\ total t1 - total t0
                         <= (created t1 - created t0) + (failed t1 - failed t0)
                            + (skipped t1 - skipped t0)
                      /\ (created t1 - created t0) + (failed t1 - failed t0)
                         <= total t1 - total t0
                      /\ (force = true ->
                          total t1 - total t0
                          = (created t1 - created t0) + (failed t1 - failed t0))).
      { pose proof Hs as Hs'. unfold loop_step in Hs'.
        destruct Hs' as [(_ & _ & ->)|[(_ & _ & Hnf & _ & ->)|[(_ & _ & e & ->)
                        |(_ & _ & _ & _ & _ & _ & ->)]]];
          cbn [total created skipped failed]; repeat split; try lia.
        intros Hforce'. congruence. }
      destruct Hstep as (Hsum1 & Hc1 & Hf1 & Hk1 & Hle1 & Hge1 & Hforce1).
      cbn [length]. rewrite Nat2Z.inj_succ.
      repeat split; try lia.
      + intros Hforce'. specialize (Hforce Hforce'). specialize (Hforce1 Hforce'). lia.
      + intros H0. apply Hlines. intros dst Hdst.
        destruct (loop_step_created_line _ _ dst _ _ _ _ Hs Hdst) as [Hold|[_ Hnew]];
          [|exact Hnew].
        specialize (H0 dst Hold).
        destruct (loop_step_files _ _ dst _ _ _ _ Hs) as [[->|(_ & _ & Hsome & _)] _];
          auto. }
  destruct (Hgen regular (mkTally 0 0 0 0 []) w1)
    as (t1 & w1' & Hloop' & Hsum & Hc & Hf & Hk & Hle & Hge & Hforce & Hlines).
  rewrite Hloop in Hloop'. injection Hloop' as <- <-.
  cbn [total created skipped failed printed] in *.
  repeat split; try lia.
  - intros Hforce'. specialize (Hforce Hforce'). lia.
  - apply Hlines. intros dst Hin. now apply elem_of_nil in Hin.
Qed.

End Main_properties.

Section Upload_view.
Context {P : Platform} {I : PostsInsert}.

Local Notation "'let*' x ':=' m 'in' k" := (bind m (fun x => k))
  (at level 10, x name, m at level 100, k at level 200).
Local Notation "m ';;;' k" := (bind m (fun _ => k))
  (at level 100, k at level 200, right associativity).

Implicit Types (w : World) (user : CurrentUser) (request : UploadRequest).

Lemma get_db_run w r w0 :
  get_db w = (r, w0) ->
  fs w0 = fs w /\ draws w0 = draws w /\ posts w0 = posts w /\ log w0 = log w
  /\ (r = inr tt -> conn w0 = Some (default (posts w) (conn w))).
Proof.
  unfold get_db. destruct (conn w) eqn:Hc.
  - intros [= <- <-]. rewrite Hc. now repeat split.
  - destruct (sql_error SqlConnect (posts w)); intros [= <- <-]; now repeat split.
Qed.

(** The block that records the post: it never raises; either the row is
    committed, or the table is as before and the failure is logged. *)
Lemma record_post_run (row : PostRow) w :
  exists inserted w',
    try_except
      (get_db;;; db_insert_post row;;; db_commit;;; ret true)
      (fun _ => logger_exception "failed to insert post";;; ret false) w
    = (inr inserted, w')
    /\ fs w' = fs w /\ draws w' = draws w
    /\ if inserted
       then posts w' = <[lastrowid (default (posts w) (conn w)) := row]>
                         (default (posts w) (conn w))
            /\ conn w' = Some (posts w') /\ log w' = log w
       else posts w' = posts w /\ log w' = (log w ++ ["failed to insert post"])%list.
Proof.
  unfold try_except. unfold bind at 1.
  destruct (get_db w) as [[e|[]] w0] eqn:Hdb;
    apply get_db_run in Hdb as (Hfs & Hdr & Hposts & Hlog & Hconn).
  { exists false. eexists. split; [reflexivity|]. cbn. now rewrite Hfs, Hdr, Hposts, Hlog. }
  specialize (Hconn eq_refl). unfold bind at 1. unfold db_insert_post at 1.
  rewrite Hconn. set (view := default (posts w) (conn w)) in *.
  destruct (insert_error row view).
  { exists false. eexists. split; [reflexivity|]. cbn. now rewrite Hfs, Hdr, Hposts, Hlog. }
  unfold bind at 1. unfold db_commit. cbn [conn].
  destruct (sql_error SqlCommit _).
  { exists false. eexists. split; [reflexivity|]. cbn. now rewrite Hfs, Hdr, Hposts, Hlog. }
  exists true. eexists. split; [reflexivity|]. cbn. now rewrite Hfs, Hdr, Hlog.
Qed.

Lemma failure_message_not_insert_failure (k : Failure) :
  failure_message DEFAULT_MAX_DIMENSIONS k <> "投稿の保存に失敗しました".
Proof. destruct k; vm_compute; discriminate. Qed.

Lemma failure_message_truthy (dims : Z * Z) (k : Failure) :
  truthy (Some (failure_message dims k)) = true.
Proof.
  unfold truthy. apply negb_true_iff, bool_decide_eq_false_2.
  destruct k; discriminate.
Qed.

(** Every way through the view. *)
Lemma upload_run user request w :
  (exists page, upload user request w = (inr ([], Template page), w))
  \/ (exists e, upload user request w = (inl e, w))
  \/ (exists msg, upload user request w = (inr ([msg], Template "upload.html"), w)
                  /\ msg = "タイトルが入力されていません")
  \/ (method request = "POST" /\ is_authenticated user = true /\
      exists r w1,
        process_uploaded_image (files_image request) "static/uploads"
          DEFAULT_MAX_DIMENSIONS DEFAULT_THUMBNAIL_SIZE w = (r, w1)
        /\ match r with
           | inl e => upload user request w = (inl e, w1)
           | inr (None, error) =>
               exists k,
                 error = Some (failure_message DEFAULT_MAX_DIMENSIONS k)
                 /\ upload user request w
                    = (inr ([failure_message DEFAULT_MAX_DIMENSIONS k],
                            Template "upload.html"), w1)
           | inr (Some name, error) =>
               error = None
               /\ exists inserted w2,
                    try_except
                      (get_db;;;
                       db_insert_post (mkPost (Some (user_ident user)) (Some name));;;
                       db_commit;;; ret true)
                      (fun _ => logger_exception "failed to insert post";;; ret false) w1
                    = (inr inserted, w2)
                    /\ upload user request w
                       = (inr (if inserted then ([], Location "/")
                               else (["投稿の保存に失敗しました"], Template "upload.html")),
                          w2)
           end).
Proof.
  remember (upload user request w) as u eqn:Hu. unfold upload in Hu.
  destruct (bool_decide (method request = "POST")) eqn:Hpost;
    [|left; exists "upload.html"; exact Hu].
  apply bool_decide_eq_true in Hpost.
  unfold bind at 1 in Hu.
  destruct (is_authenticated user) eqn:Hauth; cbn [negb] in Hu;
    [|right; left; eexists; exact Hu].
  unfold ret at 1 in Hu. unfold bind at 1 in Hu.
  destruct (form_title request) as [title|]; [|right; left; eexists; exact Hu].
  unfold ret at 1 in Hu.
  destruct (bool_decide (title = "") || PyStr.is_blank title);
    [right; right; left; eexists; split; [exact Hu|reflexivity]|].
  right; right; right. split; [exact Hpost|]. split; [reflexivity|].
  unfold bind at 1 in Hu.
  destruct (process_uploaded_image _ _ _ _ w) as [r w1] eqn:Hrun.
  exists r, w1. split; [reflexivity|].
  destruct r as [e|[filename error]]; [exact Hu|].
  apply returns_exactly_one in Hrun as [(-> & _ & ->)|(-> & k & ->)].
  - split; [reflexivity|]. cbn [truthy] in Hu.
    destruct (record_post_run (mkPost (Some (user_ident user))
                                 (Some (storage_name (files_image request) w))) w1)
      as (inserted & w2 & Hrec & _).
    exists inserted, w2. split; [exact Hrec|].
    unfold bind at 1 in Hu. rewrite Hrec in Hu. now destruct inserted.
  - exists k. split; [reflexivity|]. now rewrite failure_message_truthy in Hu.
Qed.


(** X15. Whatever else happens (a missing or blank title, a rejected or failed
    upload, a failing statement or commit, an exception that escapes), the
    committed table is as it was. *)
Theorem upload_without_redirect_commits_nothing user request w :
  fst (upload user request w) <> inr ([], Location "/") ->
  posts (snd (upload user request w)) = posts w.
Proof.
  pose proof (upload_frame (files_image request) "static/uploads"
                DEFAULT_MAX_DIMENSIONS DEFAULT_THUMBNAIL_SIZE w) as ((Hp & _) & _).
  destruct (upload_run user request w)
    as [[page ->]|[[e ->]|[(msg & -> & _)|(_ & _ & r & w1 & Hrun & Hu)]]];
    try reflexivity.
  rewrite Hrun in Hp. cbn [snd] in Hp.
  destruct r as [e|[[name|] error]].
  - now rewrite Hu.
  - destruct Hu as (-> & inserted & w2 & Hrec & ->). cbn [fst snd].
    destruct (record_post_run (mkPost (Some (user_ident user)) (Some name)) w1)
      as (inserted' & w2' & Hrec' & _ & _ & Hposts).
    rewrite Hrec in Hrec'. injection Hrec' as <- <-.
    destruct inserted; [intros Hne; now contradict Hne|].
    intros _. destruct Hposts as [-> _]. exact Hp.
  - destruct Hu as (k & _ & ->). intros _. exact Hp.
Qed.

(** X16. The message that the post could not be saved means an orphan: the
    pipeline has stored the image, the full-size file is in the upload
    directory, and the table has no record of it. The failure is logged. *)
Theorem upload_insert_failure_leaves_file user request w page :
  fst (upload user request w) = inr (["投稿の保存に失敗しました"], page) ->
  exists name w1,
    process_uploaded_image (files_image request) "static/uploads"
      DEFAULT_MAX_DIMENSIONS DEFAULT_THUMBNAIL_SIZE w = (inr (Some name, None), w1)
    /\ fs (snd (upload user request w)) = fs w1
    /\ is_Some (files (fs (snd (upload user request w))) !! ("static/uploads/" +:+ name))
    /\ posts (snd (upload user request w)) = posts w
    /\ log (snd (upload user request w)) = (log w ++ ["failed to insert post"])%list.
Proof.
  pose proof (upload_frame (files_image request) "static/uploads"
                DEFAULT_MAX_DIMENSIONS DEFAULT_THUMBNAIL_SIZE w) as ((Hp & _ & Hl) & _).
  destruct (upload_run user request w)
    as [[p ->]|[[e ->]|[(msg & -> & ->)|(_ & _ & r & w1 & Hrun & Hu)]]];
    try discriminate.
  rewrite Hrun in Hp, Hl. cbn [snd] in Hp, Hl.
  destruct r as [e|[[name|] error]].
  - rewrite Hu. discriminate.
  - destruct Hu as (-> & inserted & w2 & Hrec & ->). cbn [fst snd].
    destruct (record_post_run (mkPost (Some (user_ident user)) (Some name)) w1)
      as (inserted' & w2' & Hrec' & Hfs & _ & Hposts).
    rewrite Hrec in Hrec'. injection Hrec' as <- <-.
    destruct inserted; [discriminate|]. intros _. destruct Hposts as [Hposts Hlog].
    exists name, w1. split; [exact Hrun|]. split; [exact Hfs|].
    split; [|split; [congruence|congruence]]. rewrite Hfs.
    destruct (successful_run_file _ _ _ _ _ _ _ Hrun) as (image & stored & _ & Hfile & _).
    pose proof Hrun as Hname.
    apply returns_exactly_one in Hname as [([= ->] & _)|([=] & _)].
    destruct (storage_name_relative (files_image request) w) as [_ Hrel].
    rewrite (os_path_join_relative _ _ Hrel) in Hfile.
    change (Lib.slashed "static/uploads") with "static/uploads/" in Hfile.
    rewrite Hfile. eauto.
  - destruct Hu as (k & _ & ->). cbn [fst]. intros [= Hk].
    now apply failure_message_not_insert_failure in Hk.
Qed.

Lemma attempt_removal_files (path : string) (f : FileSystem Image) :
  remove_error path f = None ->
  files (attempt_removal path f) = base.delete path (files f).
Proof.
  intros Hrm. unfold attempt_removal. destruct (files f !! path) eqn:Hfile.
  - now rewrite Hrm.
  - symmetry. now apply delete_id.
Qed.

Lemma delete_owner_run user id w row name :
  (forall op t, sql_error op t = None) ->
  is_authenticated user = true ->
  default (posts w) (conn w) !! id = Some row ->
  user_id row = Some (user_ident user) ->
  post_filename row = Some name ->
  exists w',
    delete user id w = (inr (Redirect "home"), w')
    /\ posts w' = base.delete id (default (posts w) (conn w))
    /\ fs w' = foldl (fun f path => attempt_removal path f) (fs w) (cleanup_paths name).
Proof.
  intros Hsql Hauth Hrow Howner Hname.
  remember (delete user id w) as r eqn:Hr. unfold delete in Hr.
  rewrite Hauth in Hr. cbn [negb] in Hr. unfold bind at 1 in Hr. unfold ret at 1 in Hr.
  unfold try_except in Hr. unfold bind at 1 in Hr.
  set (view := default (posts w) (conn w)) in *.
  assert (Hdb : exists w0,
             get_db w = (inr tt, w0) /\ conn w0 = Some view
             /\ fs w0 = fs w /\ posts w0 = posts w).
  { unfold get_db, view. destruct (conn w) eqn:Hc.
    - exists w. now repeat split.
    - rewrite Hsql. eexists. now repeat split. }
  destruct Hdb as (w0 & Hdb & Hc0 & Hfs0 & Hposts0). rewrite Hdb in Hr.
  unfold bind at 1 in Hr. unfold db_execute at 1 in Hr.
  rewrite Hc0, Hsql, Hrow, Howner, Hname in Hr.
  unfold bind at 1 in Hr. unfold py_int, ret at 1 in Hr. unfold bind at 1 in Hr.
  rewrite (bool_decide_eq_true_2 (user_ident user = user_ident user) eq_refl) in Hr.
  cbn [negb andb] in Hr. unfold ret at 1 in Hr. unfold bind at 1 in Hr.
  unfold ret at 1 in Hr. unfold bind at 1 in Hr.
  destruct (remove_files_run (cleanup_paths name)
              (mkWorld (fs w0) (draws w0) (posts w0) (Some view) (log w0))
              (cleanup_paths_not_empty name))
    as (w1 & Hrm & Hfs1 & Hposts1 & Hconn1).
  unfold cleanup_paths in Hrm. rewrite Hrm in Hr. clear Hrm.
  unfold bind at 1 in Hr. unfold db_execute at 1 in Hr. rewrite Hconn1 in Hr.
  cbn [conn] in Hr. rewrite Hsql in Hr. unfold bind at 1 in Hr.
  unfold db_commit in Hr. cbn [conn] in Hr. rewrite Hsql in Hr.
  unfold bind at 1 in Hr. unfold ret in Hr.
  eexists. split; [exact Hr|]. cbn. split; [reflexivity|].
  rewrite Hfs1. cbn. now rewrite Hfs0.
Qed.

(** X17. Round trip. A request uploads a post and ends; the next one, by the same
    user, deletes the post under the key the upload gave it. When
    [AUTOINCREMENT] gives a key that is not in the table and neither the
    database nor a removal fails in the second request, the table is back to
    what it was, neither file of the post is left, and every other file is as
    before the upload. *)
Theorem upload_then_delete_round_trip user request w :
  conn w = None ->
  posts w !! lastrowid (posts w) = None ->
  (forall op t, sql_error op t = None) ->
  (forall path f, remove_error path f = None) ->
  fst (upload user request w) = inr ([], Location "/") ->
  let w1 := snd (close_db (snd (upload user request w))) in
  let id := lastrowid (posts w) in
  fst (delete user id w1) = inr (Redirect "home")
  /\ posts (snd (delete user id w1)) = posts w
  /\ forall q,
       files (fs (snd (delete user id w1))) !! q
       = if bool_decide (q = full_path (files_image request) "static/uploads" w
                         \/ q = thumb_path (files_image request) "static/uploads" w)
         then None
         else files (fs w) !! q.
Proof.
  intros Hconn Hfresh Hsql Hrm Hredirect. cbv zeta.
  pose proof (upload_frame (files_image request) "static/uploads"
                DEFAULT_MAX_DIMENSIONS DEFAULT_THUMBNAIL_SIZE w) as ((Hp & Hc & _) & _ & Hf).
  destruct (upload_run user request w)
    as [[p Hu]|[[e Hu]|[(msg & Hu & _)|(_ & Hauth & r & w0 & Hrun & Hu)]]];
    try (rewrite Hu in Hredirect; discriminate).
  rewrite Hrun in Hp, Hc, Hf. cbn [snd] in Hp, Hc, Hf.
  destruct r as [e|[[name|] error]].
  { rewrite Hu in Hredirect. discriminate. }
  2:{ destruct Hu as (k & _ & Hu). rewrite Hu in Hredirect. discriminate. }
  destruct Hu as (-> & inserted & w2 & Hrec & Hu). rewrite Hu in Hredirect |- *.
  cbn [fst snd] in *.
  destruct (record_post_run (mkPost (Some (user_ident user)) (Some name)) w0)
    as (inserted' & w2' & Hrec' & Hfs & _ & Hposts).
  rewrite Hrec in Hrec'. injection Hrec' as <- <-.
  destruct inserted; [|discriminate]. destruct Hposts as (Hposts & _).
  rewrite Hp, Hc, Hconn in Hposts. cbn [default] in Hposts.
  apply returns_exactly_one in Hrun as [([= ->] & _)|([=] & _)].
  set (name := storage_name (files_image request) w) in *.
  set (row := mkPost (Some (user_ident user)) (Some name)) in *.
  destruct (delete_owner_run user (lastrowid (posts w))
              (snd (close_db w2)) row name Hsql Hauth)
    as (w' & Hdel & Hposts' & Hfs'); try reflexivity.
  { cbn. rewrite Hposts. apply lookup_insert_eq. }
  rewrite Hdel. cbn [fst snd]. split; [reflexivity|]. split.
  { rewrite Hposts'. cbn. rewrite Hposts, delete_insert_eq. now apply delete_id. }
  intros q. rewrite Hfs'. cbn [cleanup_paths foldl close_db snd fs].
  rewrite !attempt_removal_files by apply Hrm. rewrite Hfs.
  change (Lib.os_path_join (Lib.os_path_join "static" "uploads") name)
    with (full_path (files_image request) "static/uploads" w).
  change (Lib.os_path_join
            (Lib.os_path_join (Lib.os_path_join "static" "uploads") "thumbs") name)
    with (thumb_path (files_image request) "static/uploads" w).
  destruct (decide (q = thumb_path (files_image request) "static/uploads" w)) as [->|Hq2].
  { rewrite lookup_delete_eq. rewrite bool_decide_eq_true_2 by now right. reflexivity. }
  rewrite lookup_delete_ne by congruence.
  destruct (decide (q = full_path (files_image request) "static/uploads" w)) as [->|Hq1].
  { rewrite lookup_delete_eq. rewrite bool_decide_eq_true_2 by now left. reflexivity. }
  rewrite lookup_delete_ne by congruence.
  rewrite bool_decide_eq_false_2 by (intros [?|?]; congruence).
  now apply Hf.
Qed.

End Upload_view.

Section Post_view.
Context {P : Platform} {L : LikesCount}.

Local Notation "'let*' x ':=' m 'in' k" := (bind m (fun x => k))
  (at level 10, x name, m at level 100, k at level 200).
Local Notation "m ';;;' k" := (bind m (fun _ => k))
  (at level 100, k at level 200, right associativity).

(** X18. The [post] view never answers 404. Its [abort(404)] for a post that is
    not there is raised inside the [try] block, whose handler answers 500:
    the view renders the page of a post that the connection sees, and answers
    500 in every other case, a missing post included, after logging the
    failure. It changes neither the files nor the committed table. *)
Theorem post_never_answers_404 (id : Z) (w : World) :
  ((exists like_count,
       fst (post id w) = inr (Template "post.html", like_count)
       /\ is_Some (default (posts w) (conn w) !! id)
       /\ log (snd (post id w)) = log w)
   \/ (fst (post id w) = inl (HTTPException 500)
       /\ log (snd (post id w)) = (log w ++ ["failed to fetch post"])%list))
  /\ (sql_error SqlConnect (posts w) = None ->
      sql_error (SqlSelectPost id) (default (posts w) (conn w)) = None ->
      default (posts w) (conn w) !! id = None ->
      fst (post id w) = inl (HTTPException 500))
  /\ fs (snd (post id w)) = fs w
  /\ posts (snd (post id w)) = posts w.
Proof.
  remember (post id w) as r eqn:Hr. unfold post, try_except in Hr.
  unfold bind at 1 in Hr.
  destruct (get_db w) as [[e|[]] w0] eqn:Hdb.
  { pose proof (get_db_run _ _ _ Hdb) as (Hfs & _ & Hposts & Hlog & _).
    subst r. cbn. rewrite Hfs, Hposts, Hlog. split; [now right|].
    split; [|now split]. intros Hconnect _ _. exfalso.
    unfold get_db in Hdb. destruct (conn w); [discriminate|].
    rewrite Hconnect in Hdb. discriminate. }
  apply get_db_run in Hdb as (Hfs & _ & Hposts & Hlog & Hconn).
  specialize (Hconn eq_refl). set (view := default (posts w) (conn w)) in *.
  unfold bind at 1 in Hr. unfold db_execute at 1 in Hr. rewrite Hconn in Hr.
  destruct (sql_error (SqlSelectPost id) view) eqn:Hselect.
  { subst r. cbn. rewrite Hfs, Hposts, Hlog. split; [now right|].
    split; [|now split]. discriminate. }
  destruct (view !! id) as [row|] eqn:Hrow.
  2:{ subst r. cbn. rewrite Hfs, Hposts, Hlog. split; [now right|]. now split. }
  unfold bind at 1 in Hr. unfold ret at 1 in Hr. unfold bind at 1 in Hr.
  unfold db_count_likes in Hr. cbn [conn] in Hr.
  destruct (count_likes id view) as [e|like_count].
  { subst r. cbn. rewrite Hfs, Hposts, Hlog. split; [now right|].
    split; [|now split]. discriminate. }
  subst r. cbn. rewrite Hfs, Hposts, Hlog. split.
  - left. exists like_count. split; [reflexivity|]. split; [|reflexivity]. eauto.
  - split; [|now split]. discriminate.
Qed.

End Post_view.

(** ** Accounts and likes *)

Lemma printable_is_ascii (c : ascii) :
  is_printable c = true -> ((128 <=? PyStr.code c) && (PyStr.code c <=? 191))%N = false.
Proof.
  unfold is_printable. intros [_ H]%andb_true_iff. apply N.leb_le in H.
  apply andb_false_iff. left. apply N.leb_gt. lia.
Qed.

Lemma py_len_printable (p : string) :
  PyStr.forallb is_printable p = true -> py_len p = Z.of_nat (String.length p).
Proof.
  induction p as [|c p IH]; [reflexivity|]. cbn [PyStr.forallb py_len String.length].
  intros [Hc Hp]%andb_true_iff. rewrite (printable_is_ascii c Hc), (IH Hp). lia.
Qed.

Lemma py_len_app (a b : string) : py_len (a +:+ b) = py_len a + py_len b.
Proof.
  induction a as [|c a IH]; [reflexivity|].
  change (String c a +:+ b) with (String c (a +:+ b)). cbn [py_len]. rewrite IH. lia.
Qed.

Lemma printable_rest_iff (s : string) :
  printable_rest s = true <->
  exists p, PyStr.forallb is_printable p = true /\ (s = p \/ s = p +:+ String "010" "").
Proof.
  induction s as [|c r IH]; cbn [printable_rest].
  - split; [|reflexivity]. intros _. exists "". split; [reflexivity|now left].
  - destruct (is_printable c) eqn:Hc.
    + rewrite IH. split.
      * intros (p & Hp & Hs). exists (String c p). cbn [PyStr.forallb]. rewrite Hc, Hp.
        split; [reflexivity|]. destruct Hs as [->| ->]; [now left|now right].
      * intros ([|d p] & Hp & Hs).
        { destruct Hs as [Hs|Hs]; [discriminate|]. injection Hs as -> ->.
          discriminate Hc. }
        cbn [PyStr.forallb] in Hp. apply andb_true_iff in Hp as [_ Hp].
        exists p. split; [exact Hp|].
        destruct Hs as [Hs|Hs]; [left|right]; now injection Hs.
    + split.
      * intros [->%bool_decide_eq_true ->%bool_decide_eq_true]%andb_true_iff.
        exists "". split; [reflexivity|now right].
      * intros ([|d p] & Hp & Hs).
        { destruct Hs as [Hs|Hs]; [discriminate|]. now injection Hs as -> ->. }
        cbn [PyStr.forallb] in Hp. apply andb_true_iff in Hp as [Hd _].
        destruct Hs as [Hs|Hs]; injection Hs as -> _; congruence.
Qed.

Lemma re_match_printable_iff (s : string) :
  re_match_printable s = true <->
  exists p, p <> "" /\ PyStr.forallb is_printable p = true
            /\ (s = p \/ s = p +:+ String "010" "").
Proof.
  destruct s as [|c r]; cbn [re_match_printable].
  - split; [discriminate|]. intros ([|d p] & Hne & _ & [Hs|Hs]); try discriminate.
    now contradict Hne.
  - rewrite andb_true_iff, printable_rest_iff. split.
    + intros (Hc & p & Hp & Hs). exists (String c p). split; [discriminate|].
      cbn [PyStr.forallb]. rewrite Hc, Hp. split; [reflexivity|].
      destruct Hs as [->| ->]; [now left|now right].
    + intros ([|d p] & Hne & Hp & Hs); [now contradict Hne|].
      cbn [PyStr.forallb] in Hp. apply andb_true_iff in Hp as [Hd Hp].
      destruct Hs as [Hs|Hs]; injection Hs as -> ->; (split; [exact Hd|]);
        exists p; (split; [exact Hp|]); [now left|now right].
Qed.

(** The checks of the password as one rule: printable ASCII characters, at
    least one, possibly followed by one newline, and 8 to 128 characters in
    all. *)
Lemma password_checks (raw : string) :
  (negb (bool_decide (raw = "")) && negb (py_len raw <? 8) && negb (py_len raw >? 128)
   && re_match_printable raw = true)
  <-> exists p,
        p <> "" /\ PyStr.forallb is_printable p = true
        /\ (raw = p \/ raw = p +:+ String "010" "")
        /\ 8 <= Z.of_nat (String.length raw) <= 128.
Proof.
  assert (Hlen : forall p, PyStr.forallb is_printable p = true ->
            raw = p \/ raw = p +:+ String "010" "" ->
            py_len raw = Z.of_nat (String.length raw)).
  { intros p Hp [->| ->]; [now apply py_len_printable|].
    rewrite py_len_app, string_app_length, (py_len_printable p Hp).
    change (py_len (String "010" "")) with 1.
    change (String.length (String "010" "")) with 1%nat. lia. }
  rewrite !andb_true_iff, !negb_true_iff, re_match_printable_iff. split.
  - intros (((_ & H8) & H128) & p & Hne & Hp & Hs).
    apply Z.ltb_ge in H8. rewrite Z.gtb_ltb in H128. apply Z.ltb_ge in H128.
    exists p. repeat split; auto; rewrite <- (Hlen p Hp Hs); lia.
  - intros (p & Hne & Hp & Hs & H8 & H128). rewrite (Hlen p Hp Hs).
    rewrite Z.gtb_ltb. repeat split; try (apply Z.ltb_ge; lia); eauto.
    apply bool_decide_eq_false_2. destruct Hs as [->| ->]; [exact Hne|].
    destruct p; [now contradict Hne|discriminate].
Qed.

Section Account_properties.
Context {E : Accounts}.

Local Notation "'let*' x ':=' m 'in' k" := (ebind m (fun x => k))
  (at level 10, x name, m at level 100, k at level 200).
Local Notation "m ';;;' k" := (ebind m (fun _ => k))
  (at level 100, k at level 200, right associativity).

Implicit Types (s : Site) (request : Credentials) (user : CurrentUser).

Lemma connect_run s r s0 :
  connect s = (r, s0) ->
  committed s0 = committed s /\ session_user s0 = session_user s
  /\ app_log s0 = app_log s /\ salts s0 = salts s
  /\ match r with
     | inr _ => g_db s0 = Some (default (committed s) (g_db s))
     | inl _ => s0 = s
     end.
Proof.
  unfold connect. destruct (g_db s) eqn:Hc.
  - intros [= <- <-]. now rewrite Hc.
  - destruct (statement_error StConnect (committed s)); intros [= <- <-]; now repeat split.
Qed.

(** The block of [register] that stores the account: it never raises; the
    account is committed under a name that was free, or nothing is. *)
Lemma store_account_run (username password_hash : string) s :
  exists problem s',
    etry
      (connect;;; insert_user username password_hash;;; commit;;; eret None)
      (fun e =>
         if is_integrity_error e then eret (Some "ユーザー名は既に使われています。")
         else app_logger_exception "failed to register";;;
              eret (Some "登録に失敗しました。")) s
    = (inr problem, s')
    /\ session_user s' = session_user s /\ salts s' = salts s
    /\ match problem with
       | None =>
           users (default (committed s) (g_db s)) !! username = None
           /\ committed s'
              = mkTables
                  (<[username := (new_user_id (default (committed s) (g_db s)),
                                  Some password_hash)]>
                     (users (default (committed s) (g_db s))))
                  (likes (default (committed s) (g_db s)))
       | Some _ => committed s' = committed s
       end.
Proof.
  unfold etry. unfold ebind at 1.
  assert (Hfail : forall (e : exn) s0,
            committed s0 = committed s -> session_user s0 = session_user s ->
            salts s0 = salts s ->
            exists problem s',
              (if is_integrity_error e
               then eret (Some "ユーザー名は既に使われています。")
               else app_logger_exception "failed to register";;;
                    eret (Some "登録に失敗しました。")) s0 = (inr problem, s')
              /\ session_user s' = session_user s /\ salts s' = salts s
              /\ match problem with
                 | None =>
                     users (default (committed s) (g_db s)) !! username = None
                     /\ committed s'
                        = mkTables
                            (<[username := (new_user_id (default (committed s) (g_db s)),
                                            Some password_hash)]>
                               (users (default (committed s) (g_db s))))
                            (likes (default (committed s) (g_db s)))
                 | Some _ => committed s' = committed s
                 end).
  { intros e s0 H1 H2 H3. destruct (is_integrity_error e); eexists _, _;
      (split; [reflexivity|]); cbn; auto. }
  destruct (connect s) as [[e|[]] s0] eqn:Hdb;
    apply connect_run in Hdb as (Hc & Hu & Hl & Hs & Hconn).
  { now apply Hfail. }
  unfold ebind at 1. unfold insert_user, execute. rewrite Hconn.
  set (view := default (committed s) (g_db s)) in *.
  destruct (statement_error (StInsertUser username password_hash) view);
    [now apply Hfail|].
  destruct (users view !! username) eqn:Hname; [now apply Hfail|].
  unfold ebind at 1. unfold commit. cbn [g_db].
  destruct (statement_error StCommit _); [now apply Hfail|].
  exists None. eexists. split; [reflexivity|]. cbn. auto.
Qed.

(** Every way through [register] for a request that posts both fields. *)
Lemma register_run request username raw s :
  request_method request = "POST" ->
  form_username request = Some username ->
  form_password request = Some raw ->
  if negb (bool_decide (raw = "")) && negb (py_len raw <? 8) && negb (py_len raw >? 128)
     && re_match_printable raw
  then
    exists problem s',
      register request s
      = (inr (match problem with
              | Some message => ([message], Template "register.html")
              | None => ([], Location "/login")
              end), s')
      /\ session_user s' = session_user s /\ salts s' = S (salts s)
      /\ match problem with
         | None =>
             users (default (committed s) (g_db s)) !! username = None
             /\ committed s'
                = mkTables
                    (<[username := (new_user_id (default (committed s) (g_db s)),
                                    Some (generate_password_hash raw (salts s)))]>
                       (users (default (committed s) (g_db s))))
                    (likes (default (committed s) (g_db s)))
         | Some _ => committed s' = committed s
         end
  else exists message, register request s = (inr ([message], Template "register.html"), s).
Proof.
  intros Hpost Huser Hraw.
  remember (register request s) as r eqn:Hr. unfold register in Hr.
  rewrite (bool_decide_eq_true_2 _ Hpost), Huser, Hraw in Hr.
  unfold ebind at 1 in Hr. unfold form_field at 1, eret at 1 in Hr.
  unfold ebind at 1 in Hr. unfold form_field at 1, eret at 1 in Hr.
  destruct (bool_decide (raw = "")); cbn [negb andb]; [eauto|].
  destruct (py_len raw <? 8); cbn [negb andb]; [eauto|].
  destruct (py_len raw >? 128); cbn [negb andb]; [eauto|].
  destruct (re_match_printable raw); cbn [negb andb] in *; [|eauto].
  unfold ebind at 1 in Hr. unfold new_password_hash at 1 in Hr.
  unfold ebind at 1 in Hr.
  destruct (store_account_run username (generate_password_hash raw (salts s))
              (mkSite (committed s) (g_db s) (session_user s) (app_log s) (S (salts s))))
    as (problem & s' & Hstore & Hsess & Hsalts & Hres).
  rewrite Hstore in Hr. exists problem, s'. cbn in Hsess, Hsalts, Hres.
  split; [now destruct problem|]. auto.
Qed.

(** X19. The password rule of [register]. A request that posts a name and a
    password gets as far as hashing the password exactly when the password is
    made of printable ASCII characters, at least one, possibly followed by one
    newline, and has 8 to 128 characters in all; any other password gets a
    message on the form and changes nothing. *)
Theorem register_password_rule request username raw s :
  request_method request = "POST" ->
  form_username request = Some username ->
  form_password request = Some raw ->
  (salts (snd (register request s)) = S (salts s)
   <-> exists p,
         p <> "" /\ PyStr.forallb is_printable p = true
         /\ (raw = p \/ raw = p +:+ String "010" "")
         /\ 8 <= Z.of_nat (String.length raw) <= 128)
  /\ (salts (snd (register request s)) <> S (salts s) ->
      exists message,
        register request s = (inr ([message], Template "register.html"), s)).
Proof.
  intros Hpost Huser Hraw. rewrite <- password_checks.
  pose proof (register_run request username raw s Hpost Huser Hraw) as Hrun.
  destruct (negb (bool_decide (raw = "")) && negb (py_len raw <? 8)
            && negb (py_len raw >? 128) && re_match_printable raw).
  - destruct Hrun as (problem & s' & -> & _ & Hsalts & _). cbn [snd]. split.
    + now split.
    + intros Hne. now contradict Hne.
  - destruct Hrun as (message & ->). cbn [snd]. split.
    + split; [lia|discriminate].
    + eauto.
Qed.

(** X20. [register] redirects only after it has committed the account: the
    redirection goes to the login page without a message, the name was free
    in the table the request saw, and the table has one more user, who holds
    that name and the hash of the password, never the password itself as
    posted. The session is not touched. *)
Theorem register_redirect_means_new_account request s flashes url :
  fst (register request s) = inr (flashes, Location url) ->
  flashes = [] /\ url = "/login"
  /\ exists username raw,
       form_username request = Some username
       /\ form_password request = Some raw
       /\ users (default (committed s) (g_db s)) !! username = None
       /\ committed (snd (register request s))
          = mkTables
              (<[username := (new_user_id (default (committed s) (g_db s)),
                              Some (generate_password_hash raw (salts s)))]>
                 (users (default (committed s) (g_db s))))
              (likes (default (committed s) (g_db s)))
       /\ session_user (snd (register request s)) = session_user s.
Proof.
  destruct (decide (request_method request = "POST")) as [Hpost|Hget].
  2:{ unfold register. rewrite (bool_decide_eq_false_2 _ Hget). discriminate. }
  destruct (form_username request) as [username|] eqn:Huser.
  2:{ unfold register. rewrite (bool_decide_eq_true_2 _ Hpost), Huser. discriminate. }
  destruct (form_password request) as [raw|] eqn:Hraw.
  2:{ unfold register. rewrite (bool_decide_eq_true_2 _ Hpost), Huser, Hraw. discriminate. }
  pose proof (register_run request username raw s Hpost Huser Hraw) as Hrun.
  destruct (negb (bool_decide (raw = "")) && negb (py_len raw <? 8)
            && negb (py_len raw >? 128) && re_match_printable raw).
  - destruct Hrun as ([message|] & s' & -> & Hsess & _ & Hres); [discriminate|].
    intros [= <- <-]. destruct Hres as [Hfree Hcommitted]. cbn [snd].
    split; [reflexivity|]. split; [reflexivity|]. exists username, raw. auto.
  - destruct Hrun as (message & ->). discriminate.
Qed.

(** X21. Whatever else happens in [register], the committed tables are as they
    were. *)
Theorem register_without_redirect_commits_nothing request s :
  fst (register request s) <> inr ([], Location "/login") ->
  committed (snd (register request s)) = committed s.
Proof.
  destruct (decide (request_method request = "POST")) as [Hpost|Hget].
  2:{ unfold register. now rewrite (bool_decide_eq_false_2 _ Hget). }
  destruct (form_username request) as [username|] eqn:Huser.
  2:{ unfold register. now rewrite (bool_decide_eq_true_2 _ Hpost), Huser. }
  destruct (form_password request) as [raw|] eqn:Hraw.
  2:{ unfold register. now rewrite (bool_decide_eq_true_2 _ Hpost), Huser, Hraw. }
  pose proof (register_run request username raw s Hpost Huser Hraw) as Hrun.
  destruct (negb (bool_decide (raw = "")) && negb (py_len raw <? 8)
            && negb (py_len raw >? 128) && re_match_printable raw).
  - destruct Hrun as ([message|] & s' & -> & _ & _ & Hres); cbn [fst snd].
    + now intros _.
    + intros Hne. now contradict Hne.
  - destruct Hrun as (message & ->). now intros _.
Qed.

(** Every way through [login] for a request that posts both fields. *)
Lemma login_run request username password s :
  request_method request = "POST" ->
  form_username request = Some username ->
  form_password request = Some password ->
  (exists s',
      login request s = (inr (Body "ログイン失敗"), s')
      /\ session_user s' = session_user s /\ committed s' = committed s)
  \/ (exists id hash s',
        login request s = (inr (Location "/"), s')
        /\ users (default (committed s) (g_db s)) !! username = Some (id, Some hash)
        /\ check_password_hash hash password = true
        /\ session_user s' = Some id /\ committed s' = committed s).
Proof.
  intros Hpost Huser Hpass.
  remember (login request s) as r eqn:Hr. unfold login in Hr.
  rewrite (bool_decide_eq_true_2 _ Hpost), Huser, Hpass in Hr.
  unfold ebind at 1 in Hr. unfold form_field at 1, eret at 1 in Hr.
  unfold ebind at 1 in Hr. unfold form_field at 1, eret at 1 in Hr.
  unfold ebind at 1 in Hr. unfold etry in Hr. unfold ebind at 1 in Hr.
  destruct (connect s) as [[e|[]] s0] eqn:Hdb;
    apply connect_run in Hdb as (Hc & Hu & Hl & Hs & Hconn).
  { left. eexists. split; [exact Hr|]. cbn. auto. }
  unfold ebind at 1 in Hr. unfold execute at 1 in Hr. rewrite Hconn in Hr.
  set (view := default (committed s) (g_db s)) in *.
  destruct (statement_error (StSelectUser username) view).
  { left. eexists. split; [exact Hr|]. cbn. auto. }
  destruct (users view !! username) as [[id [hash|]]|] eqn:Hrow.
  - unfold ebind at 1 in Hr. unfold check_password, eret at 1 in Hr.
    destruct (check_password_hash hash password) eqn:Hcheck.
    + right. exists id, hash. eexists. split; [exact Hr|]. cbn. auto.
    + left. eexists. split; [exact Hr|]. cbn. auto.
  - left. eexists. split; [exact Hr|]. cbn. auto.
  - left. eexists. split; [exact Hr|]. cbn. auto.
Qed.

(** X22. [login] opens a session only for a password that checks: when the
    session has another user after the view than before, the table the
    request saw has a user of the posted name, the posted password checks
    against the stored hash, and the session is that user's. *)
Theorem login_opens_session_only_after_check request s :
  session_user (snd (login request s)) <> session_user s ->
  exists username password id hash,
    form_username request = Some username
    /\ form_password request = Some password
    /\ users (default (committed s) (g_db s)) !! username = Some (id, Some hash)
    /\ check_password_hash hash password = true
    /\ session_user (snd (login request s)) = Some id
    /\ fst (login request s) = inr (Location "/").
Proof.
  destruct (decide (request_method request = "POST")) as [Hpost|Hget].
  2:{ unfold login. rewrite (bool_decide_eq_false_2 _ Hget). intros H. now contradict H. }
  destruct (form_username request) as [username|] eqn:Huser.
  2:{ unfold login. rewrite (bool_decide_eq_true_2 _ Hpost), Huser.
      intros H. now contradict H. }
  destruct (form_password request) as [password|] eqn:Hpass.
  2:{ unfold login. rewrite (bool_decide_eq_true_2 _ Hpost), Huser, Hpass.
      intros H. now contradict H. }
  destruct (login_run request username password s Hpost Huser Hpass)
    as [(s' & -> & Hsess & _)|(id & hash & s' & -> & Hrow & Hcheck & Hsess & _)];
    cbn [fst snd].
  - intros H. now contradict H.
  - intros _. exists username, password, id, hash. now repeat split.
Qed.

(** X23. A failed login tells nothing about its cause: whether the name is
    unknown, the password wrong, the stored hash missing or the database
    failing, a request that posts both fields and is not redirected gets the
    same text, and neither the session nor the tables change. *)
Theorem login_failure_is_uniform request username password s :
  request_method request = "POST" ->
  form_username request = Some username ->
  form_password request = Some password ->
  fst (login request s) <> inr (Location "/") ->
  fst (login request s) = inr (Body "ログイン失敗")
  /\ session_user (snd (login request s)) = session_user s
  /\ committed (snd (login request s)) = committed s.
Proof.
  intros Hpost Huser Hpass.
  destruct (login_run request username password s Hpost Huser Hpass)
    as [(s' & -> & Hsess & Hc)|(id & hash & s' & -> & _)]; cbn [fst snd].
  - auto.
  - intros H. now contradict H.
Qed.

(** Every way through [like] for a user who is logged in. *)
Lemma like_run user id s :
  is_authenticated user = true ->
  (exists s',
      like user id s = (inl (HTTPException 500), s')
      /\ committed s' = committed s
      /\ app_log s' = (app_log s ++ ["like/unlike failed"])%list)
  \/ (exists s',
        like user id s = (inr (Location (url_for_post id)), s')
        /\ g_db s' = Some (committed s')
        /\ users (committed s') = users (default (committed s) (g_db s))
        /\ likes (committed s')
           = (if bool_decide ((user_ident user, id) ∈ likes (default (committed s) (g_db s)))
              then likes (default (committed s) (g_db s)) ∖ {[(user_ident user, id)]}
              else {[(user_ident user, id)]} ∪ likes (default (committed s) (g_db s)))).
Proof.
  intros Hauth.
  remember (like user id s) as r eqn:Hr. unfold like in Hr.
  rewrite Hauth in Hr. cbn [negb] in Hr.
  unfold ebind at 1 in Hr. unfold eret at 1 in Hr. unfold etry in Hr.
  unfold ebind at 1 in Hr.
  destruct (connect s) as [[e|[]] s0] eqn:Hdb;
    apply connect_run in Hdb as (Hc & Hu & Hl & Hs & Hconn).
  { left. eexists. split; [exact Hr|]. cbn. now rewrite Hc, Hl. }
  cbv zeta in Hr. unfold ebind at 1 in Hr. unfold execute at 1 in Hr.
  rewrite Hconn in Hr. set (view := default (committed s) (g_db s)) in *.
  destruct (statement_error (StSelectLike (user_ident user) id) view).
  { left. eexists. split; [exact Hr|]. cbn. now rewrite Hc, Hl. }
  unfold ebind at 1 in Hr.
  destruct (bool_decide ((user_ident user, id) ∈ likes view)).
  - unfold execute at 1 in Hr. cbn [g_db] in Hr.
    destruct (statement_error (StDeleteLike (user_ident user) id) view).
    { left. eexists. split; [exact Hr|]. cbn. now rewrite Hc, Hl. }
    unfold ebind at 1 in Hr. unfold commit in Hr. cbn [g_db] in Hr.
    destruct (statement_error StCommit _).
    { left. eexists. split; [exact Hr|]. cbn. now rewrite Hc, Hl. }
    right. eexists. split; [exact Hr|]. cbn. auto.
  - unfold execute at 1 in Hr. cbn [g_db] in Hr.
    destruct (statement_error (StInsertLike (user_ident user) id) view).
    { left. eexists. split; [exact Hr|]. cbn. now rewrite Hc, Hl. }
    unfold ebind at 1 in Hr. unfold commit in Hr. cbn [g_db] in Hr.
    destruct (statement_error StCommit _).
    { left. eexists. split; [exact Hr|]. cbn. now rewrite Hc, Hl. }
    right. eexists. split; [exact Hr|]. cbn. auto.
Qed.



(** X26. Two requests in a row by the same user for the same post, both of which
    redirect: the likes are back to what the first request saw. *)
Theorem like_twice_restores user id s :
  fst (like user id s) = inr (Location (url_for_post id)) ->
  fst (like user id (snd (close_connection (snd (like user id s)))))
  = inr (Location (url_for_post id)) ->
  likes (committed (snd (like user id (snd (close_connection (snd (like user id s)))))))
  = likes (default (committed s) (g_db s)).
Proof.
  destruct (is_authenticated user) eqn:Hauth.
  2:{ unfold like at 1. rewrite Hauth. discriminate. }
  destruct (like_run user id s Hauth) as [(s1 & -> & _)|(s1 & -> & _ & _ & Hlikes1)];
    [discriminate|].
  intros _. cbn [snd close_connection].
  set (s2 := mkSite _ None _ _ _).
  destruct (like_run user id s2 Hauth) as [(s3 & -> & _)|(s3 & -> & _ & _ & Hlikes2)];
    [discriminate|].
  intros _. cbn [snd]. rewrite Hlikes2. cbn [s2 g_db committed default]. rewrite Hlikes1.
  set (view := likes (default (committed s) (g_db s))).
  destruct (bool_decide ((user_ident user, id) ∈ view)) eqn:Hin;
    [apply bool_decide_eq_true in Hin|apply bool_decide_eq_false in Hin].
  - rewrite bool_decide_eq_false_2
      by (rewrite elem_of_difference, elem_of_singleton; tauto).
    apply set_eq. intros pair.
    rewrite elem_of_union, elem_of_difference, elem_of_singleton.
    destruct (decide (pair = (user_ident user, id))) as [->|]; tauto.
  - rewrite bool_decide_eq_true_2
      by (rewrite elem_of_union, elem_of_singleton; tauto).
    apply set_eq. intros pair.
    rewrite elem_of_difference, elem_of_union, elem_of_singleton.
    destruct (decide (pair = (user_ident user, id))) as [->|]; tauto.
Qed.

End Account_properties.

(** ** Runs on the small platform *)

#[local] Existing Instance Toy.platform.

Example lower_JPG : PyStr.lower "Photo.JPG" = "photo.jpg".
Proof. reflexivity. Qed.

Example after_last_two_dots : PyStr.after_last "." "a.tar.gz" = Some "gz".
Proof. reflexivity. Qed.

Example join_words_inner :
  PyStr.join_words false false "  my  cat .png " = "my_cat_.png".
Proof. reflexivity. Qed.

Example is_blank_ideographic_space : PyStr.is_blank " 　" = true.
Proof. reflexivity. Qed.

Example splitext_leading_dots : Lib.os_path_splitext "..png" = ("..png", "").
Proof. reflexivity. Qed.

Example splitext_two_dots : Lib.os_path_splitext "a.tar.gz" = ("a.tar", ".gz").
Proof. reflexivity. Qed.

Example secure_filename_traversal :
  Lib.secure_filename (P := Toy.platform) "../../etc/pass wd_.PNG" = "etc_pass_wd_.PNG".
Proof. reflexivity. Qed.

Example upload_small_png :
  fst (Toy.run (Toy.upload "cat.png" "image/png" Toy.small_rgb) Toy.empty_fs)
  = inr (Some "0000000000004000923456789abcdef0.png", None).
Proof. vm_compute. reflexivity. Qed.

Example upload_huge_jpeg :
  fst (Toy.run (Toy.upload "big.jpg" "image/jpeg" Toy.huge_rgb) Toy.empty_fs)
  = inr (None, Some "画像のサイズが大きすぎます（最大 4000x4000）。").
Proof. vm_compute. reflexivity. Qed.

Example upload_text_as_png :
  fst (Toy.run (Toy.upload "notes.png" "image/png" Toy.text_file) Toy.empty_fs)
  = inr (None, Some "有効な画像ファイルをアップロードしてください").
Proof. vm_compute. reflexivity. Qed.

(** A name whose stem does not survive sanitising is stored without
    extension, which the codec refuses. *)
Example upload_japanese_name :
  fst (Toy.run (Toy.upload "写真.png" "image/png" Toy.small_rgb) Toy.empty_fs)
  = inr (None, Some "有効な画像ファイルをアップロードしてください").
Proof. vm_compute. reflexivity. Qed.

(** C1, where the code departs from it. The upload root cannot be made
    because a regular file has its path: the [FileExistsError] of
    [os.makedirs] reaches the caller instead of a pair. *)
Theorem makedirs_failure_escapes :
  fst (Toy.run (Toy.upload "a.png" "image/png" Toy.small_rgb) Toy.root_is_file)
  = inl (PyException "FileExistsError").
Proof. vm_compute. reflexivity. Qed.

Lemma run_eq {P : Platform} {A : Type} (m : M A) (w : World) (r : exn + A) :
  fst (m w) = r -> m w = (r, snd (m w)).
Proof. intros <-. apply surjective_pairing. Qed.

(** The thumbnail directory cannot be made: the upload succeeds and its file
    is there. *)
Lemma thumbnail_failure_is_swallowed_witness :
  let file := Toy.upload "cat.png" "image/png" Toy.small_rgb in
  fst (Toy.run file Toy.thumbs_is_file)
  = inr (Some "0000000000004000923456789abcdef0.png", None)
  /\ files (fs (snd (Toy.run file Toy.thumbs_is_file)))
       !! "static/uploads/0000000000004000923456789abcdef0.png"
     = Some (Toy.mkImage 50 50 "RGB").
Proof.
  intros file.
  pose (w := Toy.world Toy.thumbs_is_file).
  pose (image := Toy.mkImage 50 50 "RGB").
  pose (name := storage_name (P := Toy.platform) file w).
  pose (m1 := os_makedirs (P := Toy.platform) "static/uploads" (drawn w)).
  pose (m2 := _save_image (P := Toy.platform) image
                (Lib.os_path_join "static/uploads" name) (snd m1)).
  pose (m3 := create_thumbnail (P := Toy.platform) image
                (Lib.os_path_join "static/uploads" "thumbs") name
                DEFAULT_THUMBNAIL_SIZE (snd m2)).
  destruct (thumbnail_failure_is_swallowed (P := Toy.platform) file "static/uploads"
              DEFAULT_MAX_DIMENSIONS DEFAULT_THUMBNAIL_SIZE w image
              (snd m1) (snd m2) (PyException "FileExistsError") (snd m3))
    as (Hrun & Hsome & Hsame).
  - vm_compute. reflexivity.
  - vm_compute. reflexivity.
  - apply run_eq. vm_compute. reflexivity.
  - apply run_eq. vm_compute. reflexivity.
  - apply run_eq. vm_compute. reflexivity.
  - unfold Toy.run. fold w. rewrite Hrun. split; [vm_compute; reflexivity|].
    cbn [snd].
    replace "static/uploads/0000000000004000923456789abcdef0.png"
      with (Lib.os_path_join "static/uploads" (storage_name (P := Toy.platform) file w))
      by (vm_compute; reflexivity).
    etransitivity; [exact Hsame|]. vm_compute. reflexivity.
Defined.

Lemma rejection_writes_nothing_witness :
  let file := Toy.upload "notes.png" "image/png" Toy.text_file in
  fails DEFAULT_MAX_DIMENSIONS file DecodeRejected = true
  /\ fs (snd (Toy.run file Toy.thumbs_is_file)) = Toy.thumbs_is_file.
Proof.
  intros file. split; [vm_compute; reflexivity|].
  apply (rejection_writes_nothing (P := Toy.platform) file "static/uploads"
           DEFAULT_MAX_DIMENSIONS DEFAULT_THUMBNAIL_SIZE
           (Toy.world Toy.thumbs_is_file) DecodeRejected).
  vm_compute. reflexivity.
Defined.

(** C4 fails on the code: a text file named [notes.png] is rejected at
    decode, a grey image with alpha named [a.JPG] decodes and then fails at the
    store, and both runs return the same message. *)
Lemma decode_and_store_share_message :
  let bad := Toy.upload "notes.png" "image/png" Toy.text_file in
  let unsaved := Toy.upload "a.JPG" "image/jpeg" Toy.small_la in
  failure_of bad "static/uploads" DEFAULT_MAX_DIMENSIONS (Toy.world Toy.empty_fs)
  = Some DecodeRejected
  /\ failure_of unsaved "static/uploads" DEFAULT_MAX_DIMENSIONS (Toy.world Toy.empty_fs)
     = Some StoreFailed
  /\ fst (Toy.run bad Toy.empty_fs) = fst (Toy.run unsaved Toy.empty_fs).
Proof. vm_compute. repeat split. Qed.

Lemma failure_messages_distinct_but_store_witness :
  let bad := Toy.upload "notes.png" "image/png" Toy.text_file in
  let huge := Toy.upload "big.jpg" "image/jpeg" Toy.huge_rgb in
  exists m1 m2,
    fst (Toy.run bad Toy.empty_fs) = inr (None, Some m1) /\
    fst (Toy.run huge Toy.empty_fs) = inr (None, Some m2) /\
    (m1 = m2 ->
     DecodeRejected = DimensionRejected
     \/ (DecodeRejected = DecodeRejected /\ DimensionRejected = StoreFailed)
     \/ (DecodeRejected = StoreFailed /\ DimensionRejected = DecodeRejected)) /\
    (DecodeRejected = DecodeRejected /\ DimensionRejected = StoreFailed -> m1 = m2).
Proof.
  intros bad huge.
  apply (failure_messages_distinct_but_store (P := Toy.platform)
           bad "static/uploads" DEFAULT_MAX_DIMENSIONS DEFAULT_THUMBNAIL_SIZE
           (Toy.world Toy.empty_fs) DecodeRejected
           huge "static/uploads" DEFAULT_MAX_DIMENSIONS DEFAULT_THUMBNAIL_SIZE
           (Toy.world Toy.empty_fs) DimensionRejected).
  - vm_compute. reflexivity.
  - vm_compute. reflexivity.
Defined.

Lemma dimension_guard_strict_witness :
  let file := Toy.upload "big.jpg" "image/jpeg" Toy.huge_rgb in
  (fst (Toy.run file Toy.empty_fs) = inr (None, Some (size_message 4000 4000))
   <-> (6000 > 4000 \/ 6000 > 4000))
  /\ exists pre post,
       size_message 4000 4000 = pre +:+ (pretty 4000 +:+ "x" +:+ pretty 4000) +:+ post.
Proof.
  intros file.
  apply (dimension_guard_strict (P := Toy.platform) file "static/uploads"
           DEFAULT_MAX_DIMENSIONS DEFAULT_THUMBNAIL_SIZE (Toy.world Toy.empty_fs)
           (Toy.mkImage 6000 6000 "RGB")).
  - vm_compute. reflexivity.
  - vm_compute. reflexivity.
  - vm_compute. reflexivity.
  - vm_compute. reflexivity.
Defined.

(** C6 fails on the code: a grey image with an alpha channel (mode [LA]) is
    stored as it is, full size and thumbnail alike; nothing converts it to
    RGB. *)
Lemma LA_image_saved_unconverted :
  let file := Toy.upload "a.png" "image/png" Toy.small_la in
  palette_or_alpha_mode "LA" = true
  /\ fst (Toy.run file Toy.empty_fs)
     = inr (Some "0000000000004000923456789abcdef0.png", None)
  /\ files (fs (snd (Toy.run file Toy.empty_fs)))
       !! "static/uploads/0000000000004000923456789abcdef0.png"
     = Some (Toy.mkImage 50 50 "LA")
  /\ files (fs (snd (Toy.run file Toy.empty_fs)))
       !! "static/uploads/thumbs/0000000000004000923456789abcdef0.png"
     = Some (Toy.mkImage 50 50 "LA").
Proof. vm_compute. repeat split. Qed.

Lemma conversion_only_for_RGBA_and_P_witness :
  let image := Toy.mkImage 50 50 "LA" in
  let w := Toy.world Toy.empty_fs in
  exists stored,
    files (fs (snd (_save_image image "static/uploads/a.png" w)))
      !! "static/uploads/a.png" = Some stored
    /\ if bool_decide (Image_mode image ∈ ["RGBA"; "P"])
       then Image_convert image "RGB" = inr stored
       else stored = image.
Proof.
  intros image w.
  apply (proj1 (conversion_only_for_RGBA_and_P (P := Toy.platform) image
                  "static/uploads/a.png" "static/uploads/thumbs" "a.png"
                  DEFAULT_THUMBNAIL_SIZE w)).
  apply run_eq. vm_compute. reflexivity.
Defined.

Lemma stored_name_has_allowed_extension_witness :
  let file := Toy.upload "My Cat.PNG" "image/png" Toy.small_rgb in
  let w := Toy.world Toy.empty_fs in
  exists e,
    "0000000000004000923456789abcdef0.PNG" = token_of w +:+ String "." e
    /\ String.length (token_of w) = 32%nat
    /\ PyStr.forallb Lib.is_hex_char (token_of w) = true
    /\ snd (Lib.os_path_splitext (Lib.secure_filename (original_name file)))
       = String "." e
    /\ PyStr.after_last "." (original_name file) = Some e
    /\ PyStr.lower e ∈ ALLOWED_EXTENSIONS
    /\ allowed_file "0000000000004000923456789abcdef0.PNG" = true.
Proof.
  intros file w.
  apply (stored_name_has_allowed_extension (P := Toy.platform) file "static/uploads"
           DEFAULT_MAX_DIMENSIONS DEFAULT_THUMBNAIL_SIZE w
           "0000000000004000923456789abcdef0.PNG"
           (snd (process_uploaded_image file "static/uploads"
                   DEFAULT_MAX_DIMENSIONS DEFAULT_THUMBNAIL_SIZE w))).
  - vm_compute. reflexivity.
  - apply run_eq. vm_compute. reflexivity.
Defined.

(** C8 fails on the code as it is worded: with a declared type that is not an
    image type and a name whose extension is not allowed, the error is that of
    the extension, not that of the content type. *)
Lemma extension_error_before_content_type :
  let file := Toy.upload "a.txt" "text/plain" Toy.small_rgb in
  is_image_type (declared_type file) = false
  /\ fst (Toy.run file Toy.empty_fs)
     = inr (None, Some "画像ファイル（png,jpg,jpeg,gif,webp）をアップロードしてください")
  /\ fst (Toy.run file Toy.empty_fs)
     <> inr (None, Some "画像ファイルをアップロードしてください").
Proof. vm_compute. repeat split. discriminate. Qed.

Lemma content_type_gate_ignores_bytes_witness :
  let file := Toy.upload "a.png" "text/plain" Toy.small_rgb in
  let w := Toy.world Toy.empty_fs in
  process_uploaded_image (replace_stream Toy.text_file file) "static/uploads"
    DEFAULT_MAX_DIMENSIONS DEFAULT_THUMBNAIL_SIZE w
  = process_uploaded_image file "static/uploads"
      DEFAULT_MAX_DIMENSIONS DEFAULT_THUMBNAIL_SIZE w
  /\ snd (process_uploaded_image file "static/uploads"
           DEFAULT_MAX_DIMENSIONS DEFAULT_THUMBNAIL_SIZE w) = w
  /\ (fails DEFAULT_MAX_DIMENSIONS file GateNoFile = false ->
      fails DEFAULT_MAX_DIMENSIONS file GateExtension = false ->
      fst (process_uploaded_image file "static/uploads"
             DEFAULT_MAX_DIMENSIONS DEFAULT_THUMBNAIL_SIZE w)
      = inr (None, Some "画像ファイルをアップロードしてください")).
Proof.
  intros file w.
  apply (content_type_gate_ignores_bytes (P := Toy.platform) file Toy.text_file
           "static/uploads" DEFAULT_MAX_DIMENSIONS DEFAULT_THUMBNAIL_SIZE w).
  vm_compute. reflexivity.
Defined.

(** Post 7: the full-size path is a directory, so that its removal raises;
    the thumbnail is removed and the record is deleted all the same. *)
Lemma delete_cleans_both_paths_witness :
  let r := delete Toy.alice 7 Toy.site in
  fst r = inr (Redirect "home")
  /\ posts (snd r) = base.delete 7 (default (posts Toy.site) (conn Toy.site))
  /\ fs (snd r)
     = attempt_removal "static/uploads/thumbs/abc.png"
         (attempt_removal "static/uploads/abc.png" (fs Toy.site))
  /\ (remove_error "static/uploads/abc.png" (fs Toy.site) = None ->
      files (fs (snd r)) !! "static/uploads/abc.png" = None)
  /\ (remove_error "static/uploads/thumbs/abc.png"
        (attempt_removal "static/uploads/abc.png" (fs Toy.site)) = None ->
      files (fs (snd r)) !! "static/uploads/thumbs/abc.png" = None).
Proof.
  apply (delete_cleans_both_paths (P := Toy.platform) Toy.alice 7 Toy.site
           (mkPost (Some 1) (Some "abc.png")) 1 "abc.png").
  - intros op t. reflexivity.
  - reflexivity.
  - vm_compute. reflexivity.
  - reflexivity.
  - left. reflexivity.
  - reflexivity.
  - reflexivity.
Defined.

Example delete_logs_failed_removal :
  log (snd (delete Toy.alice 7 Toy.site))
  = ["failed to remove file: static/uploads/abc.png"]
  /\ files (fs (snd (delete Toy.alice 7 Toy.site))) !! "static/uploads/thumbs/abc.png"
     = None
  /\ posts (snd (delete Toy.alice 7 Toy.site)) !! 7 = None.
Proof. vm_compute. repeat split. Qed.

(** A stranger is refused with status 500, not 403: [abort(403)] is raised
    inside the [try] of the view, whose handler aborts with 500. *)
Example delete_by_stranger :
  fst (delete (mkUser true 2 "bob") 7 Toy.site) = inl (HTTPException 500).
Proof. vm_compute. reflexivity. Qed.

Lemma earliest_stage_decides_error_witness :
  let file := Toy.upload "a.txt" "text/plain" Toy.text_file in
  fails DEFAULT_MAX_DIMENSIONS file GateContentType = true
  /\ fails DEFAULT_MAX_DIMENSIONS file DecodeRejected = true
  /\ fst (Toy.run file Toy.empty_fs)
     = inr (None, Some (failure_message DEFAULT_MAX_DIMENSIONS GateExtension)).
Proof.
  intros file. split; [vm_compute; reflexivity|]. split; [vm_compute; reflexivity|].
  apply (proj1 (earliest_stage_decides_error (P := Toy.platform) file "static/uploads"
                  DEFAULT_MAX_DIMENSIONS DEFAULT_THUMBNAIL_SIZE
                  (Toy.world Toy.empty_fs))
           [GateNoFile] GateExtension
           [GateContentType; DecodeRejected; DimensionRejected]).
  - reflexivity.
  - intros j Hj. apply list_elem_of_In in Hj. destruct Hj as [<-|[]].
    vm_compute. reflexivity.
  - vm_compute. reflexivity.
Defined.

(** ** More runs on the small platform *)

Lemma upload_touches_only_its_paths_witness :
  let file := Toy.upload "cat.png" "image/png" Toy.small_rgb in
  let w := Toy.world Toy.empty_fs in
  let w' := snd (Toy.run file Toy.empty_fs) in
  keeps_db w w'
  /\ dirs (fs w) ⊆ dirs (fs w')
  /\ forall q, files (fs w') !! q <> files (fs w) !! q ->
       q = full_path file "static/uploads" w \/ q = thumb_path file "static/uploads" w.
Proof.
  intros file w w'.
  apply (upload_touches_only_its_paths (P := Toy.platform) file "static/uploads"
           DEFAULT_MAX_DIMENSIONS DEFAULT_THUMBNAIL_SIZE w
           (inr (Some "0000000000004000923456789abcdef0.png", None)) w').
  apply run_eq. vm_compute. reflexivity.
Defined.

Lemma successful_upload_stores_file_witness :
  let file := Toy.upload "../../etc/My Cat.PNG" "image/png" Toy.small_rgb in
  let w' := snd (Toy.run file Toy.empty_fs) in
  exists image stored,
    decoded file = Some image
    /\ PyStr.forallb Lib.filename_char "0000000000004000923456789abcdef0.PNG" = true
    /\ PyStr.contains "/" "0000000000004000923456789abcdef0.PNG" = false
    /\ files (fs w') !! (Lib.slashed "static/uploads" +:+ "0000000000004000923456789abcdef0.PNG")
       = Some stored
    /\ (if bool_decide (Image_mode image ∈ ["RGBA"; "P"])
        then Image_convert image "RGB" = inr stored
        else stored = image)
    /\ "static/uploads" ∈ dirs (fs w').
Proof.
  intros file w'.
  apply (successful_upload_stores_file (P := Toy.platform) file "static/uploads"
           DEFAULT_MAX_DIMENSIONS DEFAULT_THUMBNAIL_SIZE (Toy.world Toy.empty_fs)
           "0000000000004000923456789abcdef0.PNG" w').
  apply run_eq. vm_compute. reflexivity.
Defined.

Lemma thumbnail_implies_stored_image_witness :
  let file := Toy.upload "cat.png" "image/png" Toy.small_rgb in
  let w := Toy.world Toy.empty_fs in
  fst (Toy.run file Toy.empty_fs) = inr (Some (storage_name file w), None)
  /\ is_Some (files (fs (snd (Toy.run file Toy.empty_fs)))
                !! full_path file "static/uploads" w).
Proof.
  intros file w.
  apply (thumbnail_implies_stored_image (P := Toy.platform) file "static/uploads"
           DEFAULT_MAX_DIMENSIONS DEFAULT_THUMBNAIL_SIZE w).
  - vm_compute. reflexivity.
  - exists (Toy.mkImage 50 50 "RGB"). vm_compute. reflexivity.
Defined.

Lemma second_upload_keeps_first_witness :
  let file := Toy.upload "cat.png" "image/png" Toy.small_rgb in
  let w1 := snd (Toy.run file Toy.empty_fs) in
  let second :=
    process_uploaded_image file "static/uploads"
      DEFAULT_MAX_DIMENSIONS DEFAULT_THUMBNAIL_SIZE w1 in
  (forall name2 error,
      fst second = inr (Some name2, error) ->
      name2 <> "0000000000004000923456789abcdef0.png")
  /\ files (fs (snd second))
       !! Lib.os_path_join "static/uploads" "0000000000004000923456789abcdef0.png"
     = files (fs w1)
         !! Lib.os_path_join "static/uploads" "0000000000004000923456789abcdef0.png".
Proof.
  intros file w1 second.
  apply (second_upload_keeps_first (P := Toy.platform) file file "static/uploads"
           DEFAULT_MAX_DIMENSIONS DEFAULT_MAX_DIMENSIONS
           DEFAULT_THUMBNAIL_SIZE DEFAULT_THUMBNAIL_SIZE (Toy.world Toy.empty_fs)
           "0000000000004000923456789abcdef0.png" w1).
  - apply run_eq. vm_compute. reflexivity.
  - vm_compute. discriminate.
Defined.


Lemma delete_by_stranger_is_refused_witness :
  fst (delete ToySite.bob 7 Toy.site) = inl (HTTPException 500)
  /\ fs (snd (delete ToySite.bob 7 Toy.site)) = fs Toy.site
  /\ posts (snd (delete ToySite.bob 7 Toy.site)) = posts Toy.site
  /\ log (snd (delete ToySite.bob 7 Toy.site))
     = (log Toy.site ++ ["failed to delete post"])%list.
Proof.
  apply (delete_by_stranger_is_refused (P := Toy.platform) ToySite.bob 7 Toy.site
           (mkPost (Some 1) (Some "abc.png")) 1).
  - intros op t. reflexivity.
  - reflexivity.
  - vm_compute. reflexivity.
  - reflexivity.
  - vm_compute. discriminate.
  - vm_compute. discriminate.
Defined.

Lemma delete_of_missing_post_witness :
  fst (delete Toy.alice 8 Toy.site) = inr (Redirect "home")
  /\ fs (snd (delete Toy.alice 8 Toy.site)) = fs Toy.site
  /\ posts (snd (delete Toy.alice 8 Toy.site)) = posts Toy.site
  /\ log (snd (delete Toy.alice 8 Toy.site)) = log Toy.site.
Proof.
  apply (delete_of_missing_post (P := Toy.platform) Toy.alice 8 Toy.site).
  - intros op t. reflexivity.
  - reflexivity.
  - vm_compute. reflexivity.
Defined.

Lemma delete_failing_statement_leaves_record_witness :
  let w := ToySite.locked_site in
  fst (delete (P := ToySite.failing_delete) Toy.alice 7 w) = inl (HTTPException 500)
  /\ posts (snd (delete (P := ToySite.failing_delete) Toy.alice 7 w)) = posts w
  /\ fs (snd (delete (P := ToySite.failing_delete) Toy.alice 7 w))
     = foldl (fun f path => attempt_removal (P := ToySite.failing_delete) path f) (fs w)
         (cleanup_paths "abc.png").
Proof.
  intros w.
  apply (delete_failing_statement_leaves_record (P := ToySite.failing_delete)
           Toy.alice 7 w (mkPost (Some 1) (Some "abc.png")) 1 "abc.png"
           (PyException "OperationalError")).
  - reflexivity.
  - reflexivity.
  - reflexivity.
  - reflexivity.
  - vm_compute. reflexivity.
  - reflexivity.
  - left. reflexivity.
  - reflexivity.
Defined.


Lemma main_without_force_keeps_files_witness :
  let q := "/srv/app/static/uploads/thumbs/c.gif" in
  files (fs (snd (main (E := ToySite.script) false ToySite.gallery))) !! q
  = files (fs ToySite.gallery) !! q.
Proof.
  intros q.
  apply (main_without_force_keeps_files (P := Toy.platform) (E := ToySite.script)
           ToySite.gallery q).
  exists (Toy.mkImage 1 1 "RGB"). vm_compute. reflexivity.
Defined.

Lemma main_summary_witness :
  let w := ToySite.gallery in
  let w' := snd (main (E := ToySite.script) false w) in
  exists names t,
    listdir (ScriptEnv := ToySite.script) (UPLOAD_DIR (E := ToySite.script))
      (fs (snd (os_makedirs (THUMB_DIR (E := ToySite.script)) w))) = inr names
    /\ created t + failed t + skipped t
       = Z.of_nat (length (List.filter
                             (fun f => bool_decide
                                (is_Some (files (fs w)
                                            !! Lib.os_path_join
                                                 (UPLOAD_DIR (E := ToySite.script)) f)))
                             names))
    /\ created t + failed t <= total t <= created t + failed t + skipped t
    /\ forall dst, ("作成: " +:+ dst) ∈ printed t -> is_Some (files (fs w') !! dst).
Proof.
  intros w w'.
  pose (out := match fst (main (E := ToySite.script) false w) with
               | inr (_, lines) => lines
               | inl _ => []
               end).
  destruct (main_summary (P := Toy.platform) (E := ToySite.script) false w 0 out w')
    as [(Hone & _)|(_ & names & t & Hnames & _ & Hsum & _ & _ & Htotal & _ & Hlines)].
  - apply run_eq. vm_compute. reflexivity.
  - discriminate Hone.
  - exists names, t. repeat split; auto; apply Htotal.
Defined.


Lemma upload_without_redirect_commits_nothing_witness :
  let w := Toy.world Toy.empty_fs in
  posts (snd (upload (I := ToySite.inserts) Toy.alice ToySite.untitled_post w)) = posts w.
Proof.
  intros w.
  apply (upload_without_redirect_commits_nothing (P := Toy.platform)
           (I := ToySite.inserts) Toy.alice ToySite.untitled_post w).
  vm_compute. discriminate.
Defined.

Lemma upload_insert_failure_leaves_file_witness :
  let w := Toy.world Toy.empty_fs in
  let w' := snd (upload (I := ToySite.failing_inserts) Toy.alice ToySite.cat_post w) in
  exists name w1,
    process_uploaded_image (files_image ToySite.cat_post) "static/uploads"
      DEFAULT_MAX_DIMENSIONS DEFAULT_THUMBNAIL_SIZE w = (inr (Some name, None), w1)
    /\ fs w' = fs w1
    /\ is_Some (files (fs w') !! ("static/uploads/" +:+ name))
    /\ posts w' = posts w
    /\ log w' = (log w ++ ["failed to insert post"])%list.
Proof.
  intros w w'.
  apply (upload_insert_failure_leaves_file (P := Toy.platform)
           (I := ToySite.failing_inserts) Toy.alice ToySite.cat_post w
           (Template "upload.html")).
  vm_compute. reflexivity.
Defined.

Lemma upload_then_delete_round_trip_witness :
  let w := Toy.world Toy.empty_fs in
  let w1 := snd (close_db (snd (upload (I := ToySite.inserts) Toy.alice
                                  ToySite.cat_post w))) in
  let id := lastrowid (PostsInsert := ToySite.inserts) (posts w) in
  fst (delete Toy.alice id w1) = inr (Redirect "home")
  /\ posts (snd (delete Toy.alice id w1)) = posts w
  /\ forall q,
       files (fs (snd (delete Toy.alice id w1))) !! q
       = if bool_decide
              (q = full_path (files_image ToySite.cat_post) "static/uploads" w
               \/ q = thumb_path (files_image ToySite.cat_post) "static/uploads" w)
         then None
         else files (fs w) !! q.
Proof.
  apply (upload_then_delete_round_trip (P := Toy.platform) (I := ToySite.inserts)
           Toy.alice ToySite.cat_post (Toy.world Toy.empty_fs)).
  - reflexivity.
  - vm_compute. reflexivity.
  - intros op t. reflexivity.
  - intros path f. reflexivity.
  - vm_compute. reflexivity.
Defined.

Lemma register_password_rule_witness :
  let request := ToySite.credentials "bob" "s3cret-pass" in
  (salts (snd (register (E := ToySite.accounts) request ToySite.forum))
   = S (salts ToySite.forum)
   <-> exists p,
         p <> "" /\ PyStr.forallb is_printable p = true
         /\ ("s3cret-pass" = p \/ "s3cret-pass" = p +:+ String "010" "")
         /\ 8 <= Z.of_nat (String.length "s3cret-pass") <= 128)
  /\ (salts (snd (register (E := ToySite.accounts) request ToySite.forum))
      <> S (salts ToySite.forum) ->
      exists message,
        register (E := ToySite.accounts) request ToySite.forum
        = (inr ([message], Template "register.html"), ToySite.forum)).
Proof.
  intros request.
  apply (register_password_rule (E := ToySite.accounts) request "bob" "s3cret-pass"
           ToySite.forum); reflexivity.
Defined.

Lemma register_redirect_means_new_account_witness :
  let request := ToySite.credentials "bob" "s3cret-pass" in
  let s := ToySite.forum in
  let s' := snd (register (E := ToySite.accounts) request s) in
  ([] : list string) = [] /\ "/login" = "/login"
  /\ exists username raw,
       form_username request = Some username
       /\ form_password request = Some raw
       /\ users (default (committed s) (g_db s)) !! username = None
       /\ committed s'
          = mkTables
              (<[username := (new_user_id (Accounts := ToySite.accounts)
                                (default (committed s) (g_db s)),
                              Some (generate_password_hash (Accounts := ToySite.accounts)
                                      raw (salts s)))]>
                 (users (default (committed s) (g_db s))))
              (likes (default (committed s) (g_db s)))
       /\ session_user s' = session_user s.
Proof.
  intros request s s'.
  apply (register_redirect_means_new_account (E := ToySite.accounts) request s [] "/login").
  vm_compute. reflexivity.
Defined.

Lemma register_without_redirect_commits_nothing_witness :
  let request := ToySite.credentials "alice" "s3cret-pass" in
  committed (snd (register (E := ToySite.accounts) request ToySite.forum))
  = committed ToySite.forum.
Proof.
  intros request.
  apply (register_without_redirect_commits_nothing (E := ToySite.accounts) request
           ToySite.forum).
  vm_compute. discriminate.
Defined.

Lemma login_opens_session_only_after_check_witness :
  let request := ToySite.credentials "alice" "correct horse" in
  let s := ToySite.forum in
  exists username password id hash,
    form_username request = Some username
    /\ form_password request = Some password
    /\ users (default (committed s) (g_db s)) !! username = Some (id, Some hash)
    /\ check_password_hash (Accounts := ToySite.accounts) hash password = true
    /\ session_user (snd (login (E := ToySite.accounts) request s)) = Some id
    /\ fst (login (E := ToySite.accounts) request s) = inr (Location "/").
Proof.
  intros request s.
  apply (login_opens_session_only_after_check (E := ToySite.accounts) request s).
  vm_compute. discriminate.
Defined.

Lemma login_failure_is_uniform_witness :
  let request := ToySite.credentials "alice" "wrong horse" in
  let s := ToySite.forum in
  fst (login (E := ToySite.accounts) request s) = inr (Body "ログイン失敗")
  /\ session_user (snd (login (E := ToySite.accounts) request s)) = session_user s
  /\ committed (snd (login (E := ToySite.accounts) request s)) = committed s.
Proof.
  intros request s.
  apply (login_failure_is_uniform (E := ToySite.accounts) request "alice" "wrong horse" s).
  - reflexivity.
  - reflexivity.
  - reflexivity.
  - vm_compute. discriminate.
Defined.



Lemma like_twice_restores_witness :
  let s := ToySite.forum in
  likes (committed
           (snd (like (E := ToySite.accounts) Toy.alice 7
                   (snd (close_connection
                           (snd (like (E := ToySite.accounts) Toy.alice 7 s)))))))
  = likes (default (committed s) (g_db s)).
Proof.
  intros s.
  apply (like_twice_restores (E := ToySite.accounts) Toy.alice 7 s).
  - vm_compute. reflexivity.
  - vm_compute. reflexivity.
Defined.
